(** * Intact_Stability: hydrostatics, stability criteria, strength and crane lift

    A shallow embedding of the calculation routines of the Django application
    (helpers.py, criteria.py, ls_plot.py and crane.py of the Intact_Stability
    package) together with the properties stated for them.

    Numbers.  The Python code computes with floats (and the ints that JSON
    delivers).  They are embedded as the real numbers of the Standard Library:
    arithmetic is exact, [math.sqrt], [math.atan], [math.acos] and [math.pi]
    are [sqrt], [atan], [acos] and [PI].  What Python does beyond arithmetic is
    kept: a division by zero raises [ZeroDivisionError], [math.acos] and
    [math.asin] raise [ValueError] outside [-1, 1], a missing dictionary key
    raises [KeyError], a local name read before it was bound raises
    [UnboundLocalError].  Where the operands are numpy scalars a division by
    zero does not raise: it yields [inf] or [nan], which the reals do not have;
    that outcome is kept apart as [NonFinite].

    Dictionaries.  Python dictionaries keep insertion order and the code relies
    on it (first table found by nested traversal), so they are association
    lists. *)

From Stdlib Require Import Reals Lra Lia List String ZArith Bool Sorted.
Import ListNotations.
Open Scope R_scope.

(** ** Python outcomes *)

Inductive exn : Type :=
| ZeroDivisionError
| ValueError
| KeyError
| TypeError
| IndexError
| AttributeError
| UnboundLocalError
| NonFinite.

Inductive result (A : Type) : Type :=
| Ok (a : A)
| Raise (e : exn).

Arguments Ok {A} a.
Arguments Raise {A} e.

Definition bind {A B : Type} (m : result A) (k : A -> result B) : result B :=
  match m with
  | Ok a => k a
  | Raise e => Raise e
  end.

Notation "x <- m ;; k" := (bind m (fun x => k))
  (at level 61, m at next level, right associativity).

Fixpoint mapM {A B : Type} (f : A -> result B) (l : list A) : result (list B) :=
  match l with
  | [] => Ok []
  | a :: l' => b <- f a ;; bs <- mapM f l' ;; Ok (b :: bs)
  end.

(** ** Python numbers *)

Definition Reqb (a b : R) : bool := if Req_dec_T a b then true else false.
Definition Rltb' (a b : R) : bool := if Rlt_dec a b then true else false.
Definition Rleb' (a b : R) : bool := if Rle_dec a b then true else false.

Arguments Reqb : simpl never.
Arguments Rltb' : simpl never.
Arguments Rleb' : simpl never.

Infix "=?" := Reqb (at level 70) : R_scope.
Infix "<?" := Rltb' (at level 70) : R_scope.
Infix "<=?" := Rleb' (at level 70) : R_scope.

(** [a / b] on Python floats. *)
Definition py_div (a b : R) : result R :=
  if b =? 0 then Raise ZeroDivisionError else Ok (a / b).

(** [math.acos] and [math.asin]: a domain error outside [-1, 1]. *)
Definition py_acos (x : R) : result R :=
  if (-1 <=? x) && (x <=? 1) then Ok (acos x) else Raise ValueError.

Definition py_asin (x : R) : result R :=
  if (-1 <=? x) && (x <=? 1) then Ok (asin x) else Raise ValueError.

(** [math.degrees]. *)
Definition degrees (x : R) : R := x * 180 / PI.

(** [sum] of a list, left to right from 0. *)
Definition sum (l : list R) : R := fold_left Rplus l 0.

(** [round(x)]: the nearest integer, ties to the even one. *)
Definition round_half_even (x : R) : Z :=
  let n := (up x - 1)%Z in
  let f := x - IZR n in
  if f <? 1/2 then n
  else if 1/2 <? f then (n + 1)%Z
  else if Z.even n then n else (n + 1)%Z.

(** [round(x, ndigits)]. *)
Definition py_round (x : R) (ndigits : nat) : R :=
  IZR (round_half_even (x * 10 ^ ndigits)) / 10 ^ ndigits.

(** [max(l)] and [min(l)] of a list: [ValueError] on the empty one. *)
Definition py_max (l : list R) : result R :=
  match l with
  | [] => Raise ValueError
  | a :: l' => Ok (fold_left Rmax l' a)
  end.

Definition py_min (l : list R) : result R :=
  match l with
  | [] => Raise ValueError
  | a :: l' => Ok (fold_left Rmin l' a)
  end.

(** Dictionary lookup [d[k]] and [d.get(k)] on an insertion-ordered dictionary. *)
Fixpoint dict_get {V : Type} (d : list (string * V)) (k : string) : option V :=
  match d with
  | [] => None
  | (k', v) :: d' => if String.eqb k k' then Some v else dict_get d' k
  end.

Definition dict_item {V : Type} (d : list (string * V)) (k : string) : result V :=
  match dict_get d k with
  | Some v => Ok v
  | None => Raise KeyError
  end.

(** [d[k] = v]: the value is replaced in place, a new key goes last. *)
Fixpoint dict_set {V : Type} (d : list (string * V)) (k : string) (v : V)
  : list (string * V) :=
  match d with
  | [] => [(k, v)]
  | (k', v') :: d' =>
      if String.eqb k k' then (k', v) :: d' else (k', v') :: dict_set d' k v
  end.

(** ** Weight aggregation (helpers.py) *)

Module Weights.

(** An entry of [weight_data]: the keys read by [get_fixed_weight]. *)
Record WeightItem : Type := {
  weight : R;
  lcg : R;
  tcg : R;
  vcg : R
}.

(** The loop of [get_fixed_weight]: running totals of weight and moments. *)
Definition accumulate (acc : R * R * R * R) (fixed_weight : WeightItem)
  : R * R * R * R :=
  let '(w, l, t, v) := acc in
  (w + weight fixed_weight,
   l + weight fixed_weight * lcg fixed_weight,
   t + weight fixed_weight * tcg fixed_weight,
   v + weight fixed_weight * vcg fixed_weight).

Definition get_fixed_weight (weight_data : list WeightItem) : R * R * R * R :=
  let '(w, l, t, v) := fold_left accumulate weight_data (0, 0, 0, 0) in
  if w =? 0
  then (py_round w 4, l, t, v)
  else (py_round w 4, l / w, t / w, v / w).

(** An entry of [tank_vals]: the interpolated properties of one tank. *)
Record TankVals : Type := {
  t_volume : R;
  t_weight : R;
  t_lcg : R;
  t_tcg : R;
  t_vcg : R;
  t_fsm : R
}.

(** [get_tank_weight] from the point where [tank_vals] has been filled in:
    the totals it returns next to [tank_vals]. *)
Definition get_tank_weight_totals (tank_vals : list TankVals)
  : R * R * R * R * R :=
  let w := sum (map t_weight tank_vals) in
  if w =? 0 then (0, 0, 0, 0, 0)
  else
    (w,
     sum (map (fun tank => t_lcg tank * t_weight tank) tank_vals) / w,
     sum (map (fun tank => t_tcg tank * t_weight tank) tank_vals) / w,
     sum (map (fun tank => t_vcg tank * t_weight tank) tank_vals) / w,
     sum (map t_fsm tank_vals)).

End Weights.

(** ** Longitudinal strength: the buoyancy distribution (ls_plot.py) *)

Module Strength.

(** [interp1d(xs, ys, kind='linear', bounds_error=False, fill_value=fill)] on a
    table that is ascending in [xs], as the distribution files are: linear
    between two neighbouring samples, [fill] outside the table.  [xs] and [ys]
    are two columns of one data frame, hence of one length. *)
Fixpoint interp1d_linear (xs ys : list R) (fill : R) (x : R) : R :=
  match xs, ys with
  | x0 :: ((x1 :: _) as xs'), y0 :: ((y1 :: _) as ys') =>
      if (x0 <=? x) && (x <=? x1)
      then y0 + (x - x0) * (y1 - y0) / (x1 - x0)
      else interp1d_linear xs' ys' fill x
  | _, _ => fill
  end.

(** One entry of [draft_vals]. *)
Definition draft_val (draft_aft trim length x : R) : result R :=
  if x =? 0
  then q <- py_div trim length ;; Ok (draft_aft + q)
  else q <- py_div trim (length * x) ;; Ok (draft_aft + q).

(** The list [buoyancy_distribution] before the correction factor.  The
    interpolant is built from one sample at least. *)
Definition uncorrected_buoyancy
  (x_vals ls_x_vals ls_buoyancy_distribution : list R)
  (total_dead_weight length draft_aft trim : R) : result (list R) :=
  bd_interp_func <- (match ls_x_vals with
                     | [] => Raise ValueError
                     | _ => Ok (interp1d_linear ls_x_vals
                                                ls_buoyancy_distribution 0)
                     end) ;;
  let sample_y_vals := map bd_interp_func x_vals in
  draft_vals <- mapM (draft_val draft_aft trim length) x_vals ;;
  mapM (fun '(bd, d) =>
          q <- py_div (total_dead_weight * d) (sum draft_vals) ;; Ok (bd + q))
       (combine sample_y_vals draft_vals).

(** The correction factor and the corrected list.  The sums are numpy scalars
    here, so a zero [sum(buoyancy_distribution)] gives [inf]/[nan], not an
    exception. *)
Definition apply_correction (weight_distribution buoyancy_distribution : list R)
  : result (list R) :=
  if sum buoyancy_distribution =? 0 then Raise NonFinite
  else
    let correction_factor :=
      1 + (sum weight_distribution - sum buoyancy_distribution)
          / sum buoyancy_distribution in
    Ok (map (fun bd => bd * correction_factor) buoyancy_distribution).

Definition get_buoyancy_distribution
  (x_vals weight_distribution ls_x_vals ls_buoyancy_distribution : list R)
  (total_dead_weight length draft_aft trim : R) : result (list R) :=
  buoyancy_distribution <-
    uncorrected_buoyancy x_vals ls_x_vals ls_buoyancy_distribution
                         total_dead_weight length draft_aft trim ;;
  apply_correction weight_distribution buoyancy_distribution.

End Strength.

(** ** Stability criteria (criteria.py) *)

Module Criteria.

(** [np.argmax] of a boolean array: the first [True], 0 when there is none;
    [ValueError] on an empty array. *)
Fixpoint first_true (l : list bool) : nat :=
  match l with
  | [] => 0
  | b :: l' => if b then 0 else S (first_true l')
  end.

Definition argmax_bool (l : list bool) : result nat :=
  match l with
  | [] => Raise ValueError
  | _ => Ok (if existsb (fun b => b) l then first_true l else 0%nat)
  end.

(** [l[0]] and [l[-1]]. *)
Definition py_first (l : list R) : result R :=
  match l with
  | [] => Raise IndexError
  | a :: _ => Ok a
  end.

Definition py_last (l : list R) : result R :=
  match l with
  | [] => Raise IndexError
  | a :: l' => Ok (last l' a)
  end.

(** [l[i : j]] for [0 <= i]. *)
Definition slice {A : Type} (l : list A) (i j : nat) : list A :=
  firstn (j - i) (skipn i l).

(** [scipy.integrate.trapezoid(ys, xs)]. *)
Fixpoint trapezoid (ys xs : list R) : R :=
  match xs, ys with
  | x0 :: ((x1 :: _) as xs'), y0 :: ((y1 :: _) as ys') =>
      (x1 - x0) * (y1 + y0) / 2 + trapezoid ys' xs'
  | _, _ => 0
  end.

(** [get_plot_area].  [x_vals] and [y_vals] are the keys and the values of one
    dictionary in every call, hence of one length. *)
Definition get_plot_area (x_vals y_vals : list R) (start_x : R)
  (end_x : option R) : result R :=
  end_x <- match end_x with
           | Some e => Ok e
           | None => py_last x_vals
           end ;;
  start_index <- argmax_bool (map (fun x => start_x <=? x) x_vals) ;;
  x_last <- py_last x_vals ;;
  end_index <- (if end_x <=? x_last
                then i <- argmax_bool (map (fun x => end_x <=? x) x_vals) ;;
                     Ok (Z.of_nat i)
                else Ok (-1)%Z) ;;
  if (Z.of_nat (List.length x_vals) - 1 <=? Z.of_nat start_index)%Z
     || (end_index <=? Z.of_nat start_index)%Z
  then Ok 0
  else
    let stop := S (Z.to_nat end_index) in
    let area :=
      trapezoid (slice y_vals start_index stop) (slice x_vals start_index stop)
      * (PI / 180) in
    let area_in_m_rad := area * PI / 180 in
    Ok (py_round area_in_m_rad 2).

Inductive Status : Type := PASS | FAIL.

(** One entry of [criteria_data]. *)
Record Criterion : Type := {
  description : string;
  required : R;
  cr_unit : string;
  cr_type : string;
  attained : R;
  status : Status
}.

(** [criteria_limits[cr_no]["required"] if cr_no in criteria_limits else
    required]; [criteria_limits] maps a criterion to its required value. *)
Definition required_for (criteria_limits : list (string * R)) (cr_no : string)
  (required : R) : R :=
  match dict_get criteria_limits cr_no with
  | Some r => r
  | None => required
  end.

(** ["PASS" if attained >= required else "FAIL"]. *)
Definition status_at_least (attained required : R) : Status :=
  if required <=? attained then PASS else FAIL.

(** The data blocks for cr_1, cr_2 and cr_3 of [get_criteria_data]. *)
Definition cr_1 (x y : list R) (criteria_limits : list (string * R))
  : result Criterion :=
  let required := required_for criteria_limits "cr_1" (55 / 1000) in
  attained <- get_plot_area x y 0 (Some 30) ;;
  Ok {| description := "Area under gz curve from 0° to 30°";
        required := required;
        cr_unit := "m rad";
        cr_type := "stability criteria";
        attained := attained;
        status := status_at_least attained required |}.

Definition cr_2 (x y : list R) (criteria_limits : list (string * R))
  : result Criterion :=
  let required := required_for criteria_limits "cr_2" (9 / 100) in
  attained <- get_plot_area x y 0 (Some 40) ;;
  Ok {| description := "Area under gz curve from 0° to 40°";
        required := required;
        cr_unit := "m rad";
        cr_type := "stability criteria";
        attained := attained;
        status := status_at_least attained required |}.

Definition cr_3 (x y : list R) (criteria_limits : list (string * R))
  : result Criterion :=
  let required := required_for criteria_limits "cr_3" (3 / 100) in
  attained <- get_plot_area x y 0 (Some 40) ;;
  Ok {| description := "Area under gz curve from 30° to 40°";
        required := required;
        cr_unit := "m rad";
        cr_type := "stability criteria";
        attained := attained;
        status := status_at_least attained required |}.

(** The root that [root_scalar(..., bracket=[x0, x1], method="brentq")] finds
    for the linear interpolant through [(x0, y0)] and [(x1, y1)]. *)
Definition linear_root (x0 y0 x1 y1 : R) : R :=
  x0 - y0 * (x1 - x0) / (y1 - y0).

(** The list [roots]: one root per pair of neighbouring samples whose righting
    arms have opposite signs.  [x] and [y] are the keys and the values of one
    dictionary, hence of one length. *)
Fixpoint zero_crossings (x y : list R) : list R :=
  match x, y with
  | x0 :: ((x1 :: _) as x'), y0 :: ((y1 :: _) as y') =>
      if y0 * y1 <? 0
      then linear_root x0 y0 x1 y1 :: zero_crossings x' y'
      else zero_crossings x' y'
  | _, _ => []
  end.

(** The construction of the linear interpolant
    [interp1d(x, y, kind="linear", ...)]: it needs one sample at least.  It is
    read through the roots only. *)
Definition interp1d_linear (x y : list R) : result unit :=
  match x with
  | [] => Raise ValueError
  | _ => Ok tt
  end.

(** [calculate_range_of_stability]: range of stability and angle of loll. *)
Definition calculate_range_of_stability (x y : list R) : result (R * R) :=
  interpolated_function <- interp1d_linear x y ;;
  let roots := zero_crossings x y in
  if forallb (fun val => val <=? 0) y then
    let angle_of_loll := 0 in
    let second_intercept := 0 in
    Ok (second_intercept - angle_of_loll, angle_of_loll)
  else if forallb (fun val => 0 <=? val) y then
    angle_of_loll <- py_first x ;;
    second_intercept <- py_last x ;;
    Ok (second_intercept - angle_of_loll, angle_of_loll)
  else
    y0 <- py_first y ;;
    if 0 <=? y0 then
      angle_of_loll <- py_first x ;;
      second_intercept <- match roots with
                          | r :: _ => Ok r
                          | [] => py_last x
                          end ;;
      Ok (second_intercept - angle_of_loll, angle_of_loll)
    else
      let angle_of_loll := match roots with
                           | r :: _ => r
                           | [] => 0
                           end in
      second_intercept <- match roots with
                          | _ :: r :: _ => Ok r
                          | _ => py_last x
                          end ;;
      Ok (second_intercept - angle_of_loll, angle_of_loll).

(** The construction of the cubic interpolant
    [interp1d(x, y, kind="cubic", ...)]: it needs four points at least and no
    angle twice, and raises otherwise.  Its values are read from the fourth
    data block on. *)
Fixpoint no_duplicates (l : list R) : bool :=
  match l with
  | [] => true
  | a :: l' => negb (existsb (fun b => b =? a) l') && no_duplicates l'
  end.

Definition interp1d_cubic (x y : list R) : result unit :=
  if (4 <=? List.length x)%nat && no_duplicates x then Ok tt
  else Raise ValueError.

(** [get_criteria_data] up to the third data block: [criteria_data] with its
    entries cr_1, cr_2 and cr_3.  [gz_curve] maps a heel angle to a righting
    arm.  The six blocks that follow add their own entries and leave these
    three as they are. *)
Definition get_criteria_data (gz_curve : list (R * R))
  (criteria_limits : list (string * R)) : result (list (string * Criterion)) :=
  let x := map fst gz_curve in
  let y := map snd gz_curve in
  interpolated_function <- interp1d_cubic x y ;;
  stability <- calculate_range_of_stability x y ;;
  let '(range_of_stability, angle_of_loll) := stability in
  let criteria_data := [] in
  c1 <- cr_1 x y criteria_limits ;;
  let criteria_data := dict_set criteria_data "cr_1" c1 in
  c2 <- cr_2 x y criteria_limits ;;
  let criteria_data := dict_set criteria_data "cr_2" c2 in
  c3 <- cr_3 x y criteria_limits ;;
  let criteria_data := dict_set criteria_data "cr_3" c3 in
  Ok criteria_data.

End Criteria.

(** ** Crane lift and safe working load (crane.py) *)

Module Crane.

(** An SWL table: the rows (Radius, SWL) of the data frame. *)
Definition Table : Type := list (R * R).

(** [ship["Crane Data"]]: boom, then operation, then file name, then table. *)
Definition CraneData : Type :=
  list (string * list (string * list (string * Table))).

(** Truth value of [boomdata.get(key)]: [None] and the empty string are false. *)
Definition truthy (s : option string) : bool :=
  match s with
  | Some s => negb (String.eqb s "")
  | None => false
  end.

(** [s.endswith(suffix)]. *)
Definition endswith (s suffix : string) : bool :=
  let n := String.length s in
  let m := String.length suffix in
  (m <=? n)%nat && String.eqb (substring (n - m) m s) suffix.

(** The three nested loops of the fallback, innermost first. *)
Fixpoint first_csv_of_operation (files : list (string * Table)) : option Table :=
  match files with
  | [] => None
  | (csv_key, swl_table) :: files' =>
      if endswith csv_key ".csv" then Some swl_table
      else first_csv_of_operation files'
  end.

Fixpoint first_csv_of_boom (operations : list (string * list (string * Table)))
  : option Table :=
  match operations with
  | [] => None
  | (_, files) :: operations' =>
      match first_csv_of_operation files with
      | Some t => Some t
      | None => first_csv_of_boom operations'
      end
  end.

Fixpoint first_csv (crane_data : CraneData) : option Table :=
  match crane_data with
  | [] => None
  | (_, operations) :: crane_data' =>
      match first_csv_of_boom operations with
      | Some t => Some t
      | None => first_csv crane_data'
      end
  end.

(** [get_swl_table]; [None] is Python's [None]. *)
Definition get_swl_table (crane_data : CraneData)
  (boomdata : list (string * string)) : option Table :=
  let boom := dict_get boomdata "boom" in
  let operation := dict_get boomdata "operation" in
  let required_height := dict_get boomdata "height" in
  if negb (truthy boom) || negb (truthy operation)
     || negb (truthy required_height)
  then first_csv crane_data
  else
    match boom, operation, required_height with
    | Some boom, Some operation, Some required_height =>
        match dict_get crane_data boom with
        | Some boom_section =>
            match dict_get boom_section operation with
            | Some operation_section =>
                dict_get operation_section (required_height ++ ".csv")
            | None => None
            end
        | None => None
        end
    | _, _, _ => None
    end.

(** [l.index(v)] for a [v] that is in [l], and [v in l]. *)
Fixpoint index_of (l : list R) (v : R) : nat :=
  match l with
  | [] => 0
  | a :: l' => if a =? v then 0 else S (index_of l' v)
  end.

Definition mem (v : R) (l : list R) : bool := existsb (fun a => a =? v) l.

(** The piecewise-linear branch of the SWL lookup: [None] leaves [SWL] as it
    is. *)
Definition interpolate_swl (radius_list swl_list : list R) (Ra : R)
  : result (option R) :=
  let indices := seq 0 (List.length radius_list) in
  let lower_indices := filter (fun i => nth i radius_list 0 <=? Ra) indices in
  let upper_indices := filter (fun i => Ra <=? nth i radius_list 0) indices in
  match lower_indices, upper_indices with
  | l0 :: ls, u0 :: us =>
      let lower_idx := fold_left Nat.max ls l0 in
      let upper_idx := fold_left Nat.min us u0 in
      if (lower_idx =? upper_idx)%nat then Ok None
      else
        let Rup := nth lower_idx radius_list 0 in
        let Swlup := nth lower_idx swl_list 0 in
        let Rdown := nth upper_idx radius_list 0 in
        let SWldown := nth upper_idx swl_list 0 in
        q <- py_div ((Ra - Rup) * (SWldown - Swlup)) (Rdown - Rup) ;;
        Ok (Some (Swlup + q))
  | _, _ => Ok None
  end.

(** The piecewise-linear branch of the radius lookup. *)
Definition interpolate_radius (radius_list swl_list : list R) (SWLreq : R)
  : result (option R) :=
  match filter (fun swl => swl <=? SWLreq) swl_list,
        filter (fun swl => SWLreq <=? swl) swl_list with
  | l0 :: ls, h0 :: hs =>
      let lower_swl := fold_left Rmax ls l0 in
      let higher_swl := fold_left Rmin hs h0 in
      if lower_swl =? higher_swl then Ok None
      else
        let X1 := higher_swl in
        let X2 := lower_swl in
        let Y1 := nth (index_of swl_list X1) radius_list 0 in
        let Y2 := nth (index_of swl_list X2) radius_list 0 in
        q <- py_div (Y2 - Y1) (X2 - X1) ;;
        Ok (Some (Y1 + (SWLreq - X1) * q))
  | _, _ => Ok None
  end.

(** The dictionary returned by [calculate_required_swl]. *)
Record SWLResult : Type := {
  SHLbe : R;
  SHLub : R;
  SWLreq : R;
  SWL : R;
  SWLcorr : R;
  UCl : R;
  Rm : R;
  UCr : R
}.

(** [calculate_required_swl].  [crane_load_curve] is bound only when the table
    is not [None]; reading it unbound raises [UnboundLocalError]. *)
Definition calculate_required_swl (required_swl_table : option Table)
  (required_outreach crane_weight Mrigging Mhook WCFrigging WCF DAF DAFincl
   Mblock : R) : result SWLResult :=
  let Mnet := crane_weight in
  let Mgross := crane_weight in
  let Ra := required_outreach in
  let SHLbe := Mnet + Mrigging + Mhook in
  let SHLub := Mgross * WCF + Mrigging * WCFrigging + Mhook in
  SWLreq <- (if DAFincl <? DAF
             then q <- py_div ((SHLub + Mblock) * DAF) DAFincl ;; Ok (q - Mblock)
             else Ok SHLub) ;;
  let crane_load_curve :=
    match required_swl_table with
    | Some t => Ok t
    | None => Raise UnboundLocalError
    end in
  SWL <- (if Ra =? 0 then Ok 0
          else
            curve <- crane_load_curve ;;
            match curve with
            | [] => Ok 0
            | _ =>
                let radius_list := map fst curve in
                let swl_list := map snd curve in
                if mem Ra radius_list
                then Ok (nth (index_of radius_list Ra) swl_list 0)
                else
                  mx <- py_max radius_list ;;
                  if mx <? Ra then Ok (last swl_list 0)
                  else
                    mn <- py_min radius_list ;;
                    if Ra <? mn then Ok (hd 0 swl_list)
                    else
                      r <- interpolate_swl radius_list swl_list Ra ;;
                      Ok (match r with Some v => v | None => 0 end)
            end) ;;
  Rm <- (if SWLreq =? 0 then Ok 0
         else
           curve <- crane_load_curve ;;
           let swl_list := map snd curve in
           let radius_list := map fst curve in
           if mem SWLreq swl_list
           then Ok (nth (index_of swl_list SWLreq) radius_list 0)
           else
             mn <- py_min swl_list ;;
             if SWLreq <? mn then Ok (last radius_list 0)
             else
               mx <- py_max swl_list ;;
               if mx <? SWLreq then Ok (hd 0 radius_list)
               else
                 r <- interpolate_radius radius_list swl_list SWLreq ;;
                 Ok (match r with Some v => v | None => 0 end)) ;;
  SWLcorr <- (if DAFincl <? DAF
              then q <- py_div ((SWL + Mblock) * DAFincl) DAF ;; Ok (q - Mblock)
              else Ok SWL) ;;
  UCl <- (if SWLcorr =? 0 then Ok 0 else py_div SHLub SWLcorr) ;;
  UCr <- (if Rm =? 0 then Ok 0 else py_div Ra Rm) ;;
  Ok {| SHLbe := SHLbe; SHLub := SHLub; SWLreq := SWLreq; SWL := SWL;
        SWLcorr := SWLcorr; UCl := UCl; Rm := Rm; UCr := UCr |}.

(** What [calculate_boom_angle] returns: an angle in degrees or a message. *)
Inductive BoomAngle : Type :=
| Degrees (boom_angle_deg : R)
| Message (text : string).

Definition calculate_boom_angle (boom_length required_outreach Ucl Ucr : R)
  : result BoomAngle :=
  if (1 <? Ucr) && (1 <? Ucl)
  then Ok (Message "Lift is beyond crane capacity and max radius!")
  else if 1 <? Ucl then Ok (Message "Lift is beyond crane capacity!")
  else if 1 <? Ucr then Ok (Message "Lift is beyond max radius!")
  else
    ratio <- py_div required_outreach boom_length ;;
    boom_angle <- py_acos ratio ;;
    let boom_angle_deg := degrees boom_angle in
    if 75 <? boom_angle_deg then Ok (Message "Cargo inside minimum outreach!")
    else Ok (Degrees boom_angle_deg).

Definition calculate_slew_angle (x1 y1 x2 y2 x3 y3 : R) : result R :=
  let vector_A_x := x2 - x1 in
  let vector_A_y := y2 - y1 in
  let vector_B_x := x3 - x1 in
  let vector_B_y := y3 - y1 in
  let dot_product := vector_A_x * vector_B_x + vector_A_y * vector_B_y in
  let magnitude_A := sqrt (vector_A_x ^ 2 + vector_A_y ^ 2) in
  let magnitude_B := sqrt (vector_B_x ^ 2 + vector_B_y ^ 2) in
  cos_angle <- py_div dot_product (magnitude_A * magnitude_B) ;;
  angle_radians <- py_acos cos_angle ;;
  let slew_angle := degrees angle_radians in
  let cross_product := vector_A_x * vector_B_y - vector_A_y * vector_B_x in
  if cross_product <? 0 then Ok (360 - slew_angle) else Ok slew_angle.

(** [s.replace(old, "")] for a non-empty [old]; [skip] counts the characters of
    a match still to be dropped. *)
Fixpoint remove_all (old s : string) (skip : nat) : string :=
  match s with
  | EmptyString => EmptyString
  | String c s' =>
      match skip with
      | S k => remove_all old s' k
      | O =>
          if prefix old s then remove_all old s' (String.length old - 1)
          else String c (remove_all old s' 0)
      end
  end.

Definition Point : Type := R * R * R.

(** [crane_details["boom_tip_point"]]: a point per boom type, or one point. *)
Inductive BoomTip : Type :=
| TipByBoom (tips : list (string * Point))
| TipPoint (p : Point).

Record CraneDetails : Type := {
  pedestal_base_point : Point;
  boom_tip_point : BoomTip
}.

(** The choice of [[x2, y2, z2]].  A dictionary that lacks the boom type is
    unpacked itself: its keys are no numbers, and other than three of them do
    not even unpack. *)
Definition select_boom_tip (tip : BoomTip) (boom_type : string) : result Point :=
  match tip with
  | TipPoint p => Ok p
  | TipByBoom tips =>
      match dict_get tips boom_type with
      | Some p => Ok p
      | None =>
          if (List.length tips =? 3)%nat then Raise TypeError
          else Raise ValueError
      end
  end.

(** An entry of [crane_orientations] for a crane that has cargo. *)
Record CraneOrientation : Type := {
  slew_angle : R;
  boom_angle : BoomAngle;
  required_outreach : R;
  weight : R;
  required_swl_table : Table
}.

(** The body of the loop of [calculate_crane_and_swl] for a crane with cargo
    details [[weight, x3, y3, z3]]. *)
Definition lift_crane (ship_crane_data : CraneData)
  (crane_details : CraneDetails) (cargo_details : R * R * R * R)
  (Mrigging Mhook WCFrigging WCF DAF DAFincl Mblock : R)
  (boomdata : list (string * string))
  : result (CraneOrientation * SWLResult) :=
  let '(x1, y1, z1) := pedestal_base_point crane_details in
  boom <- dict_item boomdata "boom" ;;
  let boom_type := remove_all " Boom" boom 0 in
  tip <- select_boom_tip (boom_tip_point crane_details) boom_type ;;
  let '(x2, y2, z2) := tip in
  let '(weight, x3, y3, z3) := cargo_details in
  let boom_length := x2 - x1 in
  let required_outreach := sqrt ((x3 - x1) ^ 2 + (y3 - y1) ^ 2) in
  let required_swl_table := get_swl_table ship_crane_data boomdata in
  required_swl <-
    calculate_required_swl required_swl_table required_outreach weight
                           Mrigging Mhook WCFrigging WCF DAF DAFincl Mblock ;;
  let Ucr := UCr required_swl in
  let Ucl := UCl required_swl in
  boom_angle <- calculate_boom_angle boom_length required_outreach Ucl Ucr ;;
  slewangle <- calculate_slew_angle x1 y1 x2 y2 x3 y3 ;;
  table <- match required_swl_table with
           | Some t => Ok t
           | None => Raise AttributeError
           end ;;
  Ok ({| slew_angle := slewangle;
         boom_angle := boom_angle;
         required_outreach := required_outreach;
         weight := weight;
         required_swl_table := table |},
      required_swl).

(** The loop over [crane_data]: [crane_orientations] so far and the last
    [required_swl] ([None] while the name is unbound).  A crane without cargo
    details gets the empty list, here [None]. *)
Fixpoint lift_cranes (ship_crane_data : CraneData)
  (crane_data : list (string * list CraneDetails))
  (cargo_data : list (string * (R * R * R * R)))
  (Mrigging Mhook WCFrigging WCF DAF DAFincl Mblock : R)
  (boomdata : list (string * string))
  (crane_orientations : list (string * option CraneOrientation))
  (required_swl : option SWLResult)
  : result (list (string * option CraneOrientation) * option SWLResult) :=
  match crane_data with
  | [] => Ok (crane_orientations, required_swl)
  | (crane, details) :: crane_data' =>
      crane_details <- match details with
                       | d :: _ => Ok d
                       | [] => Raise IndexError
                       end ;;
      match dict_get cargo_data crane with
      | Some cargo_details =>
          r <- lift_crane ship_crane_data crane_details cargo_details
                          Mrigging Mhook WCFrigging WCF DAF DAFincl Mblock
                          boomdata ;;
          lift_cranes ship_crane_data crane_data' cargo_data
                      Mrigging Mhook WCFrigging WCF DAF DAFincl Mblock boomdata
                      (dict_set crane_orientations crane (Some (fst r)))
                      (Some (snd r))
      | None =>
          lift_cranes ship_crane_data crane_data' cargo_data
                      Mrigging Mhook WCFrigging WCF DAF DAFincl Mblock boomdata
                      (dict_set crane_orientations crane None)
                      required_swl
      end
  end.

(** [calculate_crane_and_swl]: the pair of ["crane_orientations"] and
    ["calculated_output_values"]. *)
Definition calculate_crane_and_swl (ship_crane_data : CraneData)
  (crane_data : list (string * list CraneDetails))
  (cargo_data : list (string * (R * R * R * R)))
  (Mrigging Mhook WCFrigging WCF DAF DAFincl Mblock : R)
  (boomdata : list (string * string))
  : result (list (string * option CraneOrientation) * SWLResult) :=
  r <- lift_cranes ship_crane_data crane_data cargo_data
                   Mrigging Mhook WCFrigging WCF DAF DAFincl Mblock boomdata
                   [] None ;;
  match snd r with
  | Some required_swl => Ok (fst r, required_swl)
  | None => Raise UnboundLocalError
  end.

End Crane.

(** ** Equilibrium: trim and floating status (helpers.py) *)

Module Trim.

(** A hydrostatic table: the columns of one data frame by name. *)
Definition DataFrame : Type := list (string * list R).

(** [ship["Hydrostatics"]]: one table per trim; the key is the number in the
    file name. *)
Definition Hydrostatics : Type := list (R * DataFrame).

Definition params : list string :=
  ["draft"; "lcb"; "vcb"; "lcf"; "kml"; "kmt"; "mct"; "tpc"]%string.

(** [sorted(hs, key=...)]: the sort is stable. *)
Fixpoint insert_by_trim (e : R * DataFrame) (l : Hydrostatics) : Hydrostatics :=
  match l with
  | [] => [e]
  | h :: t => if fst h <? fst e then h :: insert_by_trim e t else e :: h :: t
  end.

Definition sorted_by_trim (hs : Hydrostatics) : Hydrostatics :=
  fold_right insert_by_trim [] hs.

(** *** [RegularGridInterpolator(..., method="linear", bounds_error=False,
        fill_value=None)] on two axes

    Each axis has at least two points and is strictly ascending, the values
    have the shape of the grid: otherwise the constructor raises.  A query is
    answered from the cell it falls in, the outermost cell when it falls
    outside the grid. *)

Fixpoint strictly_ascending (l : list R) : bool :=
  match l with
  | a :: ((b :: _) as l') => (a <? b) && strictly_ascending l'
  | _ => true
  end.

(** The cell of [x]: the number of grid points below [x], less one, kept within
    the first and the last cell. *)
Definition find_index (grid : list R) (x : R) : nat :=
  Nat.min (List.length (filter (fun g => g <? x) grid) - 1)
          (List.length grid - 2).

Definition norm_distance (grid : list R) (x : R) : R :=
  let i := find_index grid x in
  (x - nth i grid 0) / (nth (S i) grid 0 - nth i grid 0).

Definition evaluate_linear (xs ys : list R) (values : list (list R)) (x y : R)
  : R :=
  let i := find_index xs x in
  let j := find_index ys y in
  let t := norm_distance xs x in
  let u := norm_distance ys y in
  let v a b := nth b (nth a values []) 0 in
  (1 - t) * (1 - u) * v i j + (1 - t) * u * v i (S j)
  + t * (1 - u) * v (S i) j + t * u * v (S i) (S j).

Arguments evaluate_linear : simpl never.

Definition RegularGridInterpolator (xs ys : list R) (values : list (list R))
  : result (R -> R -> R) :=
  if (2 <=? List.length xs)%nat && (2 <=? List.length ys)%nat
     && strictly_ascending xs && strictly_ascending ys
     && (List.length values =? List.length xs)%nat
     && forallb (fun row => (List.length row =? List.length ys)%nat) values
  then Ok (evaluate_linear xs ys values)
  else Raise ValueError.

(** *** A computation that records its interpolation passes

    The log holds the point [(trim, weight)] of every pass over
    [list_interp_func], in order. *)

Definition traced (A : Type) : Type := list (R * R) * result A.

Definition lift {A : Type} (r : result A) : traced A := ([], r).

Definition tbind {A B : Type} (m : traced A) (k : A -> traced B) : traced B :=
  match m with
  | (log, Ok a) => let (log', r) := k a in (log ++ log', r)
  | (log, Raise e) => (log, Raise e)
  end.

Notation "x <~ m ;; k" := (tbind m (fun x => k))
  (at level 61, m at next level, right associativity).

(** [{param: param_val((trim_meter, weight)).tolist() for param, param_val in
    zip(params, list_interp_func)}]: one pass. *)
Definition evaluate (list_interp_func : list (R -> R -> R))
  (trim_meter weight : R) : list (string * R) :=
  map (fun '(param, param_val) => (param, param_val trim_meter weight))
      (combine params list_interp_func).

Definition pass (list_interp_func : list (R -> R -> R))
  (trim_meter weight : R) : traced (list (string * R)) :=
  ([(trim_meter, weight)], Ok (evaluate list_interp_func trim_meter weight)).

(** [list_interp_func]: the interpolators, one per pair of
    [zip(weight_data, params)]. *)
Definition build_interpolators (hs : Hydrostatics)
  : result (list (R -> R -> R)) :=
  let trim_data := sorted_by_trim hs in
  let trim_vals := map fst trim_data in
  param_data <-
    mapM (fun param =>
            columns <- mapM (fun val => dict_item (snd val) param) trim_data ;;
            Ok (param, columns))
         params ;;
  weight_data <- mapM (fun val => dict_item (snd val) "weight") trim_data ;;
  mapM (fun '(weight_vals, param) =>
          values <- dict_item param_data param ;;
          RegularGridInterpolator trim_vals weight_vals values)
       (combine weight_data params).

Definition optimize_trim (hs : Hydrostatics)
  (weight lcg tcg vcg vcg_corr length : R) : traced (list (string * R)) :=
  list_interp_func <~ lift (build_interpolators hs) ;;
  let trim_meter := 0 in
  floating_status <~ pass list_interp_func trim_meter weight ;;
  trim_meter <~ lift (lcb <- dict_item floating_status "lcb" ;;
                      mct <- dict_item floating_status "mct" ;;
                      py_div (weight * (lcb - lcg)) (mct * 100)) ;;
  floating_status <~ pass list_interp_func trim_meter weight ;;
  lift (
    q <- py_div trim_meter length ;;
    let trim_deg := degrees (atan q) in
    draft <- dict_item floating_status "draft" ;;
    let floating_status :=
      dict_set floating_status "draft_aft" (draft + trim_meter / 2) in
    draft <- dict_item floating_status "draft" ;;
    let floating_status :=
      dict_set floating_status "draft_fwd" (draft - trim_meter / 2) in
    let floating_status := dict_set floating_status "trim" trim_deg in
    kmt <- dict_item floating_status "kmt" ;;
    q <- py_div tcg (kmt - vcg_corr) ;;
    let floating_status :=
      dict_set floating_status "heel" (degrees (atan q)) in
    kmt <- dict_item floating_status "kmt" ;;
    let floating_status := dict_set floating_status "gmt_solid" (kmt - vcg) in
    kmt <- dict_item floating_status "kmt" ;;
    let floating_status :=
      dict_set floating_status "gmt_liquid" (kmt - vcg_corr) in
    kml <- dict_item floating_status "kml" ;;
    let floating_status := dict_set floating_status "gml" (kml - vcg) in
    Ok floating_status).

End Trim.

(** ** The fallback of the SWL lookup, as the specification words it

    "The first available table found by nested traversal": all stored tables
    with their keys in traversal order, and the first of them in a .csv
    file. *)

Module CraneSpec.

Definition keyed_tables (crane_data : Crane.CraneData)
  : list (string * string * string * Crane.Table) :=
  flat_map (fun boom_entry =>
              flat_map (fun operation_entry =>
                          map (fun file_entry =>
                                 (fst boom_entry, fst operation_entry,
                                  fst file_entry, snd file_entry))
                              (snd operation_entry))
                       (snd boom_entry))
           crane_data.

Definition in_csv_file (entry : string * string * string * Crane.Table)
  : bool :=
  Crane.endswith (snd (fst entry)) ".csv".

Definition first_available (crane_data : Crane.CraneData)
  : option Crane.Table :=
  option_map snd (find in_csv_file (keyed_tables crane_data)).

End CraneSpec.

(** ** Sample vessel

    Hydrostatic tables for the trims -3 to 3 and the weights 1000 and 2000,
    in which every parameter has the same value throughout: draft 2, LCB 50,
    VCB 1, LCF 48, KML 100, TPC 5, and a KMT and an MCT to be chosen. *)

Module Sample.

Definition uniform_table (weights : list R) (values : list (string * R))
  : Trim.DataFrame :=
  ("weight"%string, weights)
    :: map (fun entry => (fst entry, map (fun _ => snd entry) weights)) values.

Definition hydrostatics (kmt mct : R) : Trim.Hydrostatics :=
  map (fun trim =>
         (trim,
          uniform_table [1000; 2000]
                        [("draft", 2); ("lcb", 50); ("vcb", 1); ("lcf", 48);
                         ("kml", 100); ("kmt", kmt); ("mct", mct);
                         ("tpc", 5)]%string))
      [-3; -2; -1; 0; 1; 2; 3].

(** The values of one parameter over the sample grid. *)
Definition uniform_grid (c : R) : list (list R) :=
  map (fun _ => [c; c]) [-3; -2; -1; 0; 1; 2; 3].

End Sample.


(** ** Leg loads of a jack-up (helpers.py) *)

Module LegLoad.

(** An entry of [leg_data]: the keys read by [get_leg_load_distribution]. *)
Record Leg : Type := {
  lcg : R;
  tcg : R
}.

(** [moment / (distance * 2) if coordinate > center else
    -moment / (distance * 2)]. *)
Definition leg_part (moment distance coordinate center : R) : result R :=
  if center <? coordinate
  then py_div moment (distance * 2)
  else py_div (- moment) (distance * 2).

(** [get_leg_load_distribution]: every leg with the weight stored under
    ["weight"], and the two levers. *)
Definition get_leg_load_distribution (leg_data : list Leg)
  (total_weight total_lcg total_tcg : R)
  : result (list (Leg * R) * (R * R)) :=
  let len := INR (List.length leg_data) in
  center_of_length <- py_div (sum (map lcg leg_data)) len ;;
  center_of_breadth <- py_div (sum (map tcg leg_data)) len ;;
  uniform_load <- py_div total_weight len ;;
  let longitudinal_lever := total_lcg - center_of_length in
  let transverse_lever := total_tcg - center_of_breadth in
  let longitudinal_moment := total_weight * longitudinal_lever in
  let transverse_moment := total_weight * transverse_lever in
  max_lcg <- py_max (map lcg leg_data) ;;
  min_lcg <- py_min (map lcg leg_data) ;;
  let longitudinal_distance_bw_legs := max_lcg - min_lcg in
  max_tcg <- py_max (map tcg leg_data) ;;
  min_tcg <- py_min (map tcg leg_data) ;;
  let transverse_distance_bw_legs := max_tcg - min_tcg in
  legs <- mapM (fun leg =>
                  lcg_part <- leg_part longitudinal_moment
                                       longitudinal_distance_bw_legs
                                       (lcg leg) center_of_length ;;
                  tcg_part <- leg_part transverse_moment
                                       transverse_distance_bw_legs
                                       (tcg leg) center_of_breadth ;;
                  Ok (leg, uniform_load + lcg_part + tcg_part))
               leg_data ;;
  Ok (legs, (longitudinal_lever, transverse_lever)).

End LegLoad.

(** ** Initial GM, range and weather criteria (criteria.py) *)

Module Weather.

Import Criteria.

(** [get_initial_gmt]: [x1, x2 = x[:2]] needs two samples. *)
Definition get_initial_gmt (x y : list R) : result R :=
  match x with
  | x1 :: x2 :: _ =>
      match y with
      | y1 :: y2 :: _ =>
          slope <- py_div (y2 - y1) (x2 - x1) ;;
          let specified_x := 1 * 180 / PI in
          let initial_gmt := slope * specified_x + y1 - slope * x1 in
          Ok (py_round initial_gmt 2)
      | _ => Raise ValueError
      end
  | _ => Raise ValueError
  end.

(** [windage_area] and [windage_area_centroid_from_mid_draft], as
    [get_max_wind_load] and the block of cr_9 both compute them. *)
Definition windage (length depth draft : R) : result (R * R) :=
  let windage_area := length * (depth - draft) in
  q <- py_div ((depth - draft) ^ 2 / 2 * length) windage_area ;;
  Ok (windage_area, draft / 2 + q).

(** [get_max_wind_load]: maximum allowable and attained static heel angle. *)
Definition get_max_wind_load
  (length depth draft breadth wind_load total_weight gmt_corr angle_of_loll
   max_draft : R) : result (R * R) :=
  w <- windage length depth draft ;;
  let '(windage_area, windage_area_centroid_from_mid_draft) := w in
  let overturning_moment :=
    wind_load * windage_area * windage_area_centroid_from_mid_draft
    / (9812 / 1000 * 1000) in
  ratio <- py_div overturning_moment (total_weight * gmt_corr) ;;
  heel <- py_asin ratio ;;
  let static_angle_of_heel := degrees heel + angle_of_loll in
  q <- py_div (depth - max_draft) breadth ;;
  let maximum_angle_of_heel := degrees (atan q) in
  Ok (py_round maximum_angle_of_heel 2, py_round static_angle_of_heel 2).

(** ["PASS" if attained <= required else "FAIL"]. *)
Definition status_at_most (attained required : R) : Status :=
  if attained <=? required then PASS else FAIL.

(** The data blocks for cr_6, cr_7, cr_8 and cr_9 of [get_criteria_data]. *)
Definition cr_6 (x y : list R) (criteria_limits : list (string * R))
  : result Criterion :=
  let required := required_for criteria_limits "cr_6" (15 / 100) in
  attained <- get_initial_gmt x y ;;
  Ok {| description := "Initial GM";
        required := required;
        cr_unit := "m";
        cr_type := "stability criteria";
        attained := attained;
        status := status_at_least attained required |}.

Definition cr_7 (range_of_stability : R) (criteria_limits : list (string * R))
  : Criterion :=
  let required := required_for criteria_limits "cr_7" 36 in
  let attained := py_round range_of_stability 2 in
  {| description := "Range of stability";
     required := required;
     cr_unit := "deg";
     cr_type := "stability criteria";
     attained := attained;
     status := status_at_least attained required |}.

Definition cr_8
  (length depth draft breadth total_weight gmt_corr angle_of_loll max_draft : R)
  (criteria_limits : list (string * R)) : result Criterion :=
  let wind_load := 540 in
  r <- get_max_wind_load length depth draft breadth wind_load total_weight
                         gmt_corr angle_of_loll max_draft ;;
  let '(required, attained) := r in
  let required := required_for criteria_limits "cr_8" required in
  Ok {| description := "Heel angle under action of steady wind";
        required := required;
        cr_unit := "deg";
        cr_type := "weather criteria";
        attained := attained;
        status := status_at_most attained required |}.

Definition cr_9 (x y : list R)
  (length depth draft total_weight range_of_stability : R)
  (criteria_limits : list (string * R)) : result Criterion :=
  let wind_velocity := 52 in
  w <- windage length depth draft ;;
  let '(windage_area, windage_area_centroid_from_mid_draft) := w in
  let air_density := 1225 / 1000 in
  let specific_gravity := 9812 / 1000 in
  windage_arm <-
    py_div (5 / 10 * air_density * windage_area
            * windage_area_centroid_from_mid_draft * wind_velocity ^ 2)
           (specific_gravity * 1000 * total_weight) ;;
  let area_under_windage_arm_curve :=
    windage_arm * range_of_stability * PI / 180 in
  let required := py_round (14 / 10 * area_under_windage_arm_curve) 2 in
  let required := required_for criteria_limits "cr_9" required in
  attained <- get_plot_area x y 0 (Some range_of_stability) ;;
  Ok {| description := "GZ area exceeds wind heeling arm by 40%";
        required := required;
        cr_unit := "m rad";
        cr_type := "weather criteria";
        attained := attained;
        status := status_at_least attained required |}.

End Weather.

(** ** Longitudinal strength: weight distribution, shear force and bending
       moment (ls_plot.py) *)

Module LsPlot.

(** An entry of [cargo_data]: the keys read here. *)
Record Cargo : Type := {
  weight : R;
  length : R;
  lcg : R
}.

(** An entry of [tank_data]: the tank name and the values of the tank. *)
Definition Tank : Type := string * Weights.TankVals.

(** An entry of a distribution list: [[weight, x_min, x_max]]. *)
Definition Extent : Type := R * R * R.

Definition get_cargo_weight_distribution (cargo_data : list Cargo)
  : list Extent :=
  map (fun cargo =>
         let cargo_weight := weight cargo in
         let cargo_length := length cargo in
         let cargo_lcg := lcg cargo in
         (cargo_weight, cargo_lcg - cargo_length / 2,
          cargo_lcg + cargo_length / 2))
      cargo_data.

(** [get_tank_weight_distribution]; [tank_extents] maps a tank name to a list
    whose first entry holds the aft and the forward extent. *)
Fixpoint get_tank_weight_distribution
  (tank_extents : list (string * list (R * R))) (tank_data : list Tank)
  : result (list Extent) :=
  match tank_data with
  | [] => Ok []
  | (tank_name, tank) :: tank_data' =>
      if Weights.t_weight tank =? 0
      then get_tank_weight_distribution tank_extents tank_data'
      else
        extents <- dict_item tank_extents tank_name ;;
        extent <- match extents with
                  | e :: _ => Ok e
                  | [] => Raise IndexError
                  end ;;
        rest <- get_tank_weight_distribution tank_extents tank_data' ;;
        Ok ((Weights.t_weight tank, fst extent, snd extent) :: rest)
  end.

(** [l[i]] and [l[i] = v] on a list. *)
Definition list_item (l : list R) (i : nat) : result R :=
  match nth_error l i with
  | Some v => Ok v
  | None => Raise IndexError
  end.

Fixpoint list_set (l : list R) (i : nat) (v : R) : list R :=
  match l, i with
  | [], _ => []
  | _ :: l', O => v :: l'
  | a :: l', S i' => a :: list_set l' i' v
  end.

(** A loop that updates a value and stops at the first exception. *)
Fixpoint foldM {A B : Type} (f : B -> A -> result B) (l : list A) (b : B)
  : result B :=
  match l with
  | [] => Ok b
  | a :: l' => b' <- f b a ;; foldM f l' b'
  end.

(** [[i for i, value in enumerate(x_vals) if x_min < value < x_max]]. *)
Definition indices_in_range (x_vals : list R) (x_min x_max : R) : list nat :=
  filter (fun i => (x_min <? nth i x_vals 0) && (nth i x_vals 0 <? x_max))
         (seq 0 (List.length x_vals)).

(** The body of the inner loop of [get_weight_dn]: the station [index] gets
    its share of the weight. *)
Definition add_share (x_vals : list R) (dn : Extent) (first : nat)
  (lightship_distribution : list R) (index : nat) : result (list R) :=
  let '(weight, x_min, x_max) := dn in
  let ad_x := nth index x_vals 0 in
  additional_weight <- list_item lightship_distribution index ;;
  share <- (if (index =? first)%nat
            then py_div (ad_x - x_min) (x_max - x_min)
            else py_div (ad_x - nth (index - 1) x_vals 0) (x_max - x_min)) ;;
  Ok (list_set lightship_distribution index
               (py_round (weight * share + additional_weight) 2)).

(** The body of the outer loop. *)
Definition add_extent (x_vals : list R) (lightship_distribution : list R)
  (dn : Extent) : result (list R) :=
  let '(weight, x_min, x_max) := dn in
  match indices_in_range x_vals x_min x_max with
  | [] => Ok lightship_distribution
  | (first :: _) as indices =>
      foldM (add_share x_vals dn first) indices lightship_distribution
  end.

(** [get_weight_dn]: the list it has updated in place. *)
Definition get_weight_dn (x_vals lightship_distribution : list R)
  (distribution_list : list Extent) : result (list R) :=
  foldM (add_extent x_vals) distribution_list lightship_distribution.

(** The list [sf]: the running sum of the rounded load differences. *)
Fixpoint shear_force (sf_last : option R) (weight_distribution
                                            buoyancy_distribution : list R)
  : list R :=
  match weight_distribution, buoyancy_distribution with
  | wd :: wds, bd :: bds =>
      let value :=
        match sf_last with
        | None => IZR (round_half_even ((bd - wd) * (981 / 100)))
        | Some last => IZR (round_half_even ((bd - wd) * (981 / 100) + last))
        end in
      value :: shear_force (Some value) wds bds
  | _, _ => []
  end.

(** The loop that fills [sf_var_list], with [last_val]. *)
Definition sf_var_step (x_val sf : list R) (acc : list R * R) (index : nat)
  : result (list R * R) :=
  let '(sf_var_list, last_val) := acc in
  if (index =? 0)%nat then Ok (sf_var_list ++ [0], last_val)
  else
    sf_here <- list_item sf index ;;
    sf_before <- list_item sf (index - 1) ;;
    let value :=
      (5 / 10 * (sf_here - sf_before) + sf_before)
      * (nth index x_val 0 - nth (index - 1) x_val 0)
      + last_val in
    Ok (sf_var_list ++ [value], value).

Definition sf_var_list (x_val sf : list R) : result (list R) :=
  acc <- foldM (sf_var_step x_val sf) (seq 0 (List.length x_val)) ([], 0) ;;
  Ok (fst acc).

(** The list [bm]: the running integral less its linear trend. *)
Definition bending_moment (x_val sf_var_list : list R) : result (list R) :=
  mapM (fun entry =>
          let '(index, val) := entry in
          q <- py_div (nth index x_val 0) (last x_val 0) ;;
          Ok (py_round (val - last sf_var_list 0 * q) 2))
       (combine (seq 0 (List.length sf_var_list)) sf_var_list).

(** [max(l, key=abs)]: the first entry of the largest magnitude. *)
Definition max_by_abs (l : list R) : result R :=
  match l with
  | [] => Raise ValueError
  | a :: l' =>
      Ok (fold_left (fun m v => if Rabs m <? Rabs v then v else m) l' a)
  end.

(** The dictionary returned by [get_ls_plot], ["checks"] included. *)
Record LsData : Type := {
  location : list R;
  wd : list R;
  bd : list R;
  sf : list R;
  bm : list R;
  sf_limit : R;
  sf_max : R;
  uc_sf : R;
  bm_limit : R;
  bm_max : R;
  uc_bm : R
}.

(** [get_ls_plot].  Of the ship it reads the lightship distribution, the
    buoyancy distribution, the tank extents, the length over all and the two
    limits.  The locations of the two maxima are computed and not returned.
    A buoyancy that is not finite ends the computation: [round] raises on
    it. *)
Definition get_ls_plot
  (x_loc lightship_distribution ls_bd_val ls_buoyancy_distribution : list R)
  (tank_extents : list (string * list (R * R)))
  (vessel_length ship_sf_max ship_bm_max : R)
  (draft_aft : R) (cargo_data : list Cargo) (tank_data : list Tank) (trim : R)
  : result LsData :=
  tank_weight_distribution_list <-
    get_tank_weight_distribution tank_extents tank_data ;;
  let cargo_weight_distribution_list :=
    get_cargo_weight_distribution cargo_data in
  let distribution_list :=
    tank_weight_distribution_list ++ cargo_weight_distribution_list in
  weight_distribution <-
    (match distribution_list with
     | [] => Ok lightship_distribution
     | _ => get_weight_dn x_loc lightship_distribution distribution_list
     end) ;;
  let x_val := x_loc in
  let total_dead_weight :=
    sum (map (fun cargo => weight cargo * length cargo) cargo_data)
    + sum (map (fun tank => Weights.t_weight (snd tank)) tank_data) in
  buoyancy_distribution <-
    Strength.get_buoyancy_distribution
      x_val weight_distribution ls_bd_val ls_buoyancy_distribution
      total_dead_weight vessel_length draft_aft trim ;;
  let sf := shear_force None weight_distribution buoyancy_distribution in
  var_list <- sf_var_list x_val sf ;;
  bm <- bending_moment x_val var_list ;;
  sf_max_value <- max_by_abs sf ;;
  bm_max_value <- max_by_abs bm ;;
  uc_sf <- py_div sf_max_value ship_sf_max ;;
  uc_bm <- py_div bm_max_value ship_bm_max ;;
  Ok {| location := x_val;
        wd := weight_distribution;
        bd := buoyancy_distribution;
        sf := sf;
        bm := bm;
        sf_limit := ship_sf_max;
        sf_max := sf_max_value;
        uc_sf := Rabs uc_sf;
        bm_limit := ship_bm_max;
        bm_max := bm_max_value;
        uc_bm := Rabs uc_bm |}.

End LsPlot.

(** * Properties *)

(** ** Comparisons and rounding *)

Lemma Reqb_true (a b : R) : a = b -> (a =? b) = true.
Proof. intros H. unfold Reqb. destruct (Req_dec_T a b); congruence. Qed.

Lemma Reqb_false (a b : R) : a <> b -> (a =? b) = false.
Proof. intros H. unfold Reqb. destruct (Req_dec_T a b); congruence. Qed.

Lemma Rltb_true (a b : R) : a < b -> (a <? b) = true.
Proof. intros H. unfold Rltb'. destruct (Rlt_dec a b); tauto. Qed.

Lemma Rltb_false (a b : R) : ~ a < b -> (a <? b) = false.
Proof. intros H. unfold Rltb'. destruct (Rlt_dec a b); tauto. Qed.

Lemma Rleb_true (a b : R) : a <= b -> (a <=? b) = true.
Proof. intros H. unfold Rleb'. destruct (Rle_dec a b); tauto. Qed.

Lemma Rleb_false (a b : R) : ~ a <= b -> (a <=? b) = false.
Proof. intros H. unfold Rleb'. destruct (Rle_dec a b); tauto. Qed.

Lemma Reqb_spec (a b : R) : reflect (a = b) (a =? b).
Proof. unfold Reqb. destruct (Req_dec_T a b); constructor; assumption. Qed.

Lemma Rltb_spec (a b : R) : reflect (a < b) (a <? b).
Proof. unfold Rltb'. destruct (Rlt_dec a b); constructor; assumption. Qed.

Lemma Rleb_spec (a b : R) : reflect (a <= b) (a <=? b).
Proof. unfold Rleb'. destruct (Rle_dec a b); constructor; assumption. Qed.

(** Decide the comparisons of a goal whose operands are numerals. *)
Ltac rdecide :=
  repeat match goal with
    | |- context [?a =? ?b] =>
        first [ rewrite (Reqb_true a b) by lra
              | rewrite (Reqb_false a b) by lra ]
    | |- context [?a <? ?b] =>
        first [ rewrite (Rltb_true a b) by lra
              | rewrite (Rltb_false a b) by lra ]
    | |- context [?a <=? ?b] =>
        first [ rewrite (Rleb_true a b) by lra
              | rewrite (Rleb_false a b) by lra ]
    | |- context [Rmax ?a ?b] =>
        first [ rewrite (Rmax_left a b) by lra
              | rewrite (Rmax_right a b) by lra ]
    | |- context [Rmin ?a ?b] =>
        first [ rewrite (Rmin_left a b) by lra
              | rewrite (Rmin_right a b) by lra ]
    end.

(** Split an equation between tuples into its components. *)
Ltac tuple_eq :=
  repeat match goal with
    | |- (_, _) = (_, _) => apply f_equal2
    end.

(** Split an equation between lists of numbers into its elements. *)
Ltac list_eq :=
  repeat match goal with
    | |- _ :: _ = _ :: _ => apply f_equal2
    | |- Ok _ = Ok _ => apply f_equal
    end;
  try reflexivity.

(** Run a model on numerals: unfold, then decide the comparisons met. *)
Ltac py_eval := repeat (progress (cbn; simpl; rdecide)).

Lemma up_unit (x : R) : 0 <= x < 1 -> up x = 1%Z.
Proof.
  intros [H0 H1]. symmetry. apply (up_tech x 0); simpl; lra.
Qed.

Lemma round_half_even_small (x : R) : 0 <= x < 1 / 2 -> round_half_even x = 0%Z.
Proof.
  intros [H0 H1]. unfold round_half_even.
  rewrite (up_unit x) by lra. simpl.
  rewrite Rltb_true by lra. reflexivity.
Qed.

Lemma py_round_small (x : R) (n : nat) :
  0 <= x * 10 ^ n < 1 / 2 -> py_round x n = 0.
Proof.
  intros H. unfold py_round. rewrite round_half_even_small by exact H.
  unfold Rdiv. apply Rmult_0_l.
Qed.

(** ** Sums *)

Lemma fold_left_Rplus (l : list R) (a : R) : fold_left Rplus l a = a + sum l.
Proof.
  unfold sum. revert a. induction l as [|b l IH]; intros a; simpl.
  - lra.
  - rewrite (IH (a + b)), (IH (0 + b)). lra.
Qed.

Lemma sum_cons (a : R) (l : list R) : sum (a :: l) = a + sum l.
Proof. unfold sum at 1. simpl. rewrite fold_left_Rplus. lra. Qed.

Lemma sum_nil : sum [] = 0.
Proof. reflexivity. Qed.

Lemma sum_map_scale (c : R) (l : list R) :
  sum (map (fun bd => bd * c) l) = sum l * c.
Proof.
  induction l as [|a l IH]; simpl.
  - rewrite sum_nil. lra.
  - rewrite !sum_cons, IH. lra.
Qed.

(** ** Weight aggregation *)

Section WeightFacts.

Import Weights.

Lemma fold_accumulate (items : list WeightItem) (w l t v : R) :
  fold_left accumulate items (w, l, t, v)
  = (w + sum (map weight items),
     l + sum (map (fun i => weight i * lcg i) items),
     t + sum (map (fun i => weight i * tcg i) items),
     v + sum (map (fun i => weight i * vcg i) items)).
Proof.
  revert w l t v. induction items as [|i items IH]; intros w l t v; simpl.
  - rewrite sum_nil. tuple_eq; lra.
  - rewrite IH, !sum_cons. tuple_eq; lra.
Qed.

(** With a zero total the moments are returned as they are, undivided. *)
Lemma get_fixed_weight_zero_total (items : list WeightItem) :
  sum (map weight items) = 0 ->
  get_fixed_weight items
  = (0,
     sum (map (fun i => weight i * lcg i) items),
     sum (map (fun i => weight i * tcg i) items),
     sum (map (fun i => weight i * vcg i) items)).
Proof.
  intros H. unfold get_fixed_weight. rewrite fold_accumulate, H.
  rewrite Reqb_true by lra.
  rewrite py_round_small by (simpl; lra).
  tuple_eq; lra.
Qed.

Lemma sum_weighted_all_zero (items : list WeightItem) (f : WeightItem -> R) :
  Forall (fun i => weight i = 0) items ->
  sum (map (fun i => weight i * f i) items) = 0.
Proof.
  induction 1 as [|i items Hi _ IH].
  - apply sum_nil.
  - cbn [map]. rewrite sum_cons, IH, Hi. lra.
Qed.

(** Items that all weigh nothing have zero moments too. *)
Lemma get_fixed_weight_all_zero (items : list WeightItem) :
  Forall (fun i => weight i = 0) items ->
  get_fixed_weight items = (0, 0, 0, 0).
Proof.
  intros H.
  assert (Hw : sum (map weight items) = 0).
  { rewrite <- (sum_weighted_all_zero items (fun _ => 1) H).
    f_equal. apply map_ext. intros i. lra. }
  rewrite get_fixed_weight_zero_total by exact Hw.
  rewrite !sum_weighted_all_zero by exact H. reflexivity.
Qed.

(** The tank totals are all zero whenever the tank weights sum to zero. *)
Lemma get_tank_weight_totals_zero_sum (tank_vals : list TankVals) :
  sum (map t_weight tank_vals) = 0 ->
  get_tank_weight_totals tank_vals = (0, 0, 0, 0, 0).
Proof.
  intros H. unfold get_tank_weight_totals. rewrite H.
  rewrite Reqb_true by reflexivity. reflexivity.
Qed.

(** C2, at the failing input: two fixed weights of 1 and -1 at LCG 5 and 3.
    Their weights sum to zero, and [get_fixed_weight] returns the total 0 with
    LCG 2 (the undivided moment), not LCG 0. *)
Theorem get_fixed_weight_cancelling_pair :
  let items := [ {| weight := 1; lcg := 5; tcg := 0; vcg := 0 |};
                 {| weight := -1; lcg := 3; tcg := 0; vcg := 0 |} ] in
  sum (map weight items) = 0
  /\ get_fixed_weight items = (0, 2, 0, 0).
Proof.
  intros items.
  assert (H : sum (map weight items) = 0).
  { unfold items. simpl. rewrite !sum_cons, sum_nil. lra. }
  split; [exact H|].
  rewrite get_fixed_weight_zero_total by exact H.
  unfold items. simpl. rewrite !sum_cons, sum_nil.
  tuple_eq; lra.
Qed.

End WeightFacts.

(** ** Buoyancy distribution *)

Section StrengthFacts.

Import Strength.

Lemma apply_correction_total (W B : list R) :
  sum B <> 0 ->
  apply_correction W B
  = Ok (map (fun bd => bd * (1 + (sum W - sum B) / sum B)) B).
Proof.
  intros H. unfold apply_correction. rewrite Reqb_false by exact H.
  reflexivity.
Qed.

(** C7: when the uncorrected buoyancy distribution has a non-zero station sum,
    [get_buoyancy_distribution] returns every station multiplied by
    1 + (sum W - sum B) / sum B, and the stations of the result sum to the
    stations of the weight distribution. *)
Theorem corrected_buoyancy_sums_to_weight
  (x_vals weight_distribution ls_x_vals ls_buoyancy_distribution : list R)
  (total_dead_weight length draft_aft trim : R) (B : list R) :
  uncorrected_buoyancy x_vals ls_x_vals ls_buoyancy_distribution
                       total_dead_weight length draft_aft trim = Ok B ->
  sum B <> 0 ->
  exists total_buoyancy_distribution,
    get_buoyancy_distribution x_vals weight_distribution ls_x_vals
                              ls_buoyancy_distribution total_dead_weight
                              length draft_aft trim
    = Ok total_buoyancy_distribution
    /\ total_buoyancy_distribution
       = map (fun bd =>
                bd * (1 + (sum weight_distribution - sum B) / sum B)) B
    /\ sum total_buoyancy_distribution = sum weight_distribution.
Proof.
  intros HB Hnz. eexists. split; [|split; [reflexivity|]].
  - unfold get_buoyancy_distribution. rewrite HB. simpl.
    apply apply_correction_total. exact Hnz.
  - rewrite sum_map_scale. field. exact Hnz.
Qed.

Lemma corrected_buoyancy_sums_to_weight_witness :
  exists B,
    uncorrected_buoyancy [0; 1] [0; 1] [1; 1] 0 1 1 0 = Ok B
    /\ sum B <> 0
    /\ exists T,
         get_buoyancy_distribution [0; 1] [2; 4] [0; 1] [1; 1] 0 1 1 0 = Ok T
         /\ T = map (fun bd => bd * (1 + (sum [2; 4] - sum B) / sum B)) B
         /\ sum T = sum [2; 4].
Proof.
  assert (HB : uncorrected_buoyancy [0; 1] [0; 1] [1; 1] 0 1 1 0 = Ok [1; 1]).
  { unfold uncorrected_buoyancy, draft_val, py_div. py_eval. list_eq; lra. }
  assert (Hs : sum [1; 1] <> 0).
  { rewrite !sum_cons, sum_nil. lra. }
  exists [1; 1]. split; [exact HB|]. split; [exact Hs|].
  exact (corrected_buoyancy_sums_to_weight
           [0; 1] [2; 4] [0; 1] [1; 1] 0 1 1 0 [1; 1] HB Hs).
Defined.

End StrengthFacts.


(** ** Stability criteria *)

Section CriteriaFacts.

Import Criteria.

Lemma argmax_bool_total (l : list bool) :
  l <> [] -> exists i, argmax_bool l = Ok i.
Proof. destruct l; [congruence|]. intros _. eexists. reflexivity. Qed.

Lemma py_last_total (l : list R) : l <> [] -> exists a, py_last l = Ok a.
Proof. destruct l; [congruence|]. intros _. eexists. reflexivity. Qed.

(** [get_plot_area] returns a number for every non-empty list of angles. *)
Lemma get_plot_area_total (x y : list R) (start_x : R) (end_x : option R) :
  x <> [] -> exists a, get_plot_area x y start_x end_x = Ok a.
Proof.
  intros Hx. unfold get_plot_area.
  destruct (py_last_total x Hx) as [xl Hl]. rewrite Hl.
  assert (He : exists e, match end_x with Some e => Ok e | None => Ok xl end
                         = Ok e) by (destruct end_x; eexists; reflexivity).
  destruct He as [e He]. rewrite He. cbn [bind].
  assert (Hm : forall f : R -> bool, map f x <> []).
  { intros f H. apply map_eq_nil in H. contradiction. }
  destruct (argmax_bool_total _ (Hm (fun x0 => start_x <=? x0))) as [i Hi].
  rewrite Hi. cbn [bind].
  destruct (argmax_bool_total _ (Hm (fun x0 => e <=? x0))) as [j Hj].
  rewrite Hj.
  destruct (e <=? xl); cbn [bind];
    match goal with
    | |- context [if ?c then _ else _] => destruct c
    end; eexists; reflexivity.
Qed.

(** [calculate_range_of_stability] returns for one angle at least, and as
    many arms. *)
Lemma calculate_range_of_stability_total (x y : list R) :
  x <> [] ->
  List.length x = List.length y ->
  exists r, calculate_range_of_stability x y = Ok r.
Proof.
  intros Hx Hlen. unfold calculate_range_of_stability.
  destruct x as [|x0 x]; [contradiction|]. cbn [interp1d_linear bind].
  destruct y as [|y0 y]; [discriminate|].
  - destruct (forallb (fun val => val <=? 0) (y0 :: y));
      [eexists; reflexivity|].
    destruct (forallb (fun val => 0 <=? val) (y0 :: y));
      [eexists; reflexivity|].
    cbn [py_first py_last bind].
    destruct (0 <=? y0); cbn [bind].
    + destruct (zero_crossings (x0 :: x) (y0 :: y)); eexists; reflexivity.
    + destruct (zero_crossings (x0 :: x) (y0 :: y)) as [|r1 [|r2 rs]];
        eexists; reflexivity.
Qed.

(** [get_criteria_data] returns its first three entries for every curve from
    which the cubic interpolant is built. *)
Lemma get_criteria_data_total (gz_curve : list (R * R))
  (criteria_limits : list (string * R)) :
  interp1d_cubic (map fst gz_curve) (map snd gz_curve) = Ok tt ->
  exists cd, get_criteria_data gz_curve criteria_limits = Ok cd.
Proof.
  intros Hc. unfold get_criteria_data, cr_1, cr_2, cr_3.
  rewrite Hc. cbn [bind].
  assert (Hx : map fst gz_curve <> []).
  { intros E. unfold interp1d_cubic in Hc. rewrite E in Hc. discriminate. }
  destruct (calculate_range_of_stability_total
              (map fst gz_curve) (map snd gz_curve) Hx) as [[ros loll] Hr].
  { rewrite !length_map. reflexivity. }
  rewrite Hr. cbn [bind].
  destruct (get_plot_area_total (map fst gz_curve) (map snd gz_curve)
                                0 (Some 30) Hx) as [a30 H30].
  destruct (get_plot_area_total (map fst gz_curve) (map snd gz_curve)
                                0 (Some 40) Hx) as [a40 H40].
  rewrite H30, H40. cbn [bind]. eexists. reflexivity.
Qed.

Lemma round_half_even_near (x : R) (n : Z) :
  IZR n - 1 / 2 < x < IZR n + 1 / 2 -> round_half_even x = n.
Proof.
  intros [Hlo Hhi]. unfold round_half_even.
  destruct (Rlt_dec x (IZR n)) as [Hx|Hx].
  - assert (E : (n - 1 + 1)%Z = up x).
    { apply up_tech; [rewrite minus_IZR; lra|].
      replace (n - 1 + 1)%Z with n by lia. exact Hx. }
    replace (up x) with n by lia. cbv zeta. rewrite minus_IZR.
    rewrite Rltb_false by lra. rewrite Rltb_true by lra. lia.
  - assert (E : up x = (n + 1)%Z).
    { symmetry. apply up_tech; [lra|rewrite plus_IZR; lra]. }
    rewrite E. cbv zeta.
    replace (n + 1 - 1)%Z with n by lia.
    rewrite Rltb_true by lra. reflexivity.
Qed.

Lemma last_cons_default {A : Type} (l : list A) (a d : A) :
  last (a :: l) d = last l a.
Proof.
  revert a d. induction l as [|b l IH]; intros a d; [reflexivity|].
  change (last (a :: b :: l) d) with (last (b :: l) d).
  rewrite (IH b d), (IH b a). reflexivity.
Qed.

(** The first [True] of a comparison along a list. *)
Lemma first_true_at (p : R -> bool) (x : list R) (k : nat) :
  (k < List.length x)%nat ->
  (forall j, (j < k)%nat -> p (nth j x 0) = false) ->
  p (nth k x 0) = true ->
  argmax_bool (map p x) = Ok k.
Proof.
  intros Hk Hb Ht.
  assert (H : existsb (fun b => b) (map p x) = true
              /\ first_true (map p x) = k).
  { revert x Hk Hb Ht. induction k as [|k IH]; intros x Hk Hb Ht.
    - destruct x as [|a x]; [cbn in Hk; lia|].
      cbn [nth] in Ht. cbn [map existsb first_true]. rewrite Ht.
      split; reflexivity.
    - destruct x as [|a x]; [cbn in Hk; lia|].
      cbn [map existsb first_true].
      assert (Ha : p a = false) by (apply (Hb 0%nat); lia).
      rewrite Ha. cbn [orb].
      destruct (IH x) as [E F].
      + cbn in Hk. lia.
      + intros j Hj. apply (Hb (S j)). lia.
      + exact Ht.
      + rewrite E, F. split; reflexivity. }
  destruct H as [E F]. destruct x as [|a x]; [cbn in Hk; lia|].
  unfold argmax_bool. cbn [map]. cbn [map] in E, F. rewrite E, F.
  reflexivity.
Qed.

(** Where the curve starts at an angle that is not negative and reaches
    [end_x] at its sample [k], the first such sample, [get_plot_area] from 0
    integrates the samples 0 to [k] by the trapezoidal rule, applies the
    factor pi/180 twice and rounds to two decimals. *)
Lemma get_plot_area_integrated (x y : list R) (end_x : R) (k : nat) :
  0 <= hd 0 x ->
  (0 < k < List.length x)%nat ->
  (forall j, (j < k)%nat -> nth j x 0 < end_x) ->
  end_x <= nth k x 0 ->
  end_x <= last x 0 ->
  get_plot_area x y 0 (Some end_x)
  = Ok (py_round (trapezoid (firstn (S k) y) (firstn (S k) x)
                  * (PI / 180) * PI / 180) 2).
Proof.
  intros H0 Hk Hlt Hge Hlast. unfold get_plot_area. cbn [bind].
  rewrite (first_true_at (fun x0 => end_x <=? x0) x k);
    [|lia|intros j Hj; apply Rleb_false; specialize (Hlt j Hj); lra
     |apply Rleb_true; exact Hge].
  destruct x as [|x0 x']; [cbn in Hk; lia|].
  cbn [hd] in H0.
  cbn [map argmax_bool existsb first_true py_last bind].
  rewrite (Rleb_true 0 x0) by exact H0. cbn [orb bind].
  rewrite <- (last_cons_default x' x0 0).
  rewrite Rleb_true by exact Hlast. cbn [bind].
  replace (Z.of_nat (List.length (x0 :: x')) - 1 <=? Z.of_nat 0)%Z
    with false by (symmetry; apply Z.leb_gt; cbn [List.length] in *; lia).
  replace (Z.of_nat k <=? Z.of_nat 0)%Z
    with false by (symmetry; apply Z.leb_gt; lia).
  cbn [orb]. rewrite Nat2Z.id. unfold slice.
  rewrite Nat.sub_0_r. cbn [skipn]. reflexivity.
Qed.

(** C3: in every result of [get_criteria_data] the entry cr_3, described as
    the area from 30 to 40 degrees, has as attained value the area from 0 to
    40 degrees, which is also the attained value of cr_2.  On a curve that
    starts at an angle that is not negative and reaches 40 degrees at its
    sample [k], that value is the trapezoidal area under the samples 0 to [k],
    with the factor pi/180 applied twice and rounded to two decimals. *)
Theorem cr_3_attained_is_area_from_0_to_40 (gz_curve : list (R * R))
  (criteria_limits : list (string * R)) (cd : list (string * Criterion)) :
  get_criteria_data gz_curve criteria_limits = Ok cd ->
  let x := map fst gz_curve in
  let y := map snd gz_curve in
  exists c2 c3 area,
    dict_get cd "cr_2" = Some c2
    /\ dict_get cd "cr_3" = Some c3
    /\ description c3 = "Area under gz curve from 30° to 40°"%string
    /\ get_plot_area x y 0 (Some 40) = Ok area
    /\ attained c3 = area
    /\ attained c3 = attained c2
    /\ forall k,
        0 <= hd 0 x ->
        (0 < k < List.length x)%nat ->
        (forall j, (j < k)%nat -> nth j x 0 < 40) ->
        40 <= nth k x 0 ->
        40 <= last x 0 ->
        area = py_round (trapezoid (firstn (S k) y) (firstn (S k) x)
                         * (PI / 180) * PI / 180) 2.
Proof.
  intros H x y. revert H. unfold get_criteria_data, cr_1, cr_2, cr_3.
  fold x y.
  destruct (interp1d_cubic x y) as [[]|e]; cbn [bind]; [|discriminate].
  destruct (calculate_range_of_stability x y)
    as [[ros loll]|e]; cbn [bind]; [|discriminate].
  destruct (get_plot_area x y 0 (Some 30))
    as [a30|e]; cbn [bind]; [|discriminate].
  destruct (get_plot_area x y 0 (Some 40))
    as [a40|e] eqn:E40; cbn [bind]; [|discriminate].
  intros H. injection H as <-.
  do 2 eexists. exists a40. cbn.
  repeat split; try reflexivity.
  intros k H0 Hk Hlt Hge Hlast.
  rewrite (get_plot_area_integrated x y 40 k H0 Hk Hlt Hge Hlast) in E40.
  injection E40 as <-. reflexivity.
Qed.

Lemma sample_cubic :
  interp1d_cubic [0; 10; 20; 30] [0; 1 / 10; 18 / 100; 2 / 10] = Ok tt.
Proof. unfold interp1d_cubic. py_eval. reflexivity. Qed.

(** A curve sampled to 50 degrees: the area from 0 to 40 degrees is 24 metre
    degrees and rounds to 0.01 m rad, the area from 30 to 40 degrees is 7 metre
    degrees and would round to 0. *)
Lemma sample_area_0_to_40 :
  py_round (24 * (PI / 180) * PI / 180) 2 = 1 / 100.
Proof.
  unfold py_round. rewrite (round_half_even_near _ 1).
  - simpl. lra.
  - pose proof PI2_3_2. pose proof PI_4. simpl. split; nra.
Qed.

Lemma sample_area_30_to_40 :
  py_round (trapezoid [8 / 10; 6 / 10] [30; 40] * (PI / 180) * PI / 180) 2
  = 0.
Proof.
  apply py_round_small. cbn [trapezoid].
  pose proof PI2_3_2. pose proof PI_4. simpl. split; nra.
Qed.

Lemma cr_3_attained_is_area_from_0_to_40_witness :
  let gz_curve := [(0, 0); (10, 1 / 2); (20, 8 / 10); (30, 8 / 10);
                   (40, 6 / 10); (50, 2 / 10)] in
  exists cd c2 c3,
    get_criteria_data gz_curve [] = Ok cd
    /\ dict_get cd "cr_2" = Some c2
    /\ dict_get cd "cr_3" = Some c3
    /\ description c3 = "Area under gz curve from 30° to 40°"%string
    /\ trapezoid [0; 1 / 2; 8 / 10; 8 / 10; 6 / 10] [0; 10; 20; 30; 40] = 24
    /\ attained c3 = 1 / 100
    /\ attained c2 = 1 / 100
    /\ attained c3
       <> py_round (trapezoid [8 / 10; 6 / 10] [30; 40]
                    * (PI / 180) * PI / 180) 2.
Proof.
  intros gz_curve.
  destruct (get_criteria_data_total gz_curve []) as [cd H].
  { unfold interp1d_cubic, gz_curve. py_eval. reflexivity. }
  destruct (cr_3_attained_is_area_from_0_to_40 gz_curve [] cd H)
    as (c2 & c3 & area & H2 & H3 & Hd & _ & Ha & Heq & Hint).
  assert (Ht : trapezoid [0; 1 / 2; 8 / 10; 8 / 10; 6 / 10]
                         [0; 10; 20; 30; 40] = 24)
    by (cbn [trapezoid]; lra).
  assert (Harea : area = 1 / 100).
  { rewrite (Hint 4%nat).
    - unfold gz_curve. cbn [map fst snd firstn]. rewrite Ht.
      exact sample_area_0_to_40.
    - cbn. lra.
    - cbn. lia.
    - intros [|[|[|[|j]]]] Hj; cbn; try lra; lia.
    - cbn. lra.
    - cbn. lra. }
  exists cd, c2, c3.
  split; [exact H|]. split; [exact H2|]. split; [exact H3|].
  split; [exact Hd|]. split; [exact Ht|].
  split; [rewrite Ha; exact Harea|].
  split; [rewrite <- Heq, Ha; exact Harea|].
  rewrite Ha, Harea, sample_area_30_to_40. lra.
Defined.

(** The trapezoidal area under the sample curve from 0 to 30 degrees, in
    metre degrees. *)
Lemma sample_trapezoid :
  trapezoid [0; 1 / 10; 18 / 100; 2 / 10] [0; 10; 20; 30] = 38 / 10.
Proof. cbn. lra. Qed.

Lemma PI_sqr_le_16 : PI * PI <= 16.
Proof. pose proof PI_4. pose proof PI_RGT_0. nra. Qed.

(** The attained value of cr_1 on the sample curve. *)
Lemma sample_plot_area_0_30 :
  get_plot_area [0; 10; 20; 30] [0; 1 / 10; 18 / 100; 2 / 10] 0 (Some 30)
  = Ok (py_round (trapezoid [0; 1 / 10; 18 / 100; 2 / 10] [0; 10; 20; 30]
                  * (PI / 180) * PI / 180) 2).
Proof.
  unfold get_plot_area. py_eval. reflexivity.
Qed.

Lemma sample_area_rounds_to_0 :
  py_round (38 / 10 * (PI / 180) * PI / 180) 2 = 0.
Proof.
  apply py_round_small.
  pose proof PI_sqr_le_16. pose proof PI_RGT_0. simpl. nra.
Qed.

Lemma sample_area_positive : 0 < 38 / 10 * (PI / 180) * PI / 180.
Proof. pose proof PI_RGT_0. nra. Qed.

(** cr_1 on the sample curve with the default limit. *)
Lemma sample_cr_1 :
  cr_1 [0; 10; 20; 30] [0; 1 / 10; 18 / 100; 2 / 10] []
  = Ok {| description := "Area under gz curve from 0° to 30°";
          required := 55 / 1000;
          cr_unit := "m rad";
          cr_type := "stability criteria";
          attained := 0;
          status := FAIL |}.
Proof.
  unfold cr_1. rewrite sample_plot_area_0_30, sample_trapezoid.
  rewrite sample_area_rounds_to_0. cbn.
  unfold status_at_least. rewrite Rleb_false by lra. reflexivity.
Qed.

Lemma sample_plot_area_0_40 :
  get_plot_area [0; 10; 20; 30] [0; 1 / 10; 18 / 100; 2 / 10] 0 (Some 40)
  = Ok 0.
Proof. unfold get_plot_area. py_eval. reflexivity. Qed.

Lemma sample_criteria_data :
  exists c2 c3,
    get_criteria_data [(0, 0); (10, 1 / 10); (20, 18 / 100); (30, 2 / 10)] []
    = Ok [("cr_1"%string,
           {| description := "Area under gz curve from 0° to 30°";
              required := 55 / 1000;
              cr_unit := "m rad";
              cr_type := "stability criteria";
              attained := 0;
              status := FAIL |});
          ("cr_2"%string, c2); ("cr_3"%string, c3)].
Proof.
  unfold get_criteria_data. cbn [map fst snd].
  rewrite sample_cubic. cbn [bind].
  destruct (calculate_range_of_stability_total
              [0; 10; 20; 30] [0; 1 / 10; 18 / 100; 2 / 10])
    as [[ros loll] Hr]; [discriminate|reflexivity|].
  rewrite Hr. cbn [bind].
  rewrite sample_cr_1. unfold cr_2, cr_3.
  rewrite sample_plot_area_0_40. cbn. do 2 eexists. reflexivity.
Qed.

(** C4 as stated does not hold: on the sample curve the attained value of
    cr_1 is 0, which is not the trapezoidal area with the factor pi/180
    applied twice (a positive number). *)
Lemma cr_1_sample_attained_is_not_the_unrounded_area :
  exists cd c,
    get_criteria_data [(0, 0); (10, 1 / 10); (20, 18 / 100); (30, 2 / 10)] []
    = Ok cd
    /\ dict_get cd "cr_1" = Some c
    /\ attained c = 0
    /\ attained c
       <> trapezoid [0; 1 / 10; 18 / 100; 2 / 10] [0; 10; 20; 30]
          * (PI / 180) * (PI / 180).
Proof.
  destruct sample_criteria_data as (c2 & c3 & H).
  do 2 eexists. split; [exact H|]. split; [reflexivity|].
  split; [reflexivity|]. cbn [attained].
  rewrite sample_trapezoid. pose proof sample_area_positive. lra.
Qed.

(** C4, amended: on the sample curve with the default limit 0.055, cr_1
    attains the trapezoidal area from 0 to 30 degrees (3.8 metre degrees) with
    the factor pi/180 applied twice, rounded to two decimals, which is 0, and
    its status is FAIL. *)
Theorem cr_1_sample_attained_is_the_rounded_area :
  exists cd c,
    get_criteria_data [(0, 0); (10, 1 / 10); (20, 18 / 100); (30, 2 / 10)] []
    = Ok cd
    /\ dict_get cd "cr_1" = Some c
    /\ required c = 55 / 1000
    /\ trapezoid [0; 1 / 10; 18 / 100; 2 / 10] [0; 10; 20; 30] = 38 / 10
    /\ attained c
       = py_round (trapezoid [0; 1 / 10; 18 / 100; 2 / 10] [0; 10; 20; 30]
                   * (PI / 180) * (PI / 180)) 2
    /\ attained c = 0
    /\ status c = FAIL.
Proof.
  destruct sample_criteria_data as (c2 & c3 & H).
  do 2 eexists. split; [exact H|]. split; [reflexivity|].
  cbn [required attained status].
  split; [reflexivity|]. split; [exact sample_trapezoid|].
  split; [|split; reflexivity].
  rewrite sample_trapezoid. symmetry.
  replace (38 / 10 * (PI / 180) * (PI / 180))
    with (38 / 10 * (PI / 180) * PI / 180) by (unfold Rdiv; ring).
  exact sample_area_rounds_to_0.
Qed.

(** *** Range of stability *)









End CriteriaFacts.

(** ** Crane lift *)

Section BoomAngleFacts.

Import Crane.

(** C5 as stated does not hold for every boom length and outreach: without an
    overload and with an outreach of 20 on a boom of length 10 the result is
    neither a message nor an angle, the call raises [ValueError]. *)
Lemma calculate_boom_angle_outreach_beyond_boom :
  calculate_boom_angle 10 20 0 0 = Raise ValueError.
Proof.
  unfold calculate_boom_angle, py_div, py_acos. py_eval. reflexivity.
Qed.

(** A boom of length zero divides by zero. *)
Lemma calculate_boom_angle_zero_boom (required_outreach Ucl Ucr : R) :
  Ucl <= 1 -> Ucr <= 1 ->
  calculate_boom_angle 0 required_outreach Ucl Ucr = Raise ZeroDivisionError.
Proof.
  intros Hl Hr. unfold calculate_boom_angle, py_div.
  rewrite (Rltb_false 1 Ucr), (Rltb_false 1 Ucl) by lra. cbn.
  rewrite Reqb_true by reflexivity. reflexivity.
Qed.

(** C5, amended: the three overload messages in their order of precedence for
    every boom length and outreach; without an overload, and when the boom
    length is not zero and the outreach over the boom length lies in [-1, 1],
    the message for an angle above 75 degrees and else the angle in degrees. *)
Theorem calculate_boom_angle_precedence
  (boom_length required_outreach Ucl Ucr : R) :
  (1 < Ucl -> 1 < Ucr ->
   calculate_boom_angle boom_length required_outreach Ucl Ucr
   = Ok (Message "Lift is beyond crane capacity and max radius!"))
  /\ (1 < Ucl -> Ucr <= 1 ->
      calculate_boom_angle boom_length required_outreach Ucl Ucr
      = Ok (Message "Lift is beyond crane capacity!"))
  /\ (Ucl <= 1 -> 1 < Ucr ->
      calculate_boom_angle boom_length required_outreach Ucl Ucr
      = Ok (Message "Lift is beyond max radius!"))
  /\ (Ucl <= 1 -> Ucr <= 1 ->
      boom_length <> 0 ->
      -1 <= required_outreach / boom_length <= 1 ->
      let boom_angle_deg := degrees (acos (required_outreach / boom_length)) in
      (75 < boom_angle_deg ->
       calculate_boom_angle boom_length required_outreach Ucl Ucr
       = Ok (Message "Cargo inside minimum outreach!"))
      /\ (boom_angle_deg <= 75 ->
          calculate_boom_angle boom_length required_outreach Ucl Ucr
          = Ok (Degrees boom_angle_deg))).
Proof.
  unfold calculate_boom_angle. repeat split.
  - intros Hl Hr. rewrite !Rltb_true by lra. reflexivity.
  - intros Hl Hr. rewrite (Rltb_false 1 Ucr) by lra.
    rewrite Rltb_true by lra. reflexivity.
  - intros Hl Hr. rewrite (Rltb_false 1 Ucl) by lra.
    rewrite Rltb_true by lra. reflexivity.
  - intros Hd. rewrite (Rltb_false 1 Ucr), (Rltb_false 1 Ucl) by lra.
    unfold py_div, py_acos. cbn. rewrite Reqb_false by assumption. cbn.
    rewrite !Rleb_true by lra. cbn. rewrite Rltb_true by exact Hd.
    reflexivity.
  - intros Hd. rewrite (Rltb_false 1 Ucr), (Rltb_false 1 Ucl) by lra.
    unfold py_div, py_acos. cbn. rewrite Reqb_false by assumption. cbn.
    rewrite !Rleb_true by lra. cbn.
    rewrite Rltb_false by (fold (degrees (acos (required_outreach / boom_length))); lra).
    reflexivity.
Qed.

Lemma degrees_acos_0 : degrees (acos 0) = 90.
Proof. rewrite acos_0. unfold degrees. field. apply PI_neq0. Qed.

Lemma degrees_acos_1 : degrees (acos 1) = 0.
Proof. rewrite acos_1. unfold degrees. field. apply PI_neq0. Qed.

Lemma calculate_boom_angle_precedence_witness :
  calculate_boom_angle 10 5 (12 / 10) (13 / 10)
  = Ok (Message "Lift is beyond crane capacity and max radius!")
  /\ calculate_boom_angle 10 5 (12 / 10) (5 / 10)
     = Ok (Message "Lift is beyond crane capacity!")
  /\ calculate_boom_angle 10 5 (5 / 10) (13 / 10)
     = Ok (Message "Lift is beyond max radius!")
  /\ calculate_boom_angle 10 0 (5 / 10) (5 / 10)
     = Ok (Message "Cargo inside minimum outreach!")
  /\ calculate_boom_angle 10 10 (5 / 10) (5 / 10) = Ok (Degrees 0).
Proof.
  assert (E0 : 0 / 10 = 0) by lra.
  assert (E1 : 10 / 10 = 1) by lra.
  split; [|split; [|split; [|split]]].
  - apply (calculate_boom_angle_precedence 10 5 (12 / 10) (13 / 10)); lra.
  - apply (calculate_boom_angle_precedence 10 5 (12 / 10) (5 / 10)); lra.
  - apply (calculate_boom_angle_precedence 10 5 (5 / 10) (13 / 10)); lra.
  - apply (calculate_boom_angle_precedence 10 0 (5 / 10) (5 / 10));
      try lra.
    cbv zeta. rewrite E0, degrees_acos_0. lra.
  - replace (Degrees 0) with (Degrees (degrees (acos (10 / 10))))
      by (rewrite E1, degrees_acos_1; reflexivity).
    apply (calculate_boom_angle_precedence 10 10 (5 / 10) (5 / 10));
      try lra.
    cbv zeta. rewrite E1, degrees_acos_1. lra.
Defined.

End BoomAngleFacts.

Section SlewAngleFacts.

Import Crane.

Lemma outreach_at_the_pedestal (x1 y1 : R) :
  sqrt ((x1 - x1) ^ 2 + (y1 - y1) ^ 2) = 0.
Proof.
  replace ((x1 - x1) ^ 2 + (y1 - y1) ^ 2) with 0 by ring. apply sqrt_0.
Qed.

(** The slew angle divides by zero when the cargo or the boom tip is at the
    pedestal. *)
Lemma calculate_slew_angle_coincident (x1 y1 x2 y2 x3 y3 : R) :
  (x3 = x1 /\ y3 = y1) \/ (x2 = x1 /\ y2 = y1) ->
  calculate_slew_angle x1 y1 x2 y2 x3 y3 = Raise ZeroDivisionError.
Proof.
  intros H. unfold calculate_slew_angle, py_div.
  rewrite Reqb_true; [reflexivity|].
  destruct H as [[-> ->]|[-> ->]]; rewrite outreach_at_the_pedestal; ring.
Qed.

(** With the cargo or the boom tip at the pedestal the boom angle is a value
    or a division by zero, never another exception. *)
Lemma calculate_boom_angle_coincident
  (boom_length required_outreach Ucl Ucr : R) :
  boom_length = 0 \/ required_outreach = 0 ->
  (exists b,
      calculate_boom_angle boom_length required_outreach Ucl Ucr = Ok b)
  \/ calculate_boom_angle boom_length required_outreach Ucl Ucr
     = Raise ZeroDivisionError.
Proof.
  intros H. unfold calculate_boom_angle.
  destruct ((1 <? Ucr) && (1 <? Ucl)); [left; eexists; reflexivity|].
  destruct (1 <? Ucl); [left; eexists; reflexivity|].
  destruct (1 <? Ucr); [left; eexists; reflexivity|].
  unfold py_div. destruct (Reqb_spec boom_length 0) as [E|E];
    [right; reflexivity|].
  destruct H as [H|H]; [contradiction|]. subst required_outreach.
  cbn [bind]. unfold py_acos.
  replace (0 / boom_length) with 0 by (field; exact E).
  rewrite !Rleb_true by lra. cbn.
  left. destruct (75 <? degrees (acos 0)); eexists; reflexivity.
Qed.

Lemma lift_crane_coincident (ship_crane_data : CraneData)
  (crane_details : CraneDetails)
  (Mrigging Mhook WCFrigging WCF DAF DAFincl Mblock : R)
  (boomdata : list (string * string)) (boom : string)
  (x1 y1 z1 x2 y2 z2 weight x3 y3 z3 : R) (required_swl : SWLResult) :
  pedestal_base_point crane_details = (x1, y1, z1) ->
  dict_get boomdata "boom" = Some boom ->
  select_boom_tip (boom_tip_point crane_details) (remove_all " Boom" boom 0)
  = Ok (x2, y2, z2) ->
  calculate_required_swl (get_swl_table ship_crane_data boomdata)
                         (sqrt ((x3 - x1) ^ 2 + (y3 - y1) ^ 2)) weight
                         Mrigging Mhook WCFrigging WCF DAF DAFincl Mblock
  = Ok required_swl ->
  (x3 = x1 /\ y3 = y1) \/ (x2 = x1 /\ y2 = y1) ->
  lift_crane ship_crane_data crane_details (weight, x3, y3, z3)
             Mrigging Mhook WCFrigging WCF DAF DAFincl Mblock boomdata
  = Raise ZeroDivisionError.
Proof.
  intros Hp Hb Ht Hs Hc. unfold lift_crane, dict_item.
  rewrite Hp, Hb. cbn [bind]. rewrite Ht. cbn [bind]. rewrite Hs. cbn [bind].
  rewrite (calculate_slew_angle_coincident _ _ _ _ _ _ Hc).
  destruct (calculate_boom_angle_coincident
              (x2 - x1) (sqrt ((x3 - x1) ^ 2 + (y3 - y1) ^ 2))
              (UCl required_swl) (UCr required_swl)) as [[b Hok]|Hz].
  - destruct Hc as [[-> ->]|[-> ->]].
    + right. apply outreach_at_the_pedestal.
    + left. ring.
  - rewrite Hok. reflexivity.
  - rewrite Hz. reflexivity.
Qed.

(** C10 as stated does not hold for every such input.  With the cargo at the
    pedestal, selectors that match no stored table and a non-zero load, the
    call fails before the slew angle is computed, with [UnboundLocalError].
    And when a crane listed before the one with the cargo at the pedestal
    fails itself, here with a cargo beyond the reach of its boom, the call
    ends there, with [ValueError]. *)
Lemma calculate_crane_and_swl_cargo_at_pedestal_without_table :
  calculate_crane_and_swl
    []
    [("crane_1"%string,
      [{| pedestal_base_point := (0, 0, 0);
          boom_tip_point := TipPoint (10, 0, 5) |}])]
    [("crane_1"%string, (10, 0, 0, 0))]
    0 0 1 1 1 1 0
    [("boom", "Main Boom"); ("operation", "Lift"); ("height", "20")]%string
  = Raise UnboundLocalError
  /\ calculate_crane_and_swl
       [("Main", [("Lift", [("10.csv", [(10, 100); (20, 80); (30, 50)])])])]%string
       [("crane_1"%string,
         [{| pedestal_base_point := (0, 0, 0);
             boom_tip_point := TipPoint (10, 0, 5) |}]);
        ("crane_2"%string,
         [{| pedestal_base_point := (0, 0, 0);
             boom_tip_point := TipPoint (10, 0, 5) |}])]
       [("crane_1", (10, 20, 0, 0)); ("crane_2", (5, 0, 0, 0))]%string
       0 0 1 1 1 1 0
       [("boom", "Main"); ("operation", "Lift"); ("height", "10")]%string
     = Raise ValueError.
Proof.
  split.
  - unfold calculate_crane_and_swl. cbn [lift_cranes dict_get String.eqb
      Ascii.eqb Bool.eqb bind].
    unfold lift_crane. cbn [pedestal_base_point boom_tip_point dict_item
      dict_get String.eqb Ascii.eqb Bool.eqb bind select_boom_tip].
    rewrite outreach_at_the_pedestal.
    unfold calculate_required_swl. py_eval. reflexivity.
  - assert (S20 : sqrt ((20 - 0) ^ 2 + (0 - 0) ^ 2) = 20).
    { replace ((20 - 0) ^ 2 + (0 - 0) ^ 2) with (20 * 20) by ring.
      apply sqrt_square. lra. }
    unfold calculate_crane_and_swl. cbn [lift_cranes dict_get String.eqb
      Ascii.eqb Bool.eqb bind].
    unfold lift_crane. cbn [pedestal_base_point boom_tip_point dict_item
      dict_get String.eqb Ascii.eqb Bool.eqb bind select_boom_tip].
    rewrite S20. unfold get_swl_table.
    cbn [dict_get String.eqb Ascii.eqb Bool.eqb truthy negb orb append].
    unfold calculate_required_swl, interpolate_swl, interpolate_radius,
      py_div.
    py_eval.
    unfold calculate_boom_angle, py_div, py_acos.
    repeat (progress (rdecide; cbn [andb bind fst snd])).
    reflexivity.
Qed.

Lemma lift_cranes_app (ship_crane_data : CraneData)
  (l1 l2 : list (string * list CraneDetails))
  (cargo_data : list (string * (R * R * R * R)))
  (Mrigging Mhook WCFrigging WCF DAF DAFincl Mblock : R)
  (boomdata : list (string * string))
  (crane_orientations : list (string * option CraneOrientation))
  (required_swl : option SWLResult) :
  lift_cranes ship_crane_data (l1 ++ l2) cargo_data Mrigging Mhook WCFrigging
              WCF DAF DAFincl Mblock boomdata crane_orientations required_swl
  = (r <- lift_cranes ship_crane_data l1 cargo_data Mrigging Mhook WCFrigging
                      WCF DAF DAFincl Mblock boomdata crane_orientations
                      required_swl ;;
     lift_cranes ship_crane_data l2 cargo_data Mrigging Mhook WCFrigging
                 WCF DAF DAFincl Mblock boomdata (fst r) (snd r)).
Proof.
  revert crane_orientations required_swl.
  induction l1 as [|[crane details] l1 IH];
    intros crane_orientations required_swl; [reflexivity|].
  cbn [app lift_cranes].
  destruct details as [|d details]; cbn [bind]; [reflexivity|].
  destruct (dict_get cargo_data crane) as [c|].
  - destruct (lift_crane _ _ _ _ _ _ _ _ _ _ _) as [r|]; cbn [bind];
      [apply IH|reflexivity].
  - apply IH.
Qed.

(** The cranes that are processed without an exception: each has its details
    and either no cargo or a lift that returns. *)
Lemma lift_cranes_complete (ship_crane_data : CraneData)
  (crane_data : list (string * list CraneDetails))
  (cargo_data : list (string * (R * R * R * R)))
  (Mrigging Mhook WCFrigging WCF DAF DAFincl Mblock : R)
  (boomdata : list (string * string))
  (crane_orientations : list (string * option CraneOrientation))
  (required_swl : option SWLResult) :
  (forall crane details,
      In (crane, details) crane_data ->
      exists crane_details more_details,
        details = crane_details :: more_details
        /\ (dict_get cargo_data crane = None
            \/ exists cargo_details r,
                dict_get cargo_data crane = Some cargo_details
                /\ lift_crane ship_crane_data crane_details cargo_details
                              Mrigging Mhook WCFrigging WCF DAF DAFincl
                              Mblock boomdata = Ok r)) ->
  exists r,
    lift_cranes ship_crane_data crane_data cargo_data Mrigging Mhook
                WCFrigging WCF DAF DAFincl Mblock boomdata
                crane_orientations required_swl = Ok r.
Proof.
  revert crane_orientations required_swl.
  induction crane_data as [|[crane details] crane_data IH];
    intros crane_orientations required_swl H; [eexists; reflexivity|].
  destruct (H crane details (or_introl eq_refl))
    as (d & ds & -> & [Hnone|(c & r & Hsome & Hr)]);
    cbn [lift_cranes bind].
  - rewrite Hnone. apply IH. intros c ds' Hin. apply H. right. exact Hin.
  - rewrite Hsome, Hr. cbn [bind]. apply IH.
    intros c' ds' Hin. apply H. right. exact Hin.
Qed.

(** C10, amended: when the cargo's (LCG, TCG) or the boom tip's (x, y) of a
    crane is the pedestal's (x, y), the cranes before it in [crane_data] are
    processed without an exception, and the boom tip selection and the
    required-SWL computation of that crane complete,
    [calculate_crane_and_swl] fails with a division by zero, whatever cranes
    follow. *)
Theorem calculate_crane_and_swl_coincident_points
  (ship_crane_data : CraneData)
  (cranes_before : list (string * list CraneDetails)) (crane : string)
  (crane_details : CraneDetails) (more_details : list CraneDetails)
  (more_cranes : list (string * list CraneDetails))
  (cargo_data : list (string * (R * R * R * R)))
  (Mrigging Mhook WCFrigging WCF DAF DAFincl Mblock : R)
  (boomdata : list (string * string)) (boom : string)
  (x1 y1 z1 x2 y2 z2 weight x3 y3 z3 : R) (required_swl : SWLResult) :
  (forall crane' details,
      In (crane', details) cranes_before ->
      exists crane_details' more_details',
        details = crane_details' :: more_details'
        /\ (dict_get cargo_data crane' = None
            \/ exists cargo_details r,
                dict_get cargo_data crane' = Some cargo_details
                /\ lift_crane ship_crane_data crane_details' cargo_details
                              Mrigging Mhook WCFrigging WCF DAF DAFincl
                              Mblock boomdata = Ok r)) ->
  pedestal_base_point crane_details = (x1, y1, z1) ->
  dict_get cargo_data crane = Some (weight, x3, y3, z3) ->
  dict_get boomdata "boom" = Some boom ->
  select_boom_tip (boom_tip_point crane_details) (remove_all " Boom" boom 0)
  = Ok (x2, y2, z2) ->
  calculate_required_swl (get_swl_table ship_crane_data boomdata)
                         (sqrt ((x3 - x1) ^ 2 + (y3 - y1) ^ 2)) weight
                         Mrigging Mhook WCFrigging WCF DAF DAFincl Mblock
  = Ok required_swl ->
  (x3 = x1 /\ y3 = y1) \/ (x2 = x1 /\ y2 = y1) ->
  calculate_crane_and_swl ship_crane_data
                          (cranes_before
                             ++ (crane, crane_details :: more_details)
                             :: more_cranes)
                          cargo_data
                          Mrigging Mhook WCFrigging WCF DAF DAFincl Mblock
                          boomdata
  = Raise ZeroDivisionError.
Proof.
  intros Hbefore Hp Hcargo Hb Ht Hs Hc.
  unfold calculate_crane_and_swl. rewrite lift_cranes_app.
  destruct (lift_cranes_complete
              ship_crane_data cranes_before cargo_data Mrigging Mhook
              WCFrigging WCF DAF DAFincl Mblock boomdata [] None Hbefore)
    as [r Hr].
  rewrite Hr. cbn [bind lift_cranes].
  rewrite Hcargo.
  rewrite (lift_crane_coincident _ _ _ _ _ _ _ _ _ _ _ _ _ _ _ _ _ _ _ _ _ _
             Hp Hb Ht Hs Hc).
  reflexivity.
Qed.

(** A lift that returns: crane_1 lifts 10 t at an outreach of 20 m, with the
    table of the main boom. *)
Lemma sample_lift :
  exists r,
    lift_crane
      [("Main", [("Lift", [("10.csv", [(10, 100); (20, 80); (30, 50)])])])]%string
      {| pedestal_base_point := (0, 0, 0);
         boom_tip_point := TipPoint (20, 0, 5) |}
      (10, 20, 0, 0) 0 0 1 1 1 1 0
      [("boom", "Main"); ("operation", "Lift"); ("height", "10")]%string
    = Ok r.
Proof.
  assert (S20 : sqrt ((20 - 0) ^ 2 + (0 - 0) ^ 2) = 20).
  { replace ((20 - 0) ^ 2 + (0 - 0) ^ 2) with (20 * 20) by ring.
    apply sqrt_square. lra. }
  assert (Q20 : 20 / (20 - 0) = 1) by lra.
  assert (C20 : ((20 - 0) * (20 - 0) + (0 - 0) * (0 - 0)) / (20 * 20) = 1)
    by lra.
  unfold lift_crane.
  cbn [pedestal_base_point boom_tip_point dict_item dict_get String.eqb
       Ascii.eqb Bool.eqb bind select_boom_tip].
  rewrite S20.
  unfold get_swl_table.
  cbn [dict_get String.eqb Ascii.eqb Bool.eqb truthy negb orb append].
  unfold calculate_required_swl, interpolate_swl, interpolate_radius, py_div.
  py_eval.
  unfold calculate_boom_angle, calculate_slew_angle, py_div, py_acos.
  rewrite ?S20.
  repeat (progress (rdecide; cbn [andb bind fst snd];
                    rewrite ?Q20, ?C20, ?degrees_acos_1)).
  eexists. reflexivity.
Qed.

(** The required SWL of a load of 5 t at the pedestal, with the same table. *)
Lemma sample_swl_at_the_pedestal :
  exists r,
    calculate_required_swl
      (get_swl_table
         [("Main", [("Lift", [("10.csv", [(10, 100); (20, 80); (30, 50)])])])]%string
         [("boom", "Main"); ("operation", "Lift"); ("height", "10")]%string)
      (sqrt ((0 - 0) ^ 2 + (0 - 0) ^ 2)) 5 0 0 1 1 1 1 0
    = Ok r.
Proof.
  rewrite outreach_at_the_pedestal. unfold get_swl_table.
  cbn [dict_get String.eqb Ascii.eqb Bool.eqb truthy negb orb append].
  unfold calculate_required_swl, interpolate_swl, interpolate_radius, py_div.
  py_eval. eexists. reflexivity.
Qed.

Lemma calculate_crane_and_swl_coincident_points_witness :
  calculate_crane_and_swl
    [("Main", [("Lift", [("10.csv", [(10, 100); (20, 80); (30, 50)])])])]%string
    [("crane_1"%string,
      [{| pedestal_base_point := (0, 0, 0);
          boom_tip_point := TipPoint (20, 0, 5) |}]);
     ("crane_2"%string,
      [{| pedestal_base_point := (0, 0, 0);
          boom_tip_point := TipPoint (10, 0, 5) |}]);
     ("crane_3"%string, [])]
    [("crane_1", (10, 20, 0, 0)); ("crane_2", (5, 0, 0, 0))]%string
    0 0 1 1 1 1 0
    [("boom", "Main"); ("operation", "Lift"); ("height", "10")]%string
  = Raise ZeroDivisionError.
Proof.
  destruct sample_lift as [r1 H1].
  destruct sample_swl_at_the_pedestal as [r2 H2].
  apply (calculate_crane_and_swl_coincident_points
           [("Main", [("Lift", [("10.csv", [(10, 100); (20, 80); (30, 50)])])])]%string
           [("crane_1"%string,
             [{| pedestal_base_point := (0, 0, 0);
                 boom_tip_point := TipPoint (20, 0, 5) |}])]
           "crane_2"
           {| pedestal_base_point := (0, 0, 0);
              boom_tip_point := TipPoint (10, 0, 5) |}
           [] [("crane_3"%string, [])]
           [("crane_1", (10, 20, 0, 0)); ("crane_2", (5, 0, 0, 0))]%string
           0 0 1 1 1 1 0
           [("boom", "Main"); ("operation", "Lift"); ("height", "10")]%string
           "Main" 0 0 0 10 0 5 5 0 0 0 r2).
  - intros crane' details [H|[]]. injection H as <- <-.
    do 2 eexists. split; [reflexivity|]. right.
    exists (10, 20, 0, 0), r1. split; [reflexivity|exact H1].
  - reflexivity.
  - reflexivity.
  - reflexivity.
  - reflexivity.
  - exact H2.
  - left. split; reflexivity.
Defined.

End SlewAngleFacts.

Section SwlTableFacts.

Import Crane CraneSpec.

(** *** The nested loops find the first available table *)

Lemma find_app {A : Type} (p : A -> bool) (l1 l2 : list A) :
  find p (l1 ++ l2)
  = match find p l1 with
    | Some a => Some a
    | None => find p l2
    end.
Proof.
  induction l1 as [|a l1 IH]; [reflexivity|].
  cbn. destruct (p a); [reflexivity|exact IH].
Qed.

Lemma first_csv_of_operation_find (b o : string)
  (files : list (string * Table)) :
  first_csv_of_operation files
  = option_map snd
      (find in_csv_file (map (fun f => (b, o, fst f, snd f)) files)).
Proof.
  induction files as [|[k t] files IH]; [reflexivity|].
  cbn. unfold in_csv_file at 1. cbn.
  destruct (endswith k ".csv"); [reflexivity|exact IH].
Qed.

Lemma first_csv_of_boom_find (b : string)
  (operations : list (string * list (string * Table))) :
  first_csv_of_boom operations
  = option_map snd
      (find in_csv_file
            (flat_map (fun op => map (fun f => (b, fst op, fst f, snd f))
                                     (snd op))
                      operations)).
Proof.
  induction operations as [|[o files] operations IH]; [reflexivity|].
  cbn [first_csv_of_boom flat_map fst snd]. rewrite find_app.
  rewrite (first_csv_of_operation_find b o files).
  destruct (find in_csv_file (map (fun f => (b, o, fst f, snd f)) files));
    [reflexivity|exact IH].
Qed.

Lemma first_csv_is_first_available (crane_data : CraneData) :
  first_csv crane_data = first_available crane_data.
Proof.
  unfold first_available, keyed_tables.
  induction crane_data as [|[b operations] crane_data IH]; [reflexivity|].
  cbn [first_csv flat_map fst snd]. rewrite find_app.
  rewrite (first_csv_of_boom_find b operations).
  destruct (find in_csv_file
              (flat_map (fun op => map (fun f => (b, fst op, fst f, snd f))
                                       (snd op))
                        operations));
    [reflexivity|exact IH].
Qed.

(** *** A stored table is found under its keys only *)

Lemma dict_get_In {V : Type} (d : list (string * V)) (k : string) (v : V) :
  dict_get d k = Some v -> In (k, v) d.
Proof.
  induction d as [|[k' v'] d IH]; [discriminate|].
  cbn. destruct (String.eqb_spec k k') as [->|_].
  - intros H. injection H as ->. left. reflexivity.
  - intros H. right. apply IH. exact H.
Qed.

Lemma keyed_tables_In (crane_data : CraneData) (b o k : string) (t : Table)
  (operations : list (string * list (string * Table)))
  (files : list (string * Table)) :
  In (b, operations) crane_data -> In (o, files) operations ->
  In (k, t) files ->
  In (b, o, k, t) (keyed_tables crane_data).
Proof.
  intros Hb Ho Hk. unfold keyed_tables.
  apply in_flat_map. exists (b, operations). split; [exact Hb|].
  apply in_flat_map. exists (o, files). split; [exact Ho|].
  apply in_map_iff. exists (k, t). split; [reflexivity|exact Hk].
Qed.

(** *** [calculate_required_swl] on a table *)

Lemma fold_left_max_In (l : list nat) (a : nat) :
  In (fold_left Nat.max l a) (a :: l).
Proof.
  revert a. induction l as [|b l IH]; intros a; [left; reflexivity|].
  cbn [fold_left]. destruct (IH (Nat.max a b)) as [H|H].
  - rewrite <- H. destruct (Nat.max_spec a b) as [[_ E]|[_ E]]; rewrite E.
    + right. left. reflexivity.
    + left. reflexivity.
  - right. right. exact H.
Qed.

Lemma fold_left_min_In (l : list nat) (a : nat) :
  In (fold_left Nat.min l a) (a :: l).
Proof.
  revert a. induction l as [|b l IH]; intros a; [left; reflexivity|].
  cbn [fold_left]. destruct (IH (Nat.min a b)) as [H|H].
  - rewrite <- H. destruct (Nat.min_spec a b) as [[_ E]|[_ E]]; rewrite E.
    + left. reflexivity.
    + right. left. reflexivity.
  - right. right. exact H.
Qed.

Lemma mem_false_nth (v : R) (l : list R) (i : nat) :
  mem v l = false -> (i < List.length l)%nat -> nth i l 0 <> v.
Proof.
  intros Hm Hi E. unfold mem in Hm.
  assert (Hex : existsb (fun a => a =? v) l = true).
  { apply existsb_exists. exists (nth i l 0). split.
    - apply nth_In. exact Hi.
    - apply Reqb_true. exact E. }
  congruence.
Qed.

(** The interpolation of the SWL never divides by zero: the two radii around
    an outreach that is not in the table differ. *)
Lemma interpolate_swl_total (radius_list swl_list : list R) (Ra : R) :
  mem Ra radius_list = false ->
  exists r, interpolate_swl radius_list swl_list Ra = Ok r.
Proof.
  intros Hm. unfold interpolate_swl.
  set (indices := seq 0 (List.length radius_list)).
  destruct (filter (fun i => nth i radius_list 0 <=? Ra) indices)
    as [|l0 ls] eqn:El; [eexists; reflexivity|].
  destruct (filter (fun i => Ra <=? nth i radius_list 0) indices)
    as [|u0 us] eqn:Eu; [eexists; reflexivity|].
  destruct (fold_left Nat.max ls l0 =? fold_left Nat.min us u0)%nat;
    [eexists; reflexivity|].
  pose proof (fold_left_max_In ls l0) as Hl. rewrite <- El in Hl.
  pose proof (fold_left_min_In us u0) as Hu. rewrite <- Eu in Hu.
  apply filter_In in Hl. destruct Hl as [Hl1 Hl2].
  apply filter_In in Hu. destruct Hu as [Hu1 Hu2].
  apply in_seq in Hl1. apply in_seq in Hu1.
  destruct (Rleb_spec (nth (fold_left Nat.max ls l0) radius_list 0) Ra)
    as [Hle|]; [|discriminate].
  destruct (Rleb_spec Ra (nth (fold_left Nat.min us u0) radius_list 0))
    as [Hge|]; [|discriminate].
  pose proof (mem_false_nth Ra radius_list (fold_left Nat.max ls l0) Hm)
    as Hne.
  unfold py_div. rewrite Reqb_false; [eexists; reflexivity|].
  assert (nth (fold_left Nat.max ls l0) radius_list 0 <> Ra)
    by (apply Hne; lia).
  lra.
Qed.

Lemma interpolate_radius_total (radius_list swl_list : list R) (SWLreq : R) :
  exists r, interpolate_radius radius_list swl_list SWLreq = Ok r.
Proof.
  unfold interpolate_radius.
  destruct (filter (fun swl => swl <=? SWLreq) swl_list) as [|l0 ls];
    [eexists; reflexivity|].
  destruct (filter (fun swl => SWLreq <=? swl) swl_list) as [|h0 hs];
    [eexists; reflexivity|].
  destruct (Reqb_spec (fold_left Rmax ls l0) (fold_left Rmin hs h0))
    as [E|E]; [eexists; reflexivity|].
  unfold py_div. rewrite Reqb_false by lra. eexists. reflexivity.
Qed.

(** Peel the first stage off a sequence of stages. *)
Ltac stage :=
  match goal with
  | |- exists r, bind ?m _ = Ok r /\ _ =>
      let v := fresh "v" in
      let H := fresh "H" in
      assert (exists v, m = Ok v) as [v H]; [|rewrite H; cbn [bind]]
  end.

(** On a non-empty table, and with a DAF ratio that is defined,
    [calculate_required_swl] returns all eight values. *)
Lemma calculate_required_swl_total (t : Table)
  (required_outreach crane_weight Mrigging Mhook WCFrigging WCF DAF DAFincl
   Mblock : R) :
  t <> [] ->
  (DAFincl < DAF -> DAFincl <> 0 /\ DAF <> 0) ->
  exists r,
    calculate_required_swl (Some t) required_outreach crane_weight
                           Mrigging Mhook WCFrigging WCF DAF DAFincl Mblock
    = Ok r
    /\ SHLbe r = crane_weight + Mrigging + Mhook
    /\ SHLub r = crane_weight * WCF + Mrigging * WCFrigging + Mhook.
Proof.
  intros Ht Hdaf. unfold calculate_required_swl.
  assert (Hmap : forall f : R * R -> R, map f t <> []).
  { intros f E. apply map_eq_nil in E. contradiction. }
  stage.
  { destruct (Rltb_spec DAFincl DAF) as [Hlt|_]; [|eexists; reflexivity].
    unfold py_div. rewrite Reqb_false by (apply Hdaf; exact Hlt).
    eexists. reflexivity. }
  stage.
  { destruct (required_outreach =? 0); [eexists; reflexivity|].
    cbn [bind]. destruct t as [|row t']; [contradiction|].
    destruct (mem required_outreach (map fst (row :: t'))) eqn:Em;
      [eexists; reflexivity|].
    cbn [map py_max py_min bind].
    match goal with
    | |- context [if ?c then _ else _] => destruct c
    end; [eexists; reflexivity|].
    match goal with
    | |- context [if ?c then _ else _] => destruct c
    end; [eexists; reflexivity|].
    destruct (interpolate_swl_total (map fst (row :: t'))
                (map snd (row :: t')) required_outreach Em) as [r Hr].
    cbn [map] in Hr. rewrite Hr. eexists. reflexivity. }
  stage.
  { destruct (v =? 0); [eexists; reflexivity|].
    cbn [bind]. destruct (mem v (map snd t)); [eexists; reflexivity|].
    destruct t as [|row t']; [contradiction|].
    cbn [map py_max py_min bind].
    match goal with
    | |- context [if ?c then _ else _] => destruct c
    end; [eexists; reflexivity|].
    match goal with
    | |- context [if ?c then _ else _] => destruct c
    end; [eexists; reflexivity|].
    destruct (interpolate_radius_total (map fst (row :: t'))
                (map snd (row :: t')) v) as [r Hr].
    cbn [map] in Hr. rewrite Hr. eexists. reflexivity. }
  stage.
  { destruct (Rltb_spec DAFincl DAF) as [Hlt|_]; [|eexists; reflexivity].
    unfold py_div. rewrite Reqb_false by (apply Hdaf; exact Hlt).
    eexists. reflexivity. }
  stage.
  { destruct (Reqb_spec v2 0) as [E|E]; [eexists; reflexivity|].
    unfold py_div. rewrite Reqb_false by exact E. eexists. reflexivity. }
  stage.
  { destruct (Reqb_spec v1 0) as [E|E]; [eexists; reflexivity|].
    unfold py_div. rewrite Reqb_false by exact E. eexists. reflexivity. }
  eexists. split; [reflexivity|]. split; reflexivity.
Qed.

(** The lookup of the specification's example: at radius 25 the table
    (10, 100), (20, 80), (30, 50) gives an SWL of 65. *)
Lemma swl_at_radius_25 :
  exists r,
    calculate_required_swl (Some [(10, 100); (20, 80); (30, 50)])
                           25 10 0 0 1 1 1 1 0 = Ok r
    /\ SWL r = 65 /\ Rm r = 30.
Proof.
  unfold calculate_required_swl, interpolate_swl, py_div. py_eval.
  eexists. split; [reflexivity|]. cbn. split; lra.
Qed.

(** C9 as stated does not hold: with all three selectors supplied and no
    table stored under them, [get_swl_table] returns [None] although a table
    is available, and [calculate_required_swl] raises. *)
Lemma get_swl_table_unmatched_selectors_no_fallback :
  let crane_data :=
    [("Main", [("Lift", [("10.csv", [(10, 100); (20, 80); (30, 50)])])])]%string
  in
  let boomdata :=
    [("boom", "Main"); ("operation", "Lift"); ("height", "20")]%string in
  first_available crane_data = Some [(10, 100); (20, 80); (30, 50)]
  /\ get_swl_table crane_data boomdata = None
  /\ calculate_required_swl (get_swl_table crane_data boomdata)
                            15 10 0 0 1 1 1 1 0
     = Raise UnboundLocalError.
Proof.
  cbv zeta. split; [reflexivity|]. split; [reflexivity|].
  change (get_swl_table _ _) with (@None Table).
  unfold calculate_required_swl. py_eval. reflexivity.
Qed.

(** C9, amended: when a selector is missing or empty, [get_swl_table] returns
    the first available table of the nested traversal, and on that table,
    when it has rows and the DAF ratio is defined, [calculate_required_swl]
    returns a fully populated result; when all three selectors are supplied
    and no table is stored under them, [get_swl_table] returns [None]. *)
Theorem get_swl_table_fallback_only_when_a_selector_is_missing
  (crane_data : CraneData) (boomdata : list (string * string))
  (required_outreach crane_weight Mrigging Mhook WCFrigging WCF DAF DAFincl
   Mblock : R) :
  (truthy (dict_get boomdata "boom") = false
   \/ truthy (dict_get boomdata "operation") = false
   \/ truthy (dict_get boomdata "height") = false ->
   get_swl_table crane_data boomdata = first_available crane_data
   /\ forall t,
       first_available crane_data = Some t ->
       t <> [] ->
       (DAFincl < DAF -> DAFincl <> 0 /\ DAF <> 0) ->
       exists r,
         calculate_required_swl (get_swl_table crane_data boomdata)
                                required_outreach crane_weight
                                Mrigging Mhook WCFrigging WCF DAF DAFincl
                                Mblock
         = Ok r
         /\ SHLbe r = crane_weight + Mrigging + Mhook
         /\ SHLub r = crane_weight * WCF + Mrigging * WCFrigging + Mhook)
  /\ (forall boom operation height,
        dict_get boomdata "boom" = Some boom ->
        dict_get boomdata "operation" = Some operation ->
        dict_get boomdata "height" = Some height ->
        boom <> ""%string -> operation <> ""%string -> height <> ""%string ->
        (forall t,
            ~ In (boom, operation, (height ++ ".csv")%string, t)
                 (keyed_tables crane_data)) ->
        get_swl_table crane_data boomdata = None).
Proof.
  split.
  - intros Hmiss.
    assert (E : get_swl_table crane_data boomdata
                = first_available crane_data).
    { unfold get_swl_table.
      destruct Hmiss as [H|[H|H]]; rewrite H; cbn [negb orb];
        rewrite ?orb_true_r; apply first_csv_is_first_available. }
    split; [exact E|].
    intros t Ht Hrows Hdaf. rewrite E, Ht.
    apply calculate_required_swl_total; assumption.
  - intros boom operation height Hb Ho Hh Nb No Nh Habsent.
    unfold get_swl_table. rewrite Hb, Ho, Hh. unfold truthy.
    rewrite (proj2 (String.eqb_neq boom "") Nb).
    rewrite (proj2 (String.eqb_neq operation "") No).
    rewrite (proj2 (String.eqb_neq height "") Nh).
    cbn [negb orb].
    destruct (dict_get crane_data boom) as [boom_section|] eqn:E1;
      [|reflexivity].
    destruct (dict_get boom_section operation) as [operation_section|] eqn:E2;
      [|reflexivity].
    destruct (dict_get operation_section (height ++ ".csv")) as [t|] eqn:E3;
      [|reflexivity].
    exfalso. apply (Habsent t).
    eapply keyed_tables_In; eauto using dict_get_In.
Qed.

Lemma get_swl_table_fallback_only_when_a_selector_is_missing_witness :
  let crane_data :=
    [("Main", [("Lift", [("10.csv", [(10, 100); (20, 80); (30, 50)])])])]%string
  in
  (get_swl_table crane_data [("boom", "Main"); ("operation", "Lift")]%string
   = Some [(10, 100); (20, 80); (30, 50)]
   /\ exists r,
       calculate_required_swl
         (get_swl_table crane_data
                        [("boom", "Main"); ("operation", "Lift")]%string)
         25 10 0 0 1 1 1 1 0
       = Ok r
       /\ SHLbe r = 10 + 0 + 0
       /\ SHLub r = 10 * 1 + 0 * 1 + 0)
  /\ get_swl_table crane_data
                   [("boom", "Main"); ("operation", "Lift"); ("height", "20")]%string
     = None.
Proof.
  cbv zeta. split.
  - destruct (get_swl_table_fallback_only_when_a_selector_is_missing
                [("Main", [("Lift", [("10.csv", [(10, 100); (20, 80); (30, 50)])])])]%string
                [("boom", "Main"); ("operation", "Lift")]%string
                25 10 0 0 1 1 1 1 0) as [[E Hr] _].
    + right. right. reflexivity.
    + split; [rewrite E; reflexivity|].
      apply (Hr [(10, 100); (20, 80); (30, 50)]).
      * reflexivity.
      * discriminate.
      * intros H. lra.
  - destruct (get_swl_table_fallback_only_when_a_selector_is_missing
                [("Main", [("Lift", [("10.csv", [(10, 100); (20, 80); (30, 50)])])])]%string
                [("boom", "Main"); ("operation", "Lift"); ("height", "20")]%string
                25 10 0 0 1 1 1 1 0) as [_ Hnone].
    apply (Hnone "Main" "Lift" "20")%string;
      try reflexivity; try discriminate.
    intros t [H|[]]. discriminate.
Defined.

End SwlTableFacts.

(** ** Trim and floating status *)

Section TrimFacts.

Import Trim.

Lemma py_div_nonzero (a b : R) : b <> 0 -> py_div a b = Ok (a / b).
Proof. intros H. unfold py_div. rewrite Reqb_false by exact H. reflexivity. Qed.

Lemma py_div_zero (a b : R) : b = 0 -> py_div a b = Raise ZeroDivisionError.
Proof. intros H. unfold py_div. rewrite Reqb_true by exact H. reflexivity. Qed.

(** The interpolators in the order of [params], as far as there are any, with
    at least the seven up to "mct". *)
Lemma seven_interpolators (fns : list (R -> R -> R)) :
  (7 <= List.length fns)%nat ->
  exists f0 f1 f2 f3 f4 f5 f6 rest,
    fns = f0 :: f1 :: f2 :: f3 :: f4 :: f5 :: f6 :: rest.
Proof.
  intros H.
  do 7 (destruct fns as [|? fns]; [cbn in H; lia|]).
  repeat eexists.
Qed.

(** *** A vessel whose interpolators are built *)

Section BuiltInterpolators.

Variable hs : Hydrostatics.
Variables weight lcg tcg vcg vcg_corr length : R.
Variable fns : list (R -> R -> R).

Hypothesis built : build_interpolators hs = Ok fns.
Hypothesis up_to_mct : (7 <= List.length fns)%nat.

(** [optimize_trim] after [list_interp_func]. *)
Lemma optimize_trim_built :
  optimize_trim hs weight lcg tcg vcg vcg_corr length
  = (floating_status <~ pass fns 0 weight ;;
     trim_meter <~ lift (lcb <- dict_item floating_status "lcb" ;;
                         mct <- dict_item floating_status "mct" ;;
                         py_div (weight * (lcb - lcg)) (mct * 100)) ;;
     floating_status <~ pass fns trim_meter weight ;;
     lift (
       q <- py_div trim_meter length ;;
       let trim_deg := degrees (atan q) in
       draft <- dict_item floating_status "draft" ;;
       let floating_status :=
         dict_set floating_status "draft_aft" (draft + trim_meter / 2) in
       draft <- dict_item floating_status "draft" ;;
       let floating_status :=
         dict_set floating_status "draft_fwd" (draft - trim_meter / 2) in
       let floating_status := dict_set floating_status "trim" trim_deg in
       kmt <- dict_item floating_status "kmt" ;;
       q <- py_div tcg (kmt - vcg_corr) ;;
       let floating_status :=
         dict_set floating_status "heel" (degrees (atan q)) in
       kmt <- dict_item floating_status "kmt" ;;
       let floating_status :=
         dict_set floating_status "gmt_solid" (kmt - vcg) in
       kmt <- dict_item floating_status "kmt" ;;
       let floating_status :=
         dict_set floating_status "gmt_liquid" (kmt - vcg_corr) in
       kml <- dict_item floating_status "kml" ;;
       let floating_status := dict_set floating_status "gml" (kml - vcg) in
       Ok floating_status)).
Proof.
  unfold optimize_trim. rewrite built. unfold lift at 1.
  unfold tbind at 1.
  match goal with
  | |- (let (log', r) := ?m in ([] ++ log', r)) = _ => destruct m; reflexivity
  end.
Qed.

(** The first pass, up to the trim correction. *)
Ltac first_pass :=
  rewrite optimize_trim_built;
  destruct (seven_interpolators fns up_to_mct)
    as (f0 & f1 & f2 & f3 & f4 & f5 & f6 & rest & E);
  rewrite E in *; cbn [nth] in *;
  unfold pass, evaluate; cbn [params combine map tbind];
  unfold lift at 1;
  cbn [dict_item dict_get String.eqb Ascii.eqb Bool.eqb bind].

(** The dictionary operations after the second pass. *)
Ltac status_entries :=
  cbn [combine map dict_item dict_get dict_set String.eqb Ascii.eqb
       Bool.eqb bind].

(** C1, amended: when the interpolators are built, with those up to "mct"
    among them, and MCT times 100, the length and KMT less the corrected VCG
    are not zero, [optimize_trim] makes exactly two passes, at trim 0 and at
    trim_meter = weight (LCB - LCG) / (MCT 100) with LCB and MCT of the first
    pass, and returns the parameters of the second pass with draft_aft,
    draft_fwd, trim, heel, gmt_solid, gmt_liquid and gml as specified. *)
Theorem optimize_trim_two_passes :
  let value i trim := nth i fns (fun _ _ => 0) trim weight in
  let lcb0 := value 1%nat 0 in
  let mct0 := value 6%nat 0 in
  mct0 * 100 <> 0 ->
  let trim_meter := weight * (lcb0 - lcg) / (mct0 * 100) in
  length <> 0 ->
  let draft := value 0%nat trim_meter in
  let kml := value 4%nat trim_meter in
  let kmt := value 5%nat trim_meter in
  kmt - vcg_corr <> 0 ->
  exists floating_status,
    optimize_trim hs weight lcg tcg vcg vcg_corr length
    = ([(0, weight); (trim_meter, weight)], Ok floating_status)
    /\ (forall i param,
           nth_error params i = Some param ->
           (i < List.length fns)%nat ->
           dict_get floating_status param = Some (value i trim_meter))
    /\ dict_get floating_status "draft_aft" = Some (draft + trim_meter / 2)
    /\ dict_get floating_status "draft_fwd" = Some (draft - trim_meter / 2)
    /\ dict_get floating_status "trim"
       = Some (degrees (atan (trim_meter / length)))
    /\ dict_get floating_status "heel"
       = Some (degrees (atan (tcg / (kmt - vcg_corr))))
    /\ dict_get floating_status "gmt_solid" = Some (kmt - vcg)
    /\ dict_get floating_status "gmt_liquid" = Some (kmt - vcg_corr)
    /\ dict_get floating_status "gml" = Some (kml - vcg).
Proof.
  cbv zeta. intros Hmct Hlen Hkmt. first_pass.
  rewrite (py_div_nonzero _ _ Hmct).
  unfold lift. cbn [tbind app].
  rewrite (py_div_nonzero _ _ Hlen).
  destruct rest as [|f7 rest];
    status_entries; rewrite (py_div_nonzero _ _ Hkmt); status_entries;
    (eexists; split; [reflexivity|]; split;
     [|repeat split; reflexivity]).
  - intros i param Hp Hi. cbn in Hi.
    do 7 (destruct i as [|i];
          [cbn in Hp; injection Hp as <-; reflexivity|]).
    lia.
  - intros i param Hp Hi.
    do 8 (destruct i as [|i];
          [cbn in Hp; injection Hp as <-; reflexivity|]).
    cbn in Hp. destruct i; discriminate.
Qed.

(** *** The divisions that are not guarded *)

Lemma optimize_trim_zero_mct :
  nth 6 fns (fun _ _ => 0) 0 weight = 0 ->
  optimize_trim hs weight lcg tcg vcg vcg_corr length
  = ([(0, weight)], Raise ZeroDivisionError).
Proof.
  intros Hmct. first_pass.
  rewrite py_div_zero by (rewrite Hmct; ring).
  reflexivity.
Qed.

Lemma optimize_trim_second_pass_raises :
  let value i trim := nth i fns (fun _ _ => 0) trim weight in
  value 6%nat 0 * 100 <> 0 ->
  let trim_meter :=
    weight * (value 1%nat 0 - lcg) / (value 6%nat 0 * 100) in
  length = 0 \/ value 5%nat trim_meter - vcg_corr = 0 ->
  optimize_trim hs weight lcg tcg vcg vcg_corr length
  = ([(0, weight); (trim_meter, weight)], Raise ZeroDivisionError).
Proof.
  cbv zeta. intros Hmct Hz. first_pass.
  rewrite (py_div_nonzero _ _ Hmct).
  unfold lift. cbn [tbind app].
  destruct (Req_dec_T length 0) as [Hl|Hl].
  - rewrite (py_div_zero _ _ Hl). reflexivity.
  - destruct Hz as [Hz|Hz]; [contradiction|].
    rewrite (py_div_nonzero _ _ Hl).
    destruct rest as [|f7 rest];
      status_entries; rewrite (py_div_zero _ _ Hz); reflexivity.
Qed.

End BuiltInterpolators.

(** *** The sample vessel *)

(** On a grid whose values are all the same the interpolant is that value. *)
Lemma evaluate_linear_uniform (xs ys : list R) (values : list (list R))
  (c x y : R) :
  (2 <= List.length xs)%nat -> (2 <= List.length ys)%nat ->
  (forall a b, (a < List.length xs)%nat -> (b < List.length ys)%nat ->
               nth b (nth a values []) 0 = c) ->
  evaluate_linear xs ys values x y = c.
Proof.
  intros Hx Hy Hc. unfold evaluate_linear.
  assert (Hi : (S (find_index xs x) < List.length xs)%nat)
    by (unfold find_index; lia).
  assert (Hj : (S (find_index ys y) < List.length ys)%nat)
    by (unfold find_index; lia).
  rewrite !Hc by lia. ring.
Qed.

Lemma sample_interpolators (kmt mct : R) :
  build_interpolators (Sample.hydrostatics kmt mct)
  = Ok (map (fun c => evaluate_linear [-3; -2; -1; 0; 1; 2; 3] [1000; 2000]
                                      (Sample.uniform_grid c))
            [2; 50; 1; 48; 100; kmt; mct]).
Proof.
  unfold build_interpolators, Sample.hydrostatics, Sample.uniform_table.
  unfold RegularGridInterpolator. py_eval. reflexivity.
Qed.

Lemma sample_grid_value (c x y : R) :
  evaluate_linear [-3; -2; -1; 0; 1; 2; 3] [1000; 2000]
                  (Sample.uniform_grid c) x y = c.
Proof.
  apply evaluate_linear_uniform; [cbn; lia|cbn; lia|].
  intros a b Ha Hb. cbn in Ha, Hb.
  do 7 (destruct a as [|a]; [do 2 (destruct b as [|b]; [reflexivity|]); lia|]).
  lia.
Qed.

(** A table set of fewer than seven trims has no interpolator for "mct": the
    lookup raises [KeyError] after the first pass. *)
Lemma optimize_trim_two_trim_tables (weight lcg tcg vcg vcg_corr length : R) :
  let hs := firstn 2 (Sample.hydrostatics 10 20) in
  optimize_trim hs weight lcg tcg vcg vcg_corr length
  = ([(0, weight)], Raise KeyError).
Proof.
  cbv zeta. unfold optimize_trim, build_interpolators, Sample.hydrostatics,
    Sample.uniform_table, RegularGridInterpolator.
  py_eval. reflexivity.
Qed.

(** C1 as stated does not hold for every vessel length: on the sample vessel
    with length 0 both passes are made and the trim angle divides by zero. *)
Lemma optimize_trim_zero_length :
  snd (optimize_trim (Sample.hydrostatics 10 20) 1500 40 (1 / 2) 5 6 0)
  = Raise ZeroDivisionError.
Proof.
  rewrite (optimize_trim_second_pass_raises _ _ _ _ _ _ _ _
             (sample_interpolators 10 20)).
  - reflexivity.
  - cbn. lia.
  - cbn [nth map]. rewrite sample_grid_value. lra.
  - left. reflexivity.
Qed.

(** C8: the sample vessel with MCT 0, and the sample vessel with KMT 10 and a
    corrected VCG of 10: in both [optimize_trim] fails with a division by
    zero. *)
Theorem optimize_trim_divisions_are_unguarded :
  (exists hs weight lcg tcg vcg vcg_corr length fns,
      build_interpolators hs = Ok fns
      /\ nth 6 fns (fun _ _ => 0) 0 weight = 0
      /\ snd (optimize_trim hs weight lcg tcg vcg vcg_corr length)
         = Raise ZeroDivisionError)
  /\ (exists hs weight lcg tcg vcg vcg_corr length fns,
        build_interpolators hs = Ok fns
        /\ nth 6 fns (fun _ _ => 0) 0 weight <> 0
        /\ length <> 0
        /\ nth 5 fns (fun _ _ => 0)
               (weight * (nth 1 fns (fun _ _ => 0) 0 weight - lcg)
                / (nth 6 fns (fun _ _ => 0) 0 weight * 100))
               weight
           = vcg_corr
        /\ snd (optimize_trim hs weight lcg tcg vcg vcg_corr length)
           = Raise ZeroDivisionError).
Proof.
  split.
  - exists (Sample.hydrostatics 10 0), 1500, 40, (1 / 2), 5, 6, 100.
    eexists. split; [apply sample_interpolators|].
    assert (Hm : nth 6 (map (fun c => evaluate_linear [-3; -2; -1; 0; 1; 2; 3]
                                        [1000; 2000] (Sample.uniform_grid c))
                            [2; 50; 1; 48; 100; 10; 0])
                     (fun _ _ => 0) 0 1500 = 0)
      by (cbn [nth map]; apply sample_grid_value).
    split; [exact Hm|].
    rewrite (optimize_trim_zero_mct _ _ _ _ _ _ _ _
               (sample_interpolators 10 0)); [reflexivity|cbn; lia|exact Hm].
  - exists (Sample.hydrostatics 10 20), 1500, 40, (1 / 2), 5, 10, 100.
    eexists. split; [apply sample_interpolators|].
    cbn [nth map]. rewrite !sample_grid_value.
    split; [lra|]. split; [lra|]. split; [reflexivity|].
    rewrite (optimize_trim_second_pass_raises _ _ _ _ _ _ _ _
               (sample_interpolators 10 20)).
    + reflexivity.
    + cbn. lia.
    + cbn [nth map]. rewrite sample_grid_value. lra.
    + right. cbn [nth map]. rewrite !sample_grid_value. lra.
Qed.

Lemma optimize_trim_two_passes_witness :
  exists floating_status,
    snd (optimize_trim (Sample.hydrostatics 10 20) 1500 40 (1 / 2) 5 6 100)
    = Ok floating_status
    /\ List.length
         (fst (optimize_trim (Sample.hydrostatics 10 20)
                             1500 40 (1 / 2) 5 6 100)) = 2%nat
    /\ dict_get floating_status "draft" = Some 2
    /\ dict_get floating_status "draft_aft" = Some (2 + 15 / 2 / 2)
    /\ dict_get floating_status "draft_fwd" = Some (2 - 15 / 2 / 2)
    /\ dict_get floating_status "trim" = Some (degrees (atan (15 / 2 / 100)))
    /\ dict_get floating_status "heel"
       = Some (degrees (atan (1 / 2 / (10 - 6))))
    /\ dict_get floating_status "gmt_solid" = Some (10 - 5)
    /\ dict_get floating_status "gmt_liquid" = Some (10 - 6)
    /\ dict_get floating_status "gml" = Some (100 - 5).
Proof.
  assert (Htm : 1500 * (50 - 40) / (20 * 100) = 15 / 2) by lra.
  destruct (optimize_trim_two_passes
              (Sample.hydrostatics 10 20) 1500 40 (1 / 2) 5 6 100 _
              (sample_interpolators 10 20))
    as (fs & Hrun & Hparams & Haft & Hfwd & Htrim & Hheel & Hsolid & Hliquid
        & Hgml).
  - cbn. lia.
  - cbn [nth map]. rewrite sample_grid_value. lra.
  - lra.
  - cbn [nth map]. rewrite !sample_grid_value. lra.
  - cbn [nth map] in *. rewrite ?sample_grid_value in *.
    rewrite Htm in *.
    exists fs. rewrite Hrun. cbn [fst snd List.length].
    split; [reflexivity|]. split; [reflexivity|].
    split; [|repeat split; assumption].
    specialize (Hparams 0%nat "draft"%string eq_refl).
    cbn [nth map List.length] in Hparams.
    rewrite sample_grid_value in Hparams. apply Hparams. lia.
Defined.

End TrimFacts.

(** * Further properties *)

(** ** Results and lists *)

Lemma py_div_ok (a b q : R) : py_div a b = Ok q -> b <> 0 /\ q = a / b.
Proof.
  unfold py_div. destruct (Reqb_spec b 0) as [E|E]; [discriminate|].
  intros H. injection H as <-. split; [exact E|reflexivity].
Qed.

Lemma mapM_map {A B : Type} (f : A -> result B) (g : A -> B) (l : list A) :
  (forall a, In a l -> f a = Ok (g a)) -> mapM f l = Ok (map g l).
Proof.
  induction l as [|a l IH]; intros H; [reflexivity|].
  cbn [mapM map]. rewrite (H a) by (left; reflexivity). cbn [bind].
  rewrite IH by (intros b Hb; apply H; right; exact Hb). reflexivity.
Qed.

Lemma mapM_raise_head {A B : Type} (f : A -> result B) (a : A) (l : list A)
  (e : exn) :
  f a = Raise e -> mapM f (a :: l) = Raise e.
Proof. intros H. cbn [mapM]. rewrite H. reflexivity. Qed.

Lemma sum_app (l1 l2 : list R) : sum (l1 ++ l2) = sum l1 + sum l2.
Proof.
  induction l1 as [|a l1 IH]; cbn [app].
  - rewrite sum_nil. lra.
  - rewrite !sum_cons, IH. lra.
Qed.

Lemma sum_map_plus {A : Type} (f g : A -> R) (l : list A) :
  sum (map (fun a => f a + g a) l) = sum (map f l) + sum (map g l).
Proof.
  induction l as [|a l IH]; cbn [map].
  - rewrite !sum_nil. lra.
  - rewrite !sum_cons, IH. lra.
Qed.

Lemma sum_map_const {A : Type} (c : R) (l : list A) :
  sum (map (fun _ => c) l) = INR (List.length l) * c.
Proof.
  induction l as [|a l IH].
  - cbn [map List.length INR]. rewrite sum_nil. lra.
  - cbn [map]. rewrite sum_cons, IH.
    change (List.length (a :: l)) with (S (List.length l)).
    rewrite S_INR. lra.
Qed.

(** A sum of [+c] over the entries that pass a test and [-c] over the others. *)
Lemma sum_map_signed {A : Type} (p : A -> bool) (c : R) (l : list A) :
  sum (map (fun a => if p a then c else - c) l)
  = (2 * INR (List.length (filter p l)) - INR (List.length l)) * c.
Proof.
  induction l as [|a l IH].
  - cbn [map filter List.length INR]. rewrite sum_nil. lra.
  - cbn [map filter]. rewrite sum_cons, IH.
    change (List.length (a :: l)) with (S (List.length l)).
    destruct (p a).
    + change (List.length (a :: filter p l))
        with (S (List.length (filter p l))).
      rewrite !S_INR. lra.
    + rewrite S_INR. lra.
Qed.

Lemma fold_left_Rmax_all (c : R) (l : list R) :
  Forall (fun a => a = c) l -> fold_left Rmax l c = c.
Proof.
  induction 1 as [|a l Ha _ IH]; [reflexivity|].
  cbn [fold_left]. subst a. rewrite Rmax_left by lra. exact IH.
Qed.

Lemma fold_left_Rmin_all (c : R) (l : list R) :
  Forall (fun a => a = c) l -> fold_left Rmin l c = c.
Proof.
  induction 1 as [|a l Ha _ IH]; [reflexivity|].
  cbn [fold_left]. subst a. rewrite Rmin_left by lra. exact IH.
Qed.

(** ** Leg loads *)

Section LegLoadFacts.

Import LegLoad.

(** Without legs the mean of the leg positions divides by zero. *)
Lemma get_leg_load_distribution_no_legs (total_weight total_lcg total_tcg : R) :
  get_leg_load_distribution [] total_weight total_lcg total_tcg
  = Raise ZeroDivisionError.
Proof.
  unfold get_leg_load_distribution. cbn.
  rewrite py_div_zero by reflexivity. reflexivity.
Qed.

Lemma INR_length_nonzero {A : Type} (l : list A) :
  l <> [] -> INR (List.length l) <> 0.
Proof.
  destruct l as [|a l]; [congruence|]. intros _.
  change (List.length (a :: l)) with (S (List.length l)).
  rewrite S_INR. pose proof (pos_INR (List.length l)). lra.
Qed.

(** What a successful call has computed: the two centres, the uniform load
    and, for every leg, the uniform load plus or minus one share per
    direction. *)
Lemma get_leg_load_distribution_ok (leg_data : list Leg)
  (total_weight total_lcg total_tcg : R) (legs : list (Leg * R))
  (levers : R * R) :
  get_leg_load_distribution leg_data total_weight total_lcg total_tcg
  = Ok (legs, levers) ->
  let len := INR (List.length leg_data) in
  let center_of_length := sum (map lcg leg_data) / len in
  let center_of_breadth := sum (map tcg leg_data) / len in
  len <> 0
  /\ levers = (total_lcg - center_of_length, total_tcg - center_of_breadth)
  /\ exists lcg_share tcg_share,
      legs = map (fun leg =>
                    (leg,
                     total_weight / len
                     + (if center_of_length <? lcg leg
                        then lcg_share else - lcg_share)
                     + (if center_of_breadth <? tcg leg
                        then tcg_share else - tcg_share)))
                 leg_data.
Proof.
  intros H len cl cb. unfold get_leg_load_distribution in H.
  fold len in H.
  destruct (py_div (sum (map lcg leg_data)) len) as [cl'|] eqn:E1;
    [|discriminate].
  apply py_div_ok in E1. destruct E1 as [Hlen ->]. fold cl in H.
  rewrite !(py_div_nonzero _ _ Hlen) in H. cbn [bind] in H. fold cb in H.
  destruct leg_data as [|l0 ls]; [cbn in len; unfold len in Hlen; lra|].
  cbn [py_max py_min map bind] in H.
  set (dL := fold_left Rmax (map lcg ls) (lcg l0)
             - fold_left Rmin (map lcg ls) (lcg l0)) in H.
  set (dT := fold_left Rmax (map tcg ls) (tcg l0)
             - fold_left Rmin (map tcg ls) (tcg l0)) in H.
  set (ML := total_weight * (total_lcg - cl)) in H.
  set (MT := total_weight * (total_tcg - cb)) in H.
  destruct (Req_dec_T (dL * 2) 0) as [HL|HL].
  { rewrite (mapM_raise_head _ l0 ls ZeroDivisionError) in H; [discriminate|].
    unfold leg_part.
    destruct (cl <? lcg l0); rewrite (py_div_zero _ _ HL); reflexivity. }
  destruct (Req_dec_T (dT * 2) 0) as [HT|HT].
  { rewrite (mapM_raise_head _ l0 ls ZeroDivisionError) in H; [discriminate|].
    unfold leg_part.
    destruct (cl <? lcg l0); rewrite (py_div_nonzero _ _ HL); cbn [bind];
      destruct (cb <? tcg l0); rewrite (py_div_zero _ _ HT); reflexivity. }
  rewrite (mapM_map _
             (fun leg =>
                (leg,
                 total_weight / len
                 + (if cl <? lcg leg then ML / (dL * 2) else - (ML / (dL * 2)))
                 + (if cb <? tcg leg then MT / (dT * 2)
                    else - (MT / (dT * 2)))))) in H.
  - cbn [bind] in H. injection H as <- <-.
    split; [exact Hlen|]. split; [reflexivity|].
    exists (ML / (dL * 2)), (MT / (dT * 2)). reflexivity.
  - intros leg _. unfold leg_part.
    destruct (cl <? lcg leg); rewrite (py_div_nonzero _ _ HL); cbn [bind];
      destruct (cb <? tcg leg); rewrite (py_div_nonzero _ _ HT); cbn [bind];
      do 2 f_equal; unfold Rdiv; ring.
Qed.

(** X1: when half of the legs lie forward of the mean leg position and half
    lie to one side of it, the leg loads of a successful call add up to the
    total weight. *)
Theorem leg_loads_add_up_to_total_weight (leg_data : list Leg)
  (total_weight total_lcg total_tcg : R) (legs : list (Leg * R))
  (levers : R * R) :
  get_leg_load_distribution leg_data total_weight total_lcg total_tcg
  = Ok (legs, levers) ->
  let len := INR (List.length leg_data) in
  let center_of_length := sum (map lcg leg_data) / len in
  let center_of_breadth := sum (map tcg leg_data) / len in
  (2 * List.length (filter (fun leg => (center_of_length <? lcg leg)%R)
                           leg_data)
   = List.length leg_data)%nat ->
  (2 * List.length (filter (fun leg => (center_of_breadth <? tcg leg)%R)
                           leg_data)
   = List.length leg_data)%nat ->
  map fst legs = leg_data /\ sum (map snd legs) = total_weight.
Proof.
  intros H len cl cb HL HT.
  destruct (get_leg_load_distribution_ok _ _ _ _ _ _ H)
    as (Hlen & _ & sL & sT & ->).
  fold len cl cb in Hlen |- *.
  split.
  - rewrite map_map. cbn [fst]. apply map_id.
  - rewrite map_map. cbn [snd].
    rewrite (sum_map_plus
               (fun leg => total_weight / len
                           + (if cl <? lcg leg then sL else - sL))
               (fun leg => if cb <? tcg leg then sT else - sT)).
    rewrite (sum_map_plus (fun _ => total_weight / len)
               (fun leg => if cl <? lcg leg then sL else - sL)).
    rewrite sum_map_const.
    rewrite (sum_map_signed (fun leg => cl <? lcg leg)).
    rewrite (sum_map_signed (fun leg => cb <? tcg leg)).
    apply (f_equal INR) in HL, HT. rewrite mult_INR in HL, HT.
    change (INR 2) with 2 in HL, HT. fold len in HL, HT |- *.
    rewrite HL, HT. field. exact Hlen.
Qed.

Lemma leg_loads_add_up_to_total_weight_witness :
  let leg_data := [ {| lcg := 0; tcg := -10 |}; {| lcg := 0; tcg := 10 |};
                    {| lcg := 30; tcg := -10 |}; {| lcg := 30; tcg := 10 |} ] in
  exists legs levers,
    get_leg_load_distribution leg_data 1000 16 1 = Ok (legs, levers)
    /\ map fst legs = leg_data
    /\ sum (map snd legs) = 1000.
Proof.
  intros leg_data.
  assert (H : exists legs levers,
             get_leg_load_distribution leg_data 1000 16 1 = Ok (legs, levers)).
  { unfold get_leg_load_distribution, leg_part, py_div, leg_data. py_eval.
    do 2 eexists. reflexivity. }
  destruct H as (legs & levers & H). exists legs, levers.
  split; [exact H|].
  apply (leg_loads_add_up_to_total_weight leg_data 1000 16 1 legs levers H);
    unfold leg_data; py_eval; reflexivity.
Defined.

(** X2: legs that all stand at one longitudinal position have no distance
    between them, and the share of the longitudinal moment divides by zero. *)
Theorem get_leg_load_distribution_legs_in_line (leg_data : list Leg)
  (total_weight total_lcg total_tcg position : R) :
  leg_data <> [] ->
  Forall (fun leg => lcg leg = position) leg_data ->
  get_leg_load_distribution leg_data total_weight total_lcg total_tcg
  = Raise ZeroDivisionError.
Proof.
  intros Hne Hall. unfold get_leg_load_distribution.
  pose proof (INR_length_nonzero leg_data Hne) as Hlen.
  rewrite !(py_div_nonzero _ _ Hlen). cbn [bind].
  destruct leg_data as [|l0 ls]; [congruence|].
  cbn [py_max py_min map bind].
  inversion Hall as [|? ? H0 Hrest]; subst.
  assert (Hm : Forall (fun a => a = lcg l0) (map lcg ls)).
  { apply Forall_map. exact Hrest. }
  rewrite (fold_left_Rmax_all _ _ Hm), (fold_left_Rmin_all _ _ Hm).
  rewrite (mapM_raise_head _ l0 ls ZeroDivisionError); [reflexivity|].
  unfold leg_part.
  match goal with
  | |- context [if ?c then _ else _] => destruct c
  end; rewrite py_div_zero by lra; reflexivity.
Qed.

Lemma get_leg_load_distribution_legs_in_line_witness :
  get_leg_load_distribution [ {| lcg := 5; tcg := 2 |} ] 1000 5 2
  = Raise ZeroDivisionError.
Proof.
  apply (get_leg_load_distribution_legs_in_line _ 1000 5 2 5).
  - discriminate.
  - repeat constructor.
Defined.

(** X3: four legs at the corners of a rectangle carry loads that are in
    equilibrium with the total weight at its centre of gravity: they add up to
    the weight, and their moments about both axes are those of the weight. *)
Theorem leg_loads_of_a_rectangle_are_in_equilibrium
  (aft fwd port stbd total_weight total_lcg total_tcg : R) :
  aft < fwd -> port < stbd ->
  let l1 := {| lcg := aft; tcg := port |} in
  let l2 := {| lcg := aft; tcg := stbd |} in
  let l3 := {| lcg := fwd; tcg := port |} in
  let l4 := {| lcg := fwd; tcg := stbd |} in
  exists w1 w2 w3 w4,
    get_leg_load_distribution [l1; l2; l3; l4] total_weight total_lcg total_tcg
    = Ok ([(l1, w1); (l2, w2); (l3, w3); (l4, w4)],
          (total_lcg - (aft + fwd) / 2, total_tcg - (port + stbd) / 2))
    /\ w1 + w2 + w3 + w4 = total_weight
    /\ w1 * aft + w2 * aft + w3 * fwd + w4 * fwd = total_weight * total_lcg
    /\ w1 * port + w2 * stbd + w3 * port + w4 * stbd
       = total_weight * total_tcg.
Proof.
  intros Hx Hy l1 l2 l3 l4.
  unfold get_leg_load_distribution, leg_part, py_div, l1, l2, l3, l4.
  py_eval.
  do 4 eexists. split; [|split; [|split]].
  - apply f_equal. apply f_equal2; [reflexivity|].
    apply f_equal2; lra.
  - field. lra.
  - field. lra.
  - field. lra.
Qed.

Lemma leg_loads_of_a_rectangle_are_in_equilibrium_witness :
  exists w1 w2 w3 w4,
    get_leg_load_distribution
      [ {| lcg := 0; tcg := -10 |}; {| lcg := 0; tcg := 10 |};
        {| lcg := 30; tcg := -10 |}; {| lcg := 30; tcg := 10 |} ] 1000 16 1
    = Ok ([({| lcg := 0; tcg := -10 |}, w1); ({| lcg := 0; tcg := 10 |}, w2);
           ({| lcg := 30; tcg := -10 |}, w3); ({| lcg := 30; tcg := 10 |}, w4)],
          (16 - (0 + 30) / 2, 1 - (-10 + 10) / 2))
    /\ w1 + w2 + w3 + w4 = 1000
    /\ w1 * 0 + w2 * 0 + w3 * 30 + w4 * 30 = 1000 * 16
    /\ w1 * -10 + w2 * 10 + w3 * -10 + w4 * 10 = 1000 * 1.
Proof.
  apply (leg_loads_of_a_rectangle_are_in_equilibrium 0 30 (-10) 10 1000 16 1);
    lra.
Defined.

End LegLoadFacts.

(** ** Weather criteria *)

(** The factors of a product that is not zero are not zero. *)
Ltac factors_nonzero H :=
  repeat split;
  let E := fresh "E" in intros E; apply H; rewrite E; ring.

Section WeatherFacts.

Import Criteria Weather.

(** The windage centroid above the keel is half the depth, whatever the draft
    and the length. *)
Lemma windage_ok (length depth draft area centroid : R) :
  windage length depth draft = Ok (area, centroid) ->
  area = length * (depth - draft) /\ area <> 0 /\ centroid = depth / 2.
Proof.
  unfold windage. intros H.
  destruct (py_div ((depth - draft) ^ 2 / 2 * length)
                   (length * (depth - draft))) as [q|] eqn:E; [|discriminate].
  apply py_div_ok in E. destruct E as [Hnz ->].
  cbn [bind] in H. injection H as <- <-.
  split; [reflexivity|]. split; [exact Hnz|].
  field. factors_nonzero Hnz.
Qed.

Lemma windage_nonzero (length depth draft : R) :
  length * (depth - draft) <> 0 ->
  windage length depth draft = Ok (length * (depth - draft), depth / 2).
Proof.
  intros Hnz. unfold windage. rewrite (py_div_nonzero _ _ Hnz). cbn [bind].
  do 2 f_equal. field. factors_nonzero Hnz.
Qed.

Lemma windage_zero (length depth draft : R) :
  length * (depth - draft) = 0 ->
  windage length depth draft = Raise ZeroDivisionError.
Proof.
  intros Hz. unfold windage. rewrite (py_div_zero _ _ Hz). reflexivity.
Qed.

(** X4: the heel angles that [get_max_wind_load] returns: the wind pressure
    acts on the area length x (depth - draft) with a lever of half the depth,
    whatever the draft. *)
Theorem get_max_wind_load_lever_is_half_the_depth
  (length depth draft breadth wind_load total_weight gmt_corr angle_of_loll
   max_draft maximum static : R) :
  get_max_wind_load length depth draft breadth wind_load total_weight gmt_corr
                    angle_of_loll max_draft = Ok (maximum, static) ->
  static
  = py_round
      (degrees (asin (wind_load * (length * (depth - draft)) * (depth / 2)
                      / 9812 / (total_weight * gmt_corr)))
       + angle_of_loll) 2
  /\ maximum = py_round (degrees (atan ((depth - max_draft) / breadth))) 2.
Proof.
  unfold get_max_wind_load. intros H.
  destruct (windage length depth draft) as [[area centroid]|] eqn:Ew;
    [|discriminate].
  apply windage_ok in Ew. destruct Ew as (-> & Hnz & ->).
  cbn [bind] in H.
  match type of H with
  | context [py_div ?a (total_weight * gmt_corr)] =>
      destruct (py_div a (total_weight * gmt_corr)) as [ratio|] eqn:Er;
      [|discriminate]
  end.
  apply py_div_ok in Er. destruct Er as [Hwg ->]. cbn [bind] in H.
  unfold py_asin in H.
  match type of H with
  | context [if ?c then _ else _] => destruct c; [|discriminate]
  end.
  cbn [bind] in H.
  destruct (py_div (depth - max_draft) breadth) as [q|] eqn:Eq;
    [|discriminate].
  apply py_div_ok in Eq. destruct Eq as [Hb ->]. cbn [bind] in H.
  injection H as <- <-. split; [|reflexivity].
  do 4 f_equal. field. factors_nonzero Hwg.
Qed.

Lemma get_max_wind_load_lever_is_half_the_depth_witness :
  exists maximum static,
    get_max_wind_load 100 10 5 20 540 1000 1 0 6 = Ok (maximum, static)
    /\ static
       = py_round
           (degrees (asin (540 * (100 * (10 - 5)) * (10 / 2)
                           / 9812 / (1000 * 1))) + 0) 2
    /\ maximum = py_round (degrees (atan ((10 - 6) / 20))) 2.
Proof.
  assert (H : exists maximum static,
             get_max_wind_load 100 10 5 20 540 1000 1 0 6
             = Ok (maximum, static)).
  { unfold get_max_wind_load, windage, py_div, py_asin. py_eval.
    do 2 eexists. reflexivity. }
  destruct H as (maximum & static & H). exists maximum, static.
  split; [exact H|].
  exact (get_max_wind_load_lever_is_half_the_depth
           100 10 5 20 540 1000 1 0 6 maximum static H).
Defined.

(** X5: a wind moment larger than weight times GM is outside the domain of
    the arcsine: the call raises [ValueError] instead of returning an angle. *)
Theorem get_max_wind_load_beyond_capsizing
  (length depth draft breadth wind_load total_weight gmt_corr angle_of_loll
   max_draft : R) :
  length * (depth - draft) <> 0 ->
  total_weight * gmt_corr <> 0 ->
  1 < Rabs (wind_load * (length * (depth - draft)) * (depth / 2)
            / 9812 / (total_weight * gmt_corr)) ->
  get_max_wind_load length depth draft breadth wind_load total_weight gmt_corr
                    angle_of_loll max_draft = Raise ValueError.
Proof.
  intros Hnz Hwg Habs. unfold get_max_wind_load.
  rewrite (windage_nonzero _ _ _ Hnz). cbn [bind].
  rewrite (py_div_nonzero _ _ Hwg). cbn [bind]. unfold py_asin.
  match goal with
  | |- context [(-1 <=? ?r) && (?r <=? 1)] =>
      replace r
        with (wind_load * (length * (depth - draft)) * (depth / 2)
              / 9812 / (total_weight * gmt_corr))
        by (field; factors_nonzero Hwg)
  end.
  set (ratio := wind_load * (length * (depth - draft)) * (depth / 2)
                / 9812 / (total_weight * gmt_corr)) in *.
  unfold Rabs in Habs. destruct (Rcase_abs ratio).
  - rewrite (Rleb_false (-1) ratio) by lra. reflexivity.
  - rewrite (Rleb_false ratio 1) by lra. rewrite andb_false_r. reflexivity.
Qed.

Lemma get_max_wind_load_beyond_capsizing_witness :
  get_max_wind_load 100 10 5 20 540 1 (1 / 10) 0 6 = Raise ValueError.
Proof.
  apply get_max_wind_load_beyond_capsizing; try lra.
  rewrite Rabs_right; lra.
Defined.

(** X6: at a draft equal to the depth, or with no length, there is no windage
    area, and both weather criteria divide by zero. *)
Theorem weather_criteria_without_windage_area
  (x y : list R)
  (length depth draft breadth total_weight gmt_corr angle_of_loll max_draft
   range_of_stability : R) (criteria_limits : list (string * R)) :
  length * (depth - draft) = 0 ->
  cr_8 length depth draft breadth total_weight gmt_corr angle_of_loll max_draft
       criteria_limits = Raise ZeroDivisionError
  /\ cr_9 x y length depth draft total_weight range_of_stability
          criteria_limits = Raise ZeroDivisionError.
Proof.
  intros Hz. unfold cr_8, cr_9, get_max_wind_load.
  rewrite (windage_zero _ _ _ Hz). split; reflexivity.
Qed.

Lemma weather_criteria_without_windage_area_witness :
  cr_8 100 10 10 20 1000 1 0 10 [] = Raise ZeroDivisionError
  /\ cr_9 [0; 10] [0; 1] 100 10 10 1000 10 [] = Raise ZeroDivisionError.
Proof.
  apply (weather_criteria_without_windage_area
           [0; 10] [0; 1] 100 10 10 20 1000 1 0 10 10 []).
  lra.
Defined.

(** *** Areas under the curve *)

Lemma forallb_Forall_true {A : Type} (p : A -> bool) (l : list A) :
  Forall (fun a => p a = true) l -> forallb p l = true.
Proof.
  induction 1 as [|a l Ha _ IH]; [reflexivity|].
  cbn [forallb]. rewrite Ha, IH. reflexivity.
Qed.

(** From an angle to the same angle there is no area: the result is 0. *)
Lemma get_plot_area_of_empty_range (x y : list R) (start_x : R) :
  x <> [] -> get_plot_area x y start_x (Some start_x) = Ok 0.
Proof.
  intros Hx. unfold get_plot_area. cbn [bind].
  destruct (py_last_total x Hx) as [xl Hl]. rewrite Hl.
  assert (Hm : map (fun x0 => start_x <=? x0) x <> []).
  { intros E. apply map_eq_nil in E. contradiction. }
  destruct (argmax_bool_total _ Hm) as [i Hi]. rewrite Hi. cbn [bind].
  destruct (start_x <=? xl); cbn [bind].
  - rewrite (proj2 (Z.leb_le (Z.of_nat i) (Z.of_nat i))) by lia.
    rewrite orb_true_r. reflexivity.
  - rewrite (proj2 (Z.leb_le (-1) (Z.of_nat i))) by lia.
    rewrite orb_true_r. reflexivity.
Qed.

(** X7: beyond the last angle of the curve no area is integrated at all: the
    result is 0, not the area up to the last angle. *)
Theorem get_plot_area_beyond_the_curve (x y : list R) (start_x end_x : R) :
  x <> [] ->
  last x 0 < end_x ->
  get_plot_area x y start_x (Some end_x) = Ok 0.
Proof.
  intros Hx Hend. unfold get_plot_area. cbn [bind].
  assert (Hm : map (fun x0 => start_x <=? x0) x <> []).
  { intros E. apply map_eq_nil in E. contradiction. }
  destruct (argmax_bool_total _ Hm) as [i Hi]. rewrite Hi. cbn [bind].
  destruct x as [|x0 x']; [contradiction|].
  cbn [py_last bind].
  rewrite <- (last_cons_default x' x0 0). rewrite Rleb_false by lra. cbn [bind].
  rewrite (proj2 (Z.leb_le (-1) (Z.of_nat i))) by lia.
  rewrite orb_true_r. reflexivity.
Qed.

Lemma get_plot_area_beyond_the_curve_witness :
  get_plot_area [0; 10; 20; 30] [0; 1 / 10; 18 / 100; 2 / 10] 0 (Some 40)
  = Ok 0.
Proof.
  apply get_plot_area_beyond_the_curve; [discriminate|cbn; lra].
Defined.

(** *** The sign of an area *)

Lemma round_half_even_nonneg (x : R) : 0 <= x -> (0 <= round_half_even x)%Z.
Proof.
  intros Hx. unfold round_half_even.
  destruct (archimed x) as [Hup _].
  assert (H1 : (0 < up x)%Z) by (apply lt_IZR; lra).
  repeat match goal with
         | |- context [if ?c then _ else _] => destruct c
         end; lia.
Qed.

Lemma py_round_nonneg (x : R) (n : nat) : 0 <= x -> 0 <= py_round x n.
Proof.
  intros Hx. unfold py_round.
  assert (Hp : 0 < 10 ^ n) by (apply pow_lt; lra).
  apply Rmult_le_pos.
  - apply IZR_le. apply round_half_even_nonneg.
    apply Rmult_le_pos; lra.
  - apply Rlt_le. apply Rinv_0_lt_compat. exact Hp.
Qed.

Lemma Sorted_skipn {A : Type} (le : A -> A -> Prop) (n : nat) (l : list A) :
  Sorted le l -> Sorted le (skipn n l).
Proof.
  revert l. induction n as [|n IH]; intros l H; [exact H|].
  destruct l as [|a l]; [exact H|].
  cbn [skipn]. apply IH. apply Sorted_inv in H. apply H.
Qed.

Lemma Sorted_firstn {A : Type} (le : A -> A -> Prop) (n : nat) (l : list A) :
  Sorted le l -> Sorted le (firstn n l).
Proof.
  revert l. induction n as [|n IH]; intros l H; [constructor|].
  destruct l as [|a l]; [constructor|].
  cbn [firstn]. apply Sorted_inv in H. destruct H as [Hs Hh].
  constructor; [apply IH; exact Hs|].
  destruct n; [constructor|].
  destruct l as [|b l]; [constructor|].
  cbn [firstn]. constructor. inversion Hh; assumption.
Qed.

Lemma Forall_slice {A : Type} (P : A -> Prop) (l : list A) (i n : nat) :
  Forall P l -> Forall P (firstn n (skipn i l)).
Proof.
  intros H.
  assert (Hs : Forall P (skipn i l)).
  { rewrite <- (firstn_skipn i l) in H. apply Forall_app in H. apply H. }
  rewrite <- (firstn_skipn n (skipn i l)) in Hs.
  apply Forall_app in Hs. apply Hs.
Qed.

Lemma trapezoid_nonneg (ys xs : list R) :
  Sorted Rle xs -> Forall (fun v => 0 <= v) ys -> 0 <= trapezoid ys xs.
Proof.
  revert ys. induction xs as [|x0 xs IH]; intros ys Hs Hy;
    [destruct ys; cbn; lra|].
  destruct xs as [|x1 xs]; [destruct ys as [|? [|? ?]]; cbn; lra|].
  destruct ys as [|y0 [|y1 ys]]; [cbn; lra|cbn; lra|].
  change (trapezoid (y0 :: y1 :: ys) (x0 :: x1 :: xs))
    with ((x1 - x0) * (y1 + y0) / 2 + trapezoid (y1 :: ys) (x1 :: xs)).
  apply Sorted_inv in Hs. destruct Hs as [Hs Hh].
  inversion Hh as [|? ? H01]; subst.
  inversion Hy as [|? ? Hy0 Hy']; subst.
  inversion Hy' as [|? ? Hy1 _]; subst.
  specialize (IH (y1 :: ys) Hs Hy'). nra.
Qed.

(** X8: on angles in ascending order and righting arms that are nowhere
    negative, the area that [get_plot_area] returns is not negative. *)
Theorem get_plot_area_is_not_negative (x y : list R) (start_x : R)
  (end_x : option R) (area : R) :
  Sorted Rle x ->
  Forall (fun v => 0 <= v) y ->
  get_plot_area x y start_x end_x = Ok area ->
  0 <= area.
Proof.
  intros Hs Hy. unfold get_plot_area, slice.
  repeat match goal with
         | |- bind ?m _ = _ -> _ =>
             destruct m; cbn [bind]; [|discriminate]
         end.
  match goal with
  | |- (if ?c then _ else _) = _ -> _ => destruct c
  end; intros H; injection H as <-; [lra|].
  apply py_round_nonneg.
  pose proof PI_RGT_0.
  match goal with
  | |- 0 <= trapezoid ?ys ?xs * _ * _ / _ =>
      assert (Ht : 0 <= trapezoid ys xs)
  end.
  { apply trapezoid_nonneg.
    - apply Sorted_firstn, Sorted_skipn. exact Hs.
    - apply Forall_slice. exact Hy. }
  assert (0 <= PI / 180) by lra.
  apply Rmult_le_pos; [|lra].
  apply Rmult_le_pos; [|lra].
  apply Rmult_le_pos; assumption.
Qed.

Lemma get_plot_area_is_not_negative_witness :
  exists area,
    get_plot_area [0; 10; 20; 30] [0; 1 / 10; 18 / 100; 2 / 10] 0 (Some 30)
    = Ok area
    /\ 0 <= area.
Proof.
  destruct (get_plot_area_total [0; 10; 20; 30]
              [0; 1 / 10; 18 / 100; 2 / 10] 0 (Some 30)) as [area H];
    [discriminate|].
  exists area. split; [exact H|].
  apply (get_plot_area_is_not_negative
           [0; 10; 20; 30] [0; 1 / 10; 18 / 100; 2 / 10] 0 (Some 30) area);
    [repeat constructor; lra|repeat constructor; lra|exact H].
Defined.

(** *** A curve without any positive righting arm *)

Lemma range_of_stability_of_unstable_curve (x y : list R) :
  x <> [] ->
  Forall (fun val => val <= 0) y ->
  calculate_range_of_stability x y = Ok (0 - 0, 0).
Proof.
  intros Hx Hy. unfold calculate_range_of_stability.
  destruct x as [|x0 x']; [contradiction|]. cbn [interp1d_linear bind].
  rewrite forallb_Forall_true; [reflexivity|].
  eapply Forall_impl; [|exact Hy]. intros a Ha. apply Rleb_true. exact Ha.
Qed.

(** X9: a curve that is nowhere positive has a range of stability of 0, and
    with the default limits it fails cr_7 but passes cr_9: the required and
    the attained area are both 0. *)
Theorem unstable_curve_passes_cr_9 (x y : list R)
  (length depth draft total_weight : R)
  (criteria_limits : list (string * R)) :
  x <> [] ->
  Forall (fun val => val <= 0) y ->
  length * (depth - draft) <> 0 ->
  total_weight <> 0 ->
  dict_get criteria_limits "cr_7" = None ->
  dict_get criteria_limits "cr_9" = None ->
  exists range_of_stability angle_of_loll c9,
    calculate_range_of_stability x y = Ok (range_of_stability, angle_of_loll)
    /\ range_of_stability = 0
    /\ status (cr_7 range_of_stability criteria_limits) = FAIL
    /\ cr_9 x y length depth draft total_weight range_of_stability
            criteria_limits = Ok c9
    /\ required c9 = 0
    /\ attained c9 = 0
    /\ status c9 = PASS.
Proof.
  intros Hx Hy Hnz Hw H7 H9.
  exists (0 - 0), 0.
  assert (Hz : 0 - 0 = 0) by lra.
  assert (Hr0 : forall n, py_round 0 n = 0).
  { intros n. apply py_round_small. rewrite Rmult_0_l. lra. }
  eexists. split; [apply range_of_stability_of_unstable_curve; assumption|].
  split; [exact Hz|]. rewrite Hz.
  split.
  { unfold cr_7, required_for. rewrite H7. cbn [status].
    rewrite Hr0. unfold status_at_least. rewrite Rleb_false by lra.
    reflexivity. }
  unfold cr_9. rewrite (windage_nonzero _ _ _ Hnz). cbn [bind].
  rewrite py_div_nonzero by (intros E; apply Hw; lra). cbn [bind].
  rewrite (get_plot_area_of_empty_range x y 0 Hx). cbn [bind].
  unfold required_for. rewrite H9.
  match goal with
  | |- context [py_round ?e 2] =>
      replace e with 0 by (unfold Rdiv; ring)
  end.
  rewrite Hr0. split; [reflexivity|]. cbn [required attained status].
  split; [reflexivity|]. split; [reflexivity|].
  unfold status_at_least. rewrite Rleb_true by lra. reflexivity.
Qed.

Lemma unstable_curve_passes_cr_9_witness :
  exists range_of_stability angle_of_loll c9,
    calculate_range_of_stability [0; 10; 20; 30] [0; -1; -2; -3]
    = Ok (range_of_stability, angle_of_loll)
    /\ range_of_stability = 0
    /\ status (cr_7 range_of_stability []) = FAIL
    /\ cr_9 [0; 10; 20; 30] [0; -1; -2; -3] 100 10 5 1000 range_of_stability []
       = Ok c9
    /\ required c9 = 0
    /\ attained c9 = 0
    /\ status c9 = PASS.
Proof.
  apply unstable_curve_passes_cr_9;
    try discriminate; try reflexivity; try lra.
  repeat constructor; lra.
Defined.

(** *** Initial GM *)

(** X10: on a curve from which the cubic interpolant is built (four angles at
    least, none twice) the initial GM is computed: its slope never divides by
    zero. *)
Theorem get_initial_gmt_after_cubic (x y : list R) :
  interp1d_cubic x y = Ok tt ->
  List.length x = List.length y ->
  exists x1 x2 y1 y2 x' y',
    x = x1 :: x2 :: x' /\ y = y1 :: y2 :: y' /\ x1 <> x2
    /\ get_initial_gmt x y
       = Ok (py_round ((y2 - y1) / (x2 - x1) * (1 * 180 / PI) + y1
                       - (y2 - y1) / (x2 - x1) * x1) 2).
Proof.
  unfold interp1d_cubic. intros Hc Hlen.
  destruct ((4 <=? List.length x)%nat) eqn:E4; [|discriminate].
  destruct (no_duplicates x) eqn:Ed; [|discriminate].
  apply Nat.leb_le in E4.
  destruct x as [|x1 [|x2 x']]; try (cbn in E4; lia).
  destruct y as [|y1 [|y2 y']]; try (cbn in Hlen; lia).
  exists x1, x2, y1, y2, x', y'.
  cbn [no_duplicates existsb] in Ed.
  destruct (Reqb_spec x2 x1) as [E|E]; [discriminate|].
  split; [reflexivity|]. split; [reflexivity|].
  split; [congruence|].
  unfold get_initial_gmt. rewrite py_div_nonzero by lra. reflexivity.
Qed.

Lemma get_initial_gmt_after_cubic_witness :
  exists x1 x2 y1 y2 x' y',
    [0; 10; 20; 30] = x1 :: x2 :: x'
    /\ [0; 1 / 10; 18 / 100; 2 / 10] = y1 :: y2 :: y' /\ x1 <> x2
    /\ get_initial_gmt [0; 10; 20; 30] [0; 1 / 10; 18 / 100; 2 / 10]
       = Ok (py_round ((y2 - y1) / (x2 - x1) * (1 * 180 / PI) + y1
                       - (y2 - y1) / (x2 - x1) * x1) 2).
Proof.
  apply get_initial_gmt_after_cubic; [|reflexivity].
  unfold interp1d_cubic. py_eval. reflexivity.
Defined.

End WeatherFacts.

(** ** Weight distribution along the hull *)

Section WeightDistributionFacts.

Import LsPlot.

Lemma list_set_length (l : list R) (i : nat) (v : R) :
  List.length (list_set l i v) = List.length l.
Proof.
  revert i. induction l as [|a l IH]; intros i; [reflexivity|].
  destruct i; cbn; [reflexivity|]. rewrite IH. reflexivity.
Qed.

Lemma nth_list_set_other (l : list R) (i j : nat) (v d : R) :
  i <> j -> nth j (list_set l i v) d = nth j l d.
Proof.
  revert i j. induction l as [|a l IH]; intros i j Hij; [reflexivity|].
  destruct i, j; cbn; try reflexivity; try congruence.
  apply IH. congruence.
Qed.

Lemma add_share_ok (x_vals : list R) (dn : Extent) (first : nat)
  (ld ld' : list R) (index : nat) :
  add_share x_vals dn first ld index = Ok ld' ->
  List.length ld' = List.length ld
  /\ forall j, j <> index -> nth j ld' 0 = nth j ld 0.
Proof.
  destruct dn as [[w x_min] x_max]. unfold add_share.
  destruct (list_item ld index); cbn [bind]; [|discriminate].
  match goal with
  | |- bind ?m _ = _ -> _ => destruct m; cbn [bind]; [|discriminate]
  end.
  intros H. injection H as <-. split.
  - apply list_set_length.
  - intros j Hj. apply nth_list_set_other. congruence.
Qed.

Lemma foldM_add_share_ok (x_vals : list R) (dn : Extent) (first : nat)
  (indices : list nat) (ld ld' : list R) :
  foldM (add_share x_vals dn first) indices ld = Ok ld' ->
  List.length ld' = List.length ld
  /\ forall j, ~ In j indices -> nth j ld' 0 = nth j ld 0.
Proof.
  revert ld. induction indices as [|i indices IH]; intros ld H.
  - cbn in H. injection H as <-. split; [reflexivity|]. reflexivity.
  - cbn [foldM] in H.
    destruct (add_share x_vals dn first ld i) as [ld1|] eqn:E;
      [|discriminate].
    cbn [bind] in H.
    apply add_share_ok in E. destruct E as [L1 N1].
    apply IH in H. destruct H as [L2 N2].
    split; [congruence|].
    intros j Hj. rewrite N2, N1; [reflexivity| |].
    + intros ->. apply Hj. left. reflexivity.
    + intros Hin. apply Hj. right. exact Hin.
Qed.

Lemma add_extent_ok (x_vals ld ld' : list R) (w x_min x_max : R) :
  add_extent x_vals ld (w, x_min, x_max) = Ok ld' ->
  List.length ld' = List.length ld
  /\ forall j, ~ (x_min < nth j x_vals 0 < x_max) -> nth j ld' 0 = nth j ld 0.
Proof.
  unfold add_extent.
  destruct (indices_in_range x_vals x_min x_max) as [|first rest] eqn:E.
  - intros H. injection H as <-. split; reflexivity.
  - intros H. apply foldM_add_share_ok in H. destruct H as [L N].
    split; [exact L|]. intros j Hj. apply N. intros Hin.
    rewrite <- E in Hin. unfold indices_in_range in Hin.
    apply filter_In in Hin. destruct Hin as [_ Hin].
    apply andb_prop in Hin. destruct Hin as [H1 H2]. apply Hj.
    destruct (Rltb_spec x_min (nth j x_vals 0)); [|discriminate].
    destruct (Rltb_spec (nth j x_vals 0) x_max); [|discriminate].
    split; assumption.
Qed.

(** X11: [get_weight_dn] keeps the number of stations, and a station that
    lies strictly inside no extent keeps its weight. *)
Theorem get_weight_dn_outside_the_extents (x_vals ld ld' : list R)
  (distribution_list : list Extent) :
  get_weight_dn x_vals ld distribution_list = Ok ld' ->
  List.length ld' = List.length ld
  /\ forall j,
      (forall w x_min x_max,
          In (w, x_min, x_max) distribution_list ->
          ~ (x_min < nth j x_vals 0 < x_max)) ->
      nth j ld' 0 = nth j ld 0.
Proof.
  unfold get_weight_dn. revert ld.
  induction distribution_list as [|[[w x_min] x_max] dns IH]; intros ld H.
  - cbn in H. injection H as <-. split; reflexivity.
  - cbn [foldM] in H.
    destruct (add_extent x_vals ld (w, x_min, x_max)) as [ld1|] eqn:E;
      [|discriminate].
    cbn [bind] in H. apply add_extent_ok in E. destruct E as [L1 N1].
    apply IH in H. destruct H as [L2 N2].
    split; [congruence|]. intros j Hj.
    rewrite N2.
    + apply N1. apply (Hj w x_min x_max). left. reflexivity.
    + intros w' a b Hin. apply (Hj w'). right. exact Hin.
Qed.

Lemma indices_in_range_none (x_vals : list R) (x_min x_max : R) :
  (forall j, (j < List.length x_vals)%nat ->
             ~ (x_min < nth j x_vals 0 < x_max)) ->
  indices_in_range x_vals x_min x_max = [].
Proof.
  intros H. unfold indices_in_range.
  destruct (filter _ _) as [|i rest] eqn:E; [reflexivity|].
  assert (Hin : In i (i :: rest)) by (left; reflexivity).
  rewrite <- E in Hin. apply filter_In in Hin. destruct Hin as [Hs Hc].
  apply in_seq in Hs. apply andb_prop in Hc. destruct Hc as [H1 H2].
  destruct (Rltb_spec x_min (nth i x_vals 0)); [|discriminate].
  destruct (Rltb_spec (nth i x_vals 0) x_max); [|discriminate].
  exfalso. apply (H i); [lia|split; assumption].
Qed.

(** X12: cargo whose extent, from LCG - length/2 to LCG + length/2, holds no
    station strictly inside adds nothing to the weight distribution, whatever
    it weighs. *)
Theorem cargo_between_stations_adds_no_weight (x_vals ld : list R)
  (cargo_data : list Cargo) :
  (forall cargo j,
      In cargo cargo_data -> (j < List.length x_vals)%nat ->
      ~ (lcg cargo - length cargo / 2 < nth j x_vals 0
         < lcg cargo + length cargo / 2)) ->
  get_weight_dn x_vals ld (get_cargo_weight_distribution cargo_data) = Ok ld.
Proof.
  unfold get_weight_dn, get_cargo_weight_distribution.
  induction cargo_data as [|cargo cargo_data IH]; intros H; [reflexivity|].
  cbn [map foldM]. unfold add_extent at 1.
  rewrite indices_in_range_none
    by (intros j Hj; apply (H cargo j); [left; reflexivity|exact Hj]).
  cbn [bind]. apply IH. intros c j Hc Hj. apply H; [right; exact Hc|exact Hj].
Qed.

End WeightDistributionFacts.

Lemma get_weight_dn_outside_the_extents_witness :
  let ld' := [1; py_round (6 * ((10 - 5) / (25 - 5)) + 1) 2;
              py_round (6 * ((20 - 10) / (25 - 5)) + 1) 2; 1] in
  LsPlot.get_weight_dn [0; 10; 20; 30] [1; 1; 1; 1] [(6, 5, 25)] = Ok ld'
  /\ List.length ld' = 4%nat
  /\ forall j,
      (forall w x_min x_max,
          In (w, x_min, x_max) [(6, 5, 25)] ->
          ~ (x_min < nth j [0; 10; 20; 30] 0 < x_max)) ->
      nth j ld' 0 = nth j [1; 1; 1; 1] 0.
Proof.
  intros ld'.
  assert (H : LsPlot.get_weight_dn [0; 10; 20; 30] [1; 1; 1; 1] [(6, 5, 25)]
              = Ok ld').
  { unfold LsPlot.get_weight_dn, LsPlot.add_extent, LsPlot.indices_in_range,
      LsPlot.add_share, LsPlot.list_item.
    cbn [List.length seq filter nth LsPlot.foldM]. rdecide.
    cbn [andb filter LsPlot.foldM bind nth_error Nat.eqb Nat.sub nth]. 
    unfold py_div. rdecide. cbn [bind LsPlot.list_set nth_error].
    reflexivity. }
  split; [exact H|].
  exact (get_weight_dn_outside_the_extents _ _ _ _ H).
Defined.

Lemma cargo_between_stations_adds_no_weight_witness :
  LsPlot.get_weight_dn [0; 10; 20] [1; 1; 1]
    (LsPlot.get_cargo_weight_distribution
       [{| LsPlot.weight := 5; LsPlot.length := 4; LsPlot.lcg := 15 |}])
  = Ok [1; 1; 1].
Proof.
  apply cargo_between_stations_adds_no_weight.
  intros cargo j [<-|[]] Hj. cbn [LsPlot.lcg LsPlot.length].
  cbn [List.length] in Hj.
  destruct j as [|[|[|j]]]; cbn [nth]; [lra|lra|lra|lia].
Defined.

(** ** Shear force and bending moment *)

Section LongitudinalStrengthFacts.

Import Strength LsPlot.

Lemma mapM_length {A B : Type} (f : A -> result B) (l : list A) (r : list B) :
  mapM f l = Ok r -> List.length r = List.length l.
Proof.
  revert r. induction l as [|a l IH]; intros r H.
  - cbn in H. injection H as <-. reflexivity.
  - cbn [mapM] in H. destruct (f a); cbn [bind] in H; [|discriminate].
    destruct (mapM f l) as [bs|]; cbn [bind] in H; [|discriminate].
    injection H as <-. cbn [List.length]. rewrite (IH bs); reflexivity.
Qed.

Lemma mapM_app {A B : Type} (f : A -> result B) (l1 l2 : list A)
  (r : list B) :
  mapM f (l1 ++ l2) = Ok r ->
  exists r1 r2, mapM f l1 = Ok r1 /\ mapM f l2 = Ok r2 /\ r = r1 ++ r2.
Proof.
  revert r. induction l1 as [|a l1 IH]; intros r H.
  - exists [], r. repeat split. exact H.
  - cbn [app mapM] in H |- *.
    destruct (f a) as [b|]; cbn [bind] in H |- *; [|discriminate].
    destruct (mapM f (l1 ++ l2)) as [bs|] eqn:E; cbn [bind] in H;
      [|discriminate].
    injection H as <-. destruct (IH bs eq_refl) as (r1 & r2 & H1 & H2 & ->).
    exists (b :: r1), r2. rewrite H1. cbn [bind]. repeat split. exact H2.
Qed.

Lemma combine_snoc {A B : Type} (l1 : list A) (l2 : list B) (a : A) (b : B) :
  List.length l1 = List.length l2 ->
  combine (l1 ++ [a]) (l2 ++ [b]) = combine l1 l2 ++ [(a, b)].
Proof.
  revert l2. induction l1 as [|x l1 IH]; intros [|y l2] H;
    try discriminate; [reflexivity|].
  cbn [app combine]. rewrite IH by (cbn in H; congruence). reflexivity.
Qed.

Lemma nth_length_snoc {A : Type} (l : list A) (a d : A) :
  nth (List.length l) (l ++ [a]) d = a.
Proof. induction l as [|x l IH]; [reflexivity|exact IH]. Qed.

Lemma py_round_zero (x : R) (n : nat) : x = 0 -> py_round x n = 0.
Proof. intros ->. apply py_round_small. lra. Qed.

Lemma round_half_even_zero (x : R) : x = 0 -> IZR (round_half_even x) = 0.
Proof. intros ->. rewrite round_half_even_small by lra. reflexivity. Qed.

(** Rounding moves a number by half a unit at most. *)
Lemma round_half_even_error (x : R) :
  Rabs (IZR (round_half_even x) - x) <= 1 / 2.
Proof.
  unfold round_half_even. destruct (archimed x) as [H1 H2].
  assert (E : IZR (up x - 1) = IZR (up x) - 1) by (rewrite minus_IZR; lra).
  cbv zeta.
  destruct (Rltb_spec (x - IZR (up x - 1)) (1 / 2)).
  { apply Rabs_le. lra. }
  destruct (Rltb_spec (1 / 2) (x - IZR (up x - 1))).
  { rewrite plus_IZR. apply Rabs_le. lra. }
  destruct (Z.even (up x - 1)).
  - apply Rabs_le. lra.
  - rewrite plus_IZR. apply Rabs_le. lra.
Qed.

Lemma uncorrected_buoyancy_length
  (x_vals ls_x_vals ls_buoyancy_distribution : list R)
  (total_dead_weight length draft_aft trim : R) (B : list R) :
  uncorrected_buoyancy x_vals ls_x_vals ls_buoyancy_distribution
                       total_dead_weight length draft_aft trim = Ok B ->
  List.length B = List.length x_vals.
Proof.
  unfold uncorrected_buoyancy.
  destruct ls_x_vals; cbn [bind]; [discriminate|].
  destruct (mapM _ x_vals) as [draft_vals|] eqn:E; cbn [bind];
    [|discriminate].
  intros H. apply mapM_length in H. apply mapM_length in E.
  rewrite H, length_combine, length_map, E. apply Nat.min_id.
Qed.

Lemma get_buoyancy_distribution_ok
  (x_vals weight_distribution ls_x_vals ls_buoyancy_distribution : list R)
  (total_dead_weight length draft_aft trim : R) (bd : list R) :
  get_buoyancy_distribution x_vals weight_distribution ls_x_vals
                            ls_buoyancy_distribution total_dead_weight
                            length draft_aft trim = Ok bd ->
  List.length bd = List.length x_vals /\ sum bd = sum weight_distribution.
Proof.
  unfold get_buoyancy_distribution.
  destruct (uncorrected_buoyancy _ _ _ _ _ _ _) as [B|] eqn:E; cbn [bind];
    [|discriminate].
  apply uncorrected_buoyancy_length in E. unfold apply_correction.
  destruct (Reqb_spec (sum B) 0) as [Z|Z]; [discriminate|].
  intros H. injection H as <-. split.
  - rewrite length_map. exact E.
  - rewrite sum_map_scale. field. exact Z.
Qed.

Lemma get_weight_dn_length (x_vals ld ld' : list R)
  (distribution_list : list Extent) :
  get_weight_dn x_vals ld distribution_list = Ok ld' ->
  List.length ld' = List.length ld.
Proof.
  unfold get_weight_dn. revert ld.
  induction distribution_list as [|[[w x_min] x_max] dns IH]; intros ld H.
  - cbn in H. injection H as <-. reflexivity.
  - cbn [foldM] in H.
    destruct (add_extent x_vals ld (w, x_min, x_max)) as [ld1|] eqn:E;
      [|discriminate].
    cbn [bind] in H. apply add_extent_ok in E. destruct E as [L1 _].
    apply IH in H. congruence.
Qed.

Lemma Rabs_le_between (x a : R) : Rabs x <= a -> - a <= x <= a.
Proof. unfold Rabs. destruct (Rcase_abs x); lra. Qed.

(** The last shear force differs from the scaled sum of the load differences
    by the accumulated rounding only. *)
Lemma shear_force_drift (wd bd : list R) (start : option R) :
  List.length wd = List.length bd ->
  let s0 := match start with Some s => s | None => 0 end in
  Rabs (last (shear_force start wd bd) s0
        - (s0 + (sum bd - sum wd) * (981 / 100)))
  <= INR (List.length wd) / 2.
Proof.
  revert bd start. induction wd as [|w wds IH]; intros [|b bds] start L;
    try discriminate; cbv zeta.
  - cbn [shear_force last List.length INR]. rewrite sum_nil.
    apply Rabs_le. lra.
  - cbn [shear_force]. rewrite last_cons_default.
    rewrite !sum_cons. change (List.length (w :: wds)) with (S (List.length wds)).
    rewrite S_INR.
    match goal with
    | |- context [shear_force (Some ?v) wds bds] => set (value := v)
    end.
    specialize (IH bds (Some value) ltac:(cbn in L; congruence)).
    cbv zeta in IH.
    assert (E : Rabs (value - (match start with Some s => s | None => 0 end
                               + (b - w) * (981 / 100))) <= 1 / 2).
    { subst value. destruct start as [s|].
      - replace (s + (b - w) * (981 / 100)) with ((b - w) * (981 / 100) + s)
          by ring.
        apply round_half_even_error.
      - replace (0 + (b - w) * (981 / 100)) with ((b - w) * (981 / 100))
          by ring.
        apply round_half_even_error. }
    apply Rabs_le_between in IH. apply Rabs_le_between in E.
    apply Rabs_le. lra.
Qed.

Lemma foldM_sf_var_step_ok (x_val sf : list R) (indices : list nat)
  (l l' : list R) (v v' : R) :
  foldM (sf_var_step x_val sf) indices (l, v) = Ok (l', v') ->
  List.length l' = (List.length l + List.length indices)%nat
  /\ (l <> [] -> hd 0 l' = hd 0 l).
Proof.
  revert l v. induction indices as [|i indices IH]; intros l v H.
  - cbn in H. injection H as <- <-. split; [cbn; lia|reflexivity].
  - cbn [foldM] in H.
    destruct (sf_var_step x_val sf (l, v) i) as [[l1 v1]|] eqn:E;
      cbn [bind] in H; [|discriminate].
    apply IH in H. destruct H as [L K].
    assert (E1 : exists a, l1 = l ++ [a]).
    { unfold sf_var_step in E. destruct (i =? 0)%nat.
      - injection E as <- <-. eexists. reflexivity.
      - destruct (list_item sf i); cbn [bind] in E; [|discriminate].
        destruct (list_item sf (i - 1)); cbn [bind] in E; [|discriminate].
        injection E as <- <-. eexists. reflexivity. }
    destruct E1 as [a ->]. split.
    + rewrite L, length_app. cbn. lia.
    + intros Hl. rewrite K by (destruct l; discriminate).
      destruct l; [congruence|reflexivity].
Qed.

Lemma sf_var_list_ok (x_val sf v : list R) :
  sf_var_list x_val sf = Ok v ->
  List.length v = List.length x_val /\ hd 0 v = 0.
Proof.
  unfold sf_var_list.
  destruct (foldM _ _ _) as [[l lv]|] eqn:E; cbn [bind]; [|discriminate].
  intros H. injection H as <-. cbn [fst].
  destruct x_val as [|x0 x_val].
  - cbn in E. injection E as <- <-. split; reflexivity.
  - cbn [List.length seq foldM sf_var_step Nat.eqb bind app] in E.
    apply foldM_sf_var_step_ok in E. destruct E as [L K]. split.
    + rewrite L, length_seq. reflexivity.
    + rewrite K by discriminate. reflexivity.
Qed.

Lemma bending_moment_ends (x_val var_list bm : list R) :
  bending_moment x_val var_list = Ok bm ->
  List.length var_list = List.length x_val ->
  List.length bm = List.length x_val
  /\ (x_val <> [] -> last bm 0 = 0)
  /\ (hd 0 x_val = 0 -> hd 0 var_list = 0 -> hd 0 bm = 0).
Proof.
  intros H L. unfold bending_moment in H. split; [|split].
  - apply mapM_length in H.
    rewrite H, length_combine, length_seq, Nat.min_id. exact L.
  - intros Hx.
    destruct (exists_last Hx) as (x' & b & ->).
    destruct var_list as [|v0 var_list'] using rev_ind.
    { rewrite length_app in L. cbn in L. lia. }
    clear IHvar_list'.
    rewrite !length_app in L. cbn [List.length] in L.
    assert (L' : List.length var_list' = List.length x') by lia.
    rewrite length_app in H. cbn [List.length] in H.
    rewrite Nat.add_1_r, seq_S, combine_snoc in H by (rewrite length_seq; reflexivity).
    apply mapM_app in H. destruct H as (r1 & r2 & _ & H2 & ->).
    cbn [mapM Nat.add] in H2. rewrite !last_last in H2.
    rewrite L', nth_length_snoc in H2.
    destruct (py_div b b) as [q|] eqn:Q; cbn [bind] in H2; [|discriminate].
    apply py_div_ok in Q. destruct Q as [Hb ->].
    injection H2 as <-. rewrite last_last. apply py_round_zero. field.
    exact Hb.
  - intros Hx Hv. destruct x_val as [|x0 x_val]; [destruct var_list;
      [cbn in H; injection H as <-; reflexivity|discriminate]|].
    destruct var_list as [|v0 var_list]; [discriminate|].
    cbn [hd] in Hx, Hv. subst x0 v0.
    cbn [List.length seq combine mapM nth] in H.
    destruct (py_div 0 _) as [q|] eqn:Q; cbn [bind] in H; [|discriminate].
    apply py_div_ok in Q. destruct Q as [Hb ->].
    destruct (mapM _ _); cbn [bind] in H; [|discriminate].
    injection H as <-. cbn [hd]. apply py_round_zero. field. exact Hb.
Qed.

Lemma max_by_abs_ok (l : list R) (m : R) : max_by_abs l = Ok m -> l <> [].
Proof. destruct l; [discriminate|discriminate]. Qed.

(** What [get_ls_plot] has computed when it returns. *)
Lemma get_ls_plot_ok
  (x_loc lightship_distribution ls_bd_val ls_buoyancy_distribution : list R)
  (tank_extents : list (string * list (R * R)))
  (vessel_length ship_sf_max ship_bm_max draft_aft : R)
  (cargo_data : list Cargo) (tank_data : list Tank) (trim : R) (r : LsData) :
  get_ls_plot x_loc lightship_distribution ls_bd_val ls_buoyancy_distribution
              tank_extents vessel_length ship_sf_max ship_bm_max draft_aft
              cargo_data tank_data trim = Ok r ->
  location r = x_loc
  /\ List.length (wd r) = List.length lightship_distribution
  /\ List.length (bd r) = List.length x_loc
  /\ sum (bd r) = sum (wd r)
  /\ sf r = shear_force None (wd r) (bd r)
  /\ sf r <> []
  /\ exists var_list,
      sf_var_list x_loc (sf r) = Ok var_list
      /\ bending_moment x_loc var_list = Ok (bm r).
Proof.
  unfold get_ls_plot.
  destruct (get_tank_weight_distribution tank_extents tank_data)
    as [tanks|]; cbn [bind]; [|discriminate].
  match goal with
  | |- bind ?m _ = _ -> _ => destruct m as [weights|] eqn:W; cbn [bind];
                             [|discriminate]
  end.
  destruct (get_buoyancy_distribution _ _ _ _ _ _ _ _) as [buoyancy|] eqn:B;
    cbn [bind]; [|discriminate].
  destruct (sf_var_list _ _) as [var_list|] eqn:V; cbn [bind]; [|discriminate].
  destruct (bending_moment _ _) as [moments|] eqn:M; cbn [bind];
    [|discriminate].
  destruct (max_by_abs (shear_force _ _ _)) as [sf_max_value|] eqn:S;
    cbn [bind]; [|discriminate].
  destruct (max_by_abs moments); cbn [bind]; [|discriminate].
  destruct (py_div sf_max_value _); cbn [bind]; [|discriminate].
  destruct (py_div _ _); cbn [bind]; [|discriminate].
  intros H. injection H as <-. cbn [location wd bd sf bm].
  apply get_buoyancy_distribution_ok in B. destruct B as [B1 B2].
  apply max_by_abs_ok in S.
  repeat split; try assumption.
  - destruct (tanks ++ _).
    + injection W as <-. reflexivity.
    + apply get_weight_dn_length in W. exact W.
  - exists var_list. split; assumption.
Qed.

(** X13: whenever [get_ls_plot] returns, the bending moment has one entry per
    station and is 0 at the last station; it is 0 at the first station too
    when that station lies at 0. *)
Theorem bending_moment_vanishes_at_the_ends
  (x_loc lightship_distribution ls_bd_val ls_buoyancy_distribution : list R)
  (tank_extents : list (string * list (R * R)))
  (vessel_length ship_sf_max ship_bm_max draft_aft : R)
  (cargo_data : list Cargo) (tank_data : list Tank) (trim : R) (r : LsData) :
  get_ls_plot x_loc lightship_distribution ls_bd_val ls_buoyancy_distribution
              tank_extents vessel_length ship_sf_max ship_bm_max draft_aft
              cargo_data tank_data trim = Ok r ->
  List.length (bm r) = List.length x_loc
  /\ last (bm r) 0 = 0
  /\ (hd 0 x_loc = 0 -> hd 0 (bm r) = 0).
Proof.
  intros H. apply get_ls_plot_ok in H.
  destruct H as (_ & _ & Lb & _ & Es & Ns & var_list & V & M).
  apply sf_var_list_ok in V. destruct V as [Lv Hv].
  destruct (bending_moment_ends _ _ _ M Lv) as (L & E & F).
  split; [exact L|]. split.
  - apply E. intros ->. apply Ns. rewrite Es.
    destruct (bd r); [|discriminate]. destruct (wd r); reflexivity.
  - intros Hx. apply F; assumption.
Qed.

(** X14: when the list of lightship weights is as long as the list of
    stations and [get_ls_plot] returns, the shear force at the last station
    is at most half a unit per station in magnitude: the corrected buoyancy
    balances the weight, and only the rounding of each entry is left. *)
Theorem shear_force_closes_within_rounding
  (x_loc lightship_distribution ls_bd_val ls_buoyancy_distribution : list R)
  (tank_extents : list (string * list (R * R)))
  (vessel_length ship_sf_max ship_bm_max draft_aft : R)
  (cargo_data : list Cargo) (tank_data : list Tank) (trim : R) (r : LsData) :
  List.length lightship_distribution = List.length x_loc ->
  get_ls_plot x_loc lightship_distribution ls_bd_val ls_buoyancy_distribution
              tank_extents vessel_length ship_sf_max ship_bm_max draft_aft
              cargo_data tank_data trim = Ok r ->
  Rabs (last (sf r) 0) <= INR (List.length x_loc) / 2.
Proof.
  intros L H. apply get_ls_plot_ok in H.
  destruct H as (_ & Lw & Lb & Hs & Es & _).
  assert (D := shear_force_drift (wd r) (bd r) None ltac:(congruence)).
  cbv zeta in D. rewrite <- Es, Hs, Lw, L in D.
  replace (last (sf r) 0 - (0 + (sum (wd r) - sum (wd r)) * (981 / 100)))
    with (last (sf r) 0) in D by ring.
  exact D.
Qed.

Lemma shear_force_balanced (w : list R) (start : option R) :
  start = None \/ start = Some 0 ->
  shear_force start w w = repeat 0 (List.length w).
Proof.
  revert start. induction w as [|a w IH]; intros start Hs; [reflexivity|].
  cbn [shear_force List.length repeat].
  assert (E : match start with
              | Some last =>
                  IZR (round_half_even ((a - a) * (981 / 100) + last))
              | None => IZR (round_half_even ((a - a) * (981 / 100)))
              end = 0).
  { destruct Hs as [->| ->]; apply round_half_even_zero; ring. }
  rewrite E. rewrite IH by (right; reflexivity). reflexivity.
Qed.

Lemma foldM_sf_var_step_zero (x_val : list R) (n len start : nat) :
  (start + len <= n)%nat ->
  foldM (sf_var_step x_val (repeat 0 n)) (seq start len) (repeat 0 start, 0)
  = Ok (repeat 0 (start + len), 0).
Proof.
  revert start. induction len as [|len IH]; intros start H.
  - rewrite Nat.add_0_r. reflexivity.
  - cbn [seq foldM].
    assert (E : sf_var_step x_val (repeat 0 n) (repeat 0 start, 0) start
                = Ok (repeat 0 (S start), 0)).
    { unfold sf_var_step. destruct start as [|k]; [reflexivity|].
      cbn [Nat.eqb]. unfold list_item.
      rewrite !nth_error_repeat by lia. cbn [bind].
      replace ((5 / 10 * (0 - 0) + 0)
               * (nth (S k) x_val 0 - nth (S k - 1) x_val 0) + 0)
        with 0 by ring.
      rewrite <- repeat_cons. reflexivity. }
    rewrite E. cbn [bind]. rewrite IH by lia.
    replace (S start + len)%nat with (start + S len)%nat by lia.
    reflexivity.
Qed.

Lemma last_repeat (a : R) (n : nat) : last (repeat a n) a = a.
Proof.
  induction n as [|n IH]; [reflexivity|].
  cbn [repeat]. rewrite last_cons_default.
  destruct n; [reflexivity|]. cbn [repeat] in IH |- *.
  rewrite last_cons_default in IH. rewrite last_cons_default.
  exact IH.
Qed.

(** X15: when the buoyancy equals the weight at every station and the last
    station does not lie at 0, the shear force and the bending moment are 0 at
    every station. *)
Theorem balanced_stations_have_no_shear_or_bending (x_val w : list R) :
  List.length w = List.length x_val ->
  last x_val 0 <> 0 ->
  shear_force None w w = repeat 0 (List.length x_val)
  /\ (var_list <- sf_var_list x_val (shear_force None w w) ;;
      bending_moment x_val var_list)
     = Ok (repeat 0 (List.length x_val)).
Proof.
  intros L Hx.
  rewrite (shear_force_balanced w None) by (left; reflexivity).
  rewrite L. split; [reflexivity|].
  unfold sf_var_list.
  assert (F := foldM_sf_var_step_zero x_val (List.length x_val)
                 (List.length x_val) 0 (le_n _)).
  cbn [repeat Nat.add] in F. rewrite F.
  cbn [bind fst]. unfold bending_moment.
  rewrite (mapM_map _ (fun _ => 0)).
  - rewrite repeat_length.
    assert (G : forall l : list (nat * R),
               map (fun _ => 0) l = repeat 0 (List.length l)).
    { induction l as [|a l IH]; [reflexivity|].
      cbn [map List.length repeat]. rewrite IH. reflexivity. }
    rewrite G, length_combine, length_seq, repeat_length, Nat.min_id.
    reflexivity.
  - intros [i v] Hin. apply in_combine_r in Hin. apply repeat_spec in Hin.
    subst v. unfold py_div. rewrite Reqb_false by exact Hx. cbn [bind].
    rewrite last_repeat. f_equal. apply py_round_zero. ring.
Qed.

Lemma sum_of_nonzero_weights (tank_data : list Tank) :
  sum (map (fun tank => Weights.t_weight (snd tank))
           (filter (fun tank => negb (Weights.t_weight (snd tank) =? 0))
                   tank_data))
  = sum (map (fun tank => Weights.t_weight (snd tank)) tank_data).
Proof.
  induction tank_data as [|tank tank_data IH]; [reflexivity|].
  cbn [filter map].
  destruct (Reqb_spec (Weights.t_weight (snd tank)) 0) as [E|E];
    cbn [negb map]; rewrite !sum_cons, ?IH; lra.
Qed.

Lemma tank_weight_distribution_of_nonzero_weights
  (tank_extents : list (string * list (R * R))) (tank_data : list Tank) :
  get_tank_weight_distribution
    tank_extents
    (filter (fun tank => negb (Weights.t_weight (snd tank) =? 0)) tank_data)
  = get_tank_weight_distribution tank_extents tank_data.
Proof.
  induction tank_data as [|[tank_name tank] tank_data IH]; [reflexivity|].
  cbn [filter get_tank_weight_distribution snd].
  destruct (Reqb_spec (Weights.t_weight tank) 0) as [E|E]; cbn [negb].
  - exact IH.
  - cbn [get_tank_weight_distribution].
    rewrite Reqb_false by exact E. rewrite IH. reflexivity.
Qed.

(** X16: tanks of weight 0 are ignored by [get_ls_plot]: with them or without
    them it returns the same result or raises the same exception, also when
    the tank extents have no entry for them. *)
Theorem get_ls_plot_ignores_empty_tanks
  (x_loc lightship_distribution ls_bd_val ls_buoyancy_distribution : list R)
  (tank_extents : list (string * list (R * R)))
  (vessel_length ship_sf_max ship_bm_max draft_aft : R)
  (cargo_data : list Cargo) (tank_data : list Tank) (trim : R) :
  get_ls_plot x_loc lightship_distribution ls_bd_val ls_buoyancy_distribution
              tank_extents vessel_length ship_sf_max ship_bm_max draft_aft
              cargo_data
              (filter (fun tank => negb (Weights.t_weight (snd tank) =? 0))
                      tank_data)
              trim
  = get_ls_plot x_loc lightship_distribution ls_bd_val
                ls_buoyancy_distribution tank_extents vessel_length
                ship_sf_max ship_bm_max draft_aft cargo_data tank_data trim.
Proof.
  unfold get_ls_plot.
  rewrite tank_weight_distribution_of_nonzero_weights,
    sum_of_nonzero_weights.
  reflexivity.
Qed.

Lemma fold_left_max_by_abs (l : list R) (a : R) :
  let m := fold_left (fun m v => if Rabs m <? Rabs v then v else m) l a in
  In m (a :: l) /\ forall v, In v (a :: l) -> Rabs v <= Rabs m.
Proof.
  revert a. induction l as [|b l IH]; intros a; cbv zeta.
  - cbn [fold_left]. split; [left; reflexivity|].
    intros v [<-|[]]. apply Rle_refl.
  - cbn [fold_left]. specialize (IH (if Rabs a <? Rabs b then b else a)).
    cbv zeta in IH. destruct IH as [Hin Hall].
    assert (Hhead := Hall _ (or_introl eq_refl)).
    destruct (Rltb_spec (Rabs a) (Rabs b)) as [C|C].
    + split.
      * destruct Hin as [Hin|Hin]; [right; left; exact Hin|].
        right. right. exact Hin.
      * intros v [<-|[<-|Hv]]; [lra|lra|]. apply Hall. right. exact Hv.
    + split.
      * destruct Hin as [Hin|Hin]; [left; exact Hin|].
        right. right. exact Hin.
      * intros v [<-|[<-|Hv]]; [lra|lra|]. apply Hall. right. exact Hv.
Qed.

Lemma max_by_abs_spec (l : list R) (m : R) :
  max_by_abs l = Ok m ->
  In m l /\ forall v, In v l -> Rabs v <= Rabs m.
Proof.
  destruct l as [|a l]; [discriminate|]. cbn [max_by_abs].
  intros H. injection H as <-. apply fold_left_max_by_abs.
Qed.

(** X17: the checks of [get_ls_plot]: the reported maxima are entries of the
    shear force and of the bending moment, of the largest magnitude each, and
    a unity check of at most 1 means that no entry exceeds the limit in
    magnitude. *)
Theorem get_ls_plot_unity_checks
  (x_loc lightship_distribution ls_bd_val ls_buoyancy_distribution : list R)
  (tank_extents : list (string * list (R * R)))
  (vessel_length ship_sf_max ship_bm_max draft_aft : R)
  (cargo_data : list Cargo) (tank_data : list Tank) (trim : R) (r : LsData) :
  get_ls_plot x_loc lightship_distribution ls_bd_val ls_buoyancy_distribution
              tank_extents vessel_length ship_sf_max ship_bm_max draft_aft
              cargo_data tank_data trim = Ok r ->
  In (sf_max r) (sf r) /\ In (bm_max r) (bm r)
  /\ uc_sf r = Rabs (sf_max r) / Rabs ship_sf_max
  /\ uc_bm r = Rabs (bm_max r) / Rabs ship_bm_max
  /\ (uc_sf r <= 1 -> forall v, In v (sf r) -> Rabs v <= Rabs ship_sf_max)
  /\ (uc_bm r <= 1 -> forall v, In v (bm r) -> Rabs v <= Rabs ship_bm_max).
Proof.
  unfold get_ls_plot.
  destruct (get_tank_weight_distribution tank_extents tank_data)
    as [tanks|]; cbn [bind]; [|discriminate].
  match goal with
  | |- bind ?m _ = _ -> _ => destruct m as [weights|]; cbn [bind];
                             [|discriminate]
  end.
  destruct (get_buoyancy_distribution _ _ _ _ _ _ _ _) as [buoyancy|];
    cbn [bind]; [|discriminate].
  destruct (sf_var_list _ _) as [var_list|]; cbn [bind]; [|discriminate].
  destruct (bending_moment _ _) as [moments|]; cbn [bind]; [|discriminate].
  destruct (max_by_abs (shear_force _ _ _)) as [sf_max_value|] eqn:S;
    cbn [bind]; [|discriminate].
  destruct (max_by_abs moments) as [bm_max_value|] eqn:B; cbn [bind];
    [|discriminate].
  destruct (py_div sf_max_value _) as [us|] eqn:Us; cbn [bind];
    [|discriminate].
  destruct (py_div bm_max_value _) as [ub|] eqn:Ub; cbn [bind];
    [|discriminate].
  intros H. injection H as <-. cbn [sf bm sf_max bm_max uc_sf uc_bm].
  apply max_by_abs_spec in S. destruct S as [S1 S2].
  apply max_by_abs_spec in B. destruct B as [B1 B2].
  apply py_div_ok in Us. destruct Us as [Hs ->].
  apply py_div_ok in Ub. destruct Ub as [Hb ->].
  assert (Ps : 0 < Rabs ship_sf_max) by (apply Rabs_pos_lt; exact Hs).
  assert (Pb : 0 < Rabs ship_bm_max) by (apply Rabs_pos_lt; exact Hb).
  assert (Es : Rabs (sf_max_value / ship_sf_max)
               = Rabs sf_max_value / Rabs ship_sf_max).
  { unfold Rdiv. rewrite Rabs_mult, Rabs_inv. reflexivity. }
  assert (Eb : Rabs (bm_max_value / ship_bm_max)
               = Rabs bm_max_value / Rabs ship_bm_max).
  { unfold Rdiv. rewrite Rabs_mult, Rabs_inv. reflexivity. }
  rewrite Es, Eb.
  split; [exact S1|]. split; [exact B1|].
  split; [reflexivity|]. split; [reflexivity|].
  split; intros Hu v Hv.
  - apply Rle_trans with (Rabs sf_max_value); [apply S2; exact Hv|].
    assert (E : Rabs sf_max_value
                = Rabs sf_max_value / Rabs ship_sf_max * Rabs ship_sf_max)
      by (field; lra).
    rewrite E. nra.
  - apply Rle_trans with (Rabs bm_max_value); [apply B2; exact Hv|].
    assert (E : Rabs bm_max_value
                = Rabs bm_max_value / Rabs ship_bm_max * Rabs ship_bm_max)
      by (field; lra).
    rewrite E. nra.
Qed.

(** A small ship: two stations, an empty tank for which there is no extent,
    no cargo. *)
Lemma sample_ls_plot_returns :
  exists r,
    get_ls_plot [0; 10] [2; 2] [0; 10] [1; 1] [] 100 50 500 1 []
      [("FW1"%string,
        {| Weights.t_volume := 0; Weights.t_weight := 0;
           Weights.t_lcg := 0; Weights.t_tcg := 0;
           Weights.t_vcg := 0; Weights.t_fsm := 0 |})] 0 = Ok r.
Proof.
  unfold get_ls_plot.
  cbn [get_tank_weight_distribution Weights.t_weight snd]. rdecide.
  cbn [bind get_cargo_weight_distribution map app].
  unfold get_buoyancy_distribution, uncorrected_buoyancy, draft_val, py_div.
  cbn [bind mapM map]. rdecide.
  cbn [bind mapM map combine snd Weights.t_weight].
  assert (D : sum [1 + 0 / 100; 1 + 0 / (100 * 10)] <> 0)
    by (unfold sum; cbn [fold_left]; lra).
  rewrite (Reqb_false _ _ D). cbn [bind].
  cbn [interp1d_linear]. rdecide. cbn [andb].
  unfold apply_correction.
  match goal with
  | |- context [sum ?B =? 0] => assert (S : sum B <> 0)
  end.
  { unfold sum. cbn [fold_left].
    match goal with |- ?a <> 0 => replace a with 2 by (field; lra) end. lra. }
  rewrite (Reqb_false _ _ S). cbn [bind map].
  cbn [shear_force].
  unfold sf_var_list, bending_moment.
  cbn [List.length seq foldM sf_var_step Nat.eqb bind list_item nth_error
       Nat.sub app fst combine mapM nth last].
  unfold py_div. rdecide. cbn [bind max_by_abs]. rdecide. cbn [bind].
  eexists. reflexivity.
Qed.

End LongitudinalStrengthFacts.

Lemma bending_moment_vanishes_at_the_ends_witness :
  exists r,
    LsPlot.get_ls_plot [0; 10] [2; 2] [0; 10] [1; 1] [] 100 50 500 1 []
      [("FW1"%string,
        {| Weights.t_volume := 0; Weights.t_weight := 0;
           Weights.t_lcg := 0; Weights.t_tcg := 0;
           Weights.t_vcg := 0; Weights.t_fsm := 0 |})] 0 = Ok r
    /\ List.length (LsPlot.bm r) = 2%nat
    /\ last (LsPlot.bm r) 0 = 0
    /\ (hd 0 [0; 10] = 0 -> hd 0 (LsPlot.bm r) = 0).
Proof.
  destruct sample_ls_plot_returns as [r H]. exists r.
  split; [exact H|].
  exact (bending_moment_vanishes_at_the_ends _ _ _ _ _ _ _ _ _ _ _ _ _ H).
Defined.

Lemma shear_force_closes_within_rounding_witness :
  exists r,
    LsPlot.get_ls_plot [0; 10] [2; 2] [0; 10] [1; 1] [] 100 50 500 1 []
      [("FW1"%string,
        {| Weights.t_volume := 0; Weights.t_weight := 0;
           Weights.t_lcg := 0; Weights.t_tcg := 0;
           Weights.t_vcg := 0; Weights.t_fsm := 0 |})] 0 = Ok r
    /\ Rabs (last (LsPlot.sf r) 0) <= INR 2 / 2.
Proof.
  destruct sample_ls_plot_returns as [r H]. exists r.
  split; [exact H|].
  exact (shear_force_closes_within_rounding
           [0; 10] [2; 2] _ _ _ _ _ _ _ _ _ _ _ eq_refl H).
Defined.

Lemma balanced_stations_have_no_shear_or_bending_witness :
  LsPlot.shear_force None [2; 3; 2] [2; 3; 2] = [0; 0; 0]
  /\ (var_list <- LsPlot.sf_var_list
                    [0; 10; 20]
                    (LsPlot.shear_force None [2; 3; 2] [2; 3; 2]) ;;
      LsPlot.bending_moment [0; 10; 20] var_list)
     = Ok [0; 0; 0].
Proof.
  apply (balanced_stations_have_no_shear_or_bending [0; 10; 20] [2; 3; 2]).
  - reflexivity.
  - cbn [last]. lra.
Defined.

Lemma get_ls_plot_unity_checks_witness :
  exists r,
    LsPlot.get_ls_plot [0; 10] [2; 2] [0; 10] [1; 1] [] 100 50 500 1 []
      [("FW1"%string,
        {| Weights.t_volume := 0; Weights.t_weight := 0;
           Weights.t_lcg := 0; Weights.t_tcg := 0;
           Weights.t_vcg := 0; Weights.t_fsm := 0 |})] 0 = Ok r
    /\ In (LsPlot.sf_max r) (LsPlot.sf r)
    /\ In (LsPlot.bm_max r) (LsPlot.bm r)
    /\ LsPlot.uc_sf r = Rabs (LsPlot.sf_max r) / Rabs 50
    /\ LsPlot.uc_bm r = Rabs (LsPlot.bm_max r) / Rabs 500
    /\ (LsPlot.uc_sf r <= 1 ->
        forall v, In v (LsPlot.sf r) -> Rabs v <= Rabs 50)
    /\ (LsPlot.uc_bm r <= 1 ->
        forall v, In v (LsPlot.bm r) -> Rabs v <= Rabs 500).
Proof.
  destruct sample_ls_plot_returns as [r H]. exists r.
  split; [exact H|].
  exact (get_ls_plot_unity_checks _ _ _ _ _ _ _ _ _ _ _ _ _ H).
Defined.

(** ** Centres of gravity *)

Section WeightCentreFacts.

Import Weights.

Lemma weighted_sum_bounds (items : list WeightItem) (f : WeightItem -> R)
  (lo hi : R) :
  (forall i, In i items -> 0 <= weight i /\ lo <= f i <= hi) ->
  lo * sum (map weight items) <= sum (map (fun i => weight i * f i) items)
  /\ sum (map (fun i => weight i * f i) items) <= hi * sum (map weight items).
Proof.
  induction items as [|i items IH]; intros H.
  - cbn [map]. rewrite sum_nil. lra.
  - cbn [map]. rewrite !sum_cons.
    destruct (H i (or_introl eq_refl)) as [Hw Hf].
    destruct IH as [IH1 IH2]; [intros j Hj; apply H; right; exact Hj|].
    split; nra.
Qed.

Lemma quotient_bounds (m w lo hi : R) :
  0 < w -> lo * w <= m <= hi * w -> lo <= m / w <= hi.
Proof.
  intros Hw [H1 H2].
  assert (E : m = m / w * w) by (field; lra).
  assert (Hi : 0 < / w) by (apply Rinv_0_lt_compat; exact Hw).
  split; apply Rmult_le_reg_r with w; try exact Hw; rewrite <- E; assumption.
Qed.

Lemma get_fixed_weight_nonzero_total (items : list WeightItem) :
  sum (map weight items) <> 0 ->
  get_fixed_weight items
  = (py_round (sum (map weight items)) 4,
     sum (map (fun i => weight i * lcg i) items) / sum (map weight items),
     sum (map (fun i => weight i * tcg i) items) / sum (map weight items),
     sum (map (fun i => weight i * vcg i) items) / sum (map weight items)).
Proof.
  intros H. unfold get_fixed_weight. rewrite fold_accumulate.
  rewrite !Rplus_0_l. rewrite Reqb_false by exact H. reflexivity.
Qed.

(** X18: for fixed weights that are not negative and have a positive total,
    each centre of gravity returned by [get_fixed_weight] lies between the
    smallest and the largest of the items' own. *)
Theorem get_fixed_weight_centre_within_the_items (items : list WeightItem)
  (lo hi : R) :
  (forall i, In i items -> 0 <= weight i) ->
  0 < sum (map weight items) ->
  let '(_, l, t, v) := get_fixed_weight items in
  ((forall i, In i items -> lo <= lcg i <= hi) -> lo <= l <= hi)
  /\ ((forall i, In i items -> lo <= tcg i <= hi) -> lo <= t <= hi)
  /\ ((forall i, In i items -> lo <= vcg i <= hi) -> lo <= v <= hi).
Proof.
  intros Hw Hs.
  rewrite get_fixed_weight_nonzero_total by lra.
  split; [|split]; intros Hc; apply quotient_bounds; try exact Hs;
    apply weighted_sum_bounds; intros i Hi; (split; [apply Hw|apply Hc]);
    exact Hi.
Qed.

(** X19: the centre of two groups of fixed weights taken together is the
    weighted mean of the centres of the groups, the weights being the totals
    of the groups before rounding. *)
Theorem get_fixed_weight_of_two_groups (a b : list WeightItem) :
  let Wa := sum (map weight a) in
  let Wb := sum (map weight b) in
  Wa <> 0 -> Wb <> 0 -> Wa + Wb <> 0 ->
  let '(_, la, ta, va) := get_fixed_weight a in
  let '(_, lb, tb, vb) := get_fixed_weight b in
  get_fixed_weight (a ++ b)
  = (py_round (Wa + Wb) 4,
     (Wa * la + Wb * lb) / (Wa + Wb),
     (Wa * ta + Wb * tb) / (Wa + Wb),
     (Wa * va + Wb * vb) / (Wa + Wb)).
Proof.
  intros Wa Wb Ha Hb Hab.
  rewrite (get_fixed_weight_nonzero_total a) by exact Ha.
  rewrite (get_fixed_weight_nonzero_total b) by exact Hb.
  rewrite get_fixed_weight_nonzero_total
    by (rewrite map_app, sum_app; exact Hab).
  rewrite !map_app, !sum_app. fold Wa Wb.
  tuple_eq; try reflexivity; field; repeat split; assumption.
Qed.

End WeightCentreFacts.

Lemma get_fixed_weight_centre_within_the_items_witness :
  let items := [ {| Weights.weight := 1; Weights.lcg := 5; Weights.tcg := 0;
                    Weights.vcg := 2 |};
                 {| Weights.weight := 3; Weights.lcg := 9; Weights.tcg := 0;
                    Weights.vcg := 4 |} ] in
  let '(_, l, t, v) := Weights.get_fixed_weight items in
  ((forall i, In i items -> 0 <= Weights.lcg i <= 10) -> 0 <= l <= 10)
  /\ ((forall i, In i items -> 0 <= Weights.tcg i <= 10) -> 0 <= t <= 10)
  /\ ((forall i, In i items -> 0 <= Weights.vcg i <= 10) -> 0 <= v <= 10).
Proof.
  intros items.
  apply (get_fixed_weight_centre_within_the_items items 0 10).
  - intros i [<-|[<-|[]]]; cbn; lra.
  - unfold items. cbn [map Weights.weight]. rewrite !sum_cons, sum_nil. lra.
Defined.

Lemma get_fixed_weight_of_two_groups_witness :
  let a := [ {| Weights.weight := 1; Weights.lcg := 5; Weights.tcg := 0;
                Weights.vcg := 2 |} ] in
  let b := [ {| Weights.weight := 3; Weights.lcg := 9; Weights.tcg := 0;
                Weights.vcg := 4 |} ] in
  let Wa := sum (map Weights.weight a) in
  let Wb := sum (map Weights.weight b) in
  let '(_, la, ta, va) := Weights.get_fixed_weight a in
  let '(_, lb, tb, vb) := Weights.get_fixed_weight b in
  Weights.get_fixed_weight (a ++ b)
  = (py_round (Wa + Wb) 4,
     (Wa * la + Wb * lb) / (Wa + Wb),
     (Wa * ta + Wb * tb) / (Wa + Wb),
     (Wa * va + Wb * vb) / (Wa + Wb)).
Proof.
  intros a b.
  apply (get_fixed_weight_of_two_groups a b);
    unfold a, b; cbn [map Weights.weight]; rewrite !sum_cons, !sum_nil; lra.
Defined.

(** ** Crane angles *)

Section CraneAngleFacts.

Import Crane.

Lemma py_acos_ok (x a : R) :
  py_acos x = Ok a -> -1 <= x <= 1 /\ a = acos x.
Proof.
  unfold py_acos.
  destruct (Rleb_spec (-1) x); [|discriminate].
  destruct (Rleb_spec x 1); [|discriminate].
  cbn [andb]. intros H. injection H as <-. split; [lra|reflexivity].
Qed.

Lemma degrees_acos_bounds (x : R) : 0 <= degrees (acos x) <= 180.
Proof.
  destruct (acos_bound x) as [H0 H1]. assert (Hp := PI_RGT_0).
  unfold degrees. split.
  - apply Rmult_le_reg_r with PI; [lra|].
    replace (acos x * 180 / PI * PI) with (acos x * 180) by (field; lra).
    lra.
  - apply Rmult_le_reg_r with PI; [lra|].
    replace (acos x * 180 / PI * PI) with (acos x * 180) by (field; lra).
    lra.
Qed.

(** X20: [calculate_boom_angle] returns a number only when neither utilisation
    exceeds 1, the boom length is not 0 and the outreach is at most the boom
    length in magnitude; the number is the arc cosine of their quotient in
    degrees and lies between 0 and 75. *)
Theorem calculate_boom_angle_in_degrees
  (boom_length required_outreach Ucl Ucr a : R) :
  calculate_boom_angle boom_length required_outreach Ucl Ucr
  = Ok (Degrees a) ->
  Ucl <= 1 /\ Ucr <= 1 /\ boom_length <> 0
  /\ Rabs required_outreach <= Rabs boom_length
  /\ a = degrees (acos (required_outreach / boom_length))
  /\ 0 <= a <= 75.
Proof.
  unfold calculate_boom_angle.
  destruct (Rltb_spec 1 Ucr) as [Hr|Hr], (Rltb_spec 1 Ucl) as [Hl|Hl];
    cbn [andb]; try discriminate.
  destruct (py_div required_outreach boom_length) as [ratio|] eqn:Q;
    cbn [bind]; [|discriminate].
  apply py_div_ok in Q. destruct Q as [Hb ->].
  destruct (py_acos _) as [angle|] eqn:A; cbn [bind]; [|discriminate].
  apply py_acos_ok in A. destruct A as [Hq ->].
  destruct (Rltb_spec 75 (degrees (acos (required_outreach / boom_length))))
    as [H75|H75]; [discriminate|].
  intros H. injection H as <-.
  repeat split; try lra; try assumption.
  - assert (Hp : 0 < Rabs boom_length) by (apply Rabs_pos_lt; exact Hb).
    assert (E : Rabs required_outreach
                = Rabs (required_outreach / boom_length) * Rabs boom_length).
    { rewrite <- Rabs_mult. f_equal. field. exact Hb. }
    rewrite E.
    assert (Hr1 : Rabs (required_outreach / boom_length) <= 1)
      by (apply Rabs_le; lra).
    nra.
  - apply degrees_acos_bounds.
Qed.

(** X21: a slew angle returned by [calculate_slew_angle] lies between 0 and
    360 degrees: up to 180 when the cargo is not to the right of the boom (a
    cross product that is not negative), from 180 on when it is. *)
Theorem calculate_slew_angle_range (x1 y1 x2 y2 x3 y3 a : R) :
  calculate_slew_angle x1 y1 x2 y2 x3 y3 = Ok a ->
  let cross_product := (x2 - x1) * (y3 - y1) - (y2 - y1) * (x3 - x1) in
  (0 <= cross_product -> 0 <= a <= 180)
  /\ (cross_product < 0 -> 180 <= a <= 360).
Proof.
  unfold calculate_slew_angle.
  destruct (py_div _ _) as [cos_angle|]; cbn [bind]; [|discriminate].
  destruct (py_acos cos_angle) as [angle|] eqn:A; cbn [bind];
    [|discriminate].
  apply py_acos_ok in A. destruct A as [_ ->].
  assert (B := degrees_acos_bounds cos_angle).
  destruct (Rltb_spec ((x2 - x1) * (y3 - y1) - (y2 - y1) * (x3 - x1)) 0)
    as [C|C]; intros H; injection H as <-; cbv zeta; split; intros; lra.
Qed.

Lemma lift_cranes_without_cargo (ship_crane_data : CraneData)
  (crane_data : list (string * list CraneDetails))
  (cargo_data : list (string * (R * R * R * R)))
  (Mrigging Mhook WCFrigging WCF DAF DAFincl Mblock : R)
  (boomdata : list (string * string))
  (crane_orientations : list (string * option CraneOrientation))
  (required_swl : option SWLResult) :
  (forall crane details,
      In (crane, details) crane_data ->
      details <> [] /\ dict_get cargo_data crane = None) ->
  exists orientations,
    lift_cranes ship_crane_data crane_data cargo_data Mrigging Mhook
                WCFrigging WCF DAF DAFincl Mblock boomdata
                crane_orientations required_swl
    = Ok (orientations, required_swl)
    /\ forall crane o, dict_get orientations crane = Some (Some o) ->
                       dict_get crane_orientations crane = Some (Some o).
Proof.
  revert crane_orientations.
  induction crane_data as [|[crane details] crane_data IH];
    intros crane_orientations H.
  - eexists. split; [reflexivity|]. intros crane o Ho. exact Ho.
  - destruct (H crane details (or_introl eq_refl)) as [Hd Hc].
    cbn [lift_cranes]. destruct details as [|d details]; [congruence|].
    cbn [bind]. rewrite Hc.
    destruct (IH (dict_set crane_orientations crane None)) as (os & E & K).
    { intros c ds Hin. apply H. right. exact Hin. }
    exists os. split; [exact E|].
    intros c o Ho. apply K in Ho. clear - Ho.
    induction crane_orientations as [|[k v] l IHl].
    + cbn in Ho. destruct (String.eqb c crane); discriminate.
    + cbn [dict_set] in Ho. destruct (String.eqb crane k) eqn:Ek.
      * apply String.eqb_eq in Ek. subst k. cbn [dict_get] in Ho |- *.
        destruct (String.eqb c crane); [discriminate|exact Ho].
      * cbn [dict_get] in Ho |- *.
        destruct (String.eqb c k); [exact Ho|apply IHl; exact Ho].
Qed.

(** X22: when no crane has cargo details (and every crane has its details),
    [calculate_crane_and_swl] raises [UnboundLocalError]: the returned
    [required_swl] is bound only inside the branch of a crane with cargo. *)
Theorem calculate_crane_and_swl_without_cargo (ship_crane_data : CraneData)
  (crane_data : list (string * list CraneDetails))
  (cargo_data : list (string * (R * R * R * R)))
  (Mrigging Mhook WCFrigging WCF DAF DAFincl Mblock : R)
  (boomdata : list (string * string)) :
  (forall crane details,
      In (crane, details) crane_data ->
      details <> [] /\ dict_get cargo_data crane = None) ->
  calculate_crane_and_swl ship_crane_data crane_data cargo_data Mrigging
                          Mhook WCFrigging WCF DAF DAFincl Mblock boomdata
  = Raise UnboundLocalError.
Proof.
  intros H. unfold calculate_crane_and_swl.
  destruct (lift_cranes_without_cargo
              ship_crane_data crane_data cargo_data Mrigging Mhook WCFrigging
              WCF DAF DAFincl Mblock boomdata [] None H) as (os & E & _).
  rewrite E. reflexivity.
Qed.

End CraneAngleFacts.

Lemma calculate_boom_angle_in_degrees_witness :
  Crane.calculate_boom_angle 10 10 (5 / 10) (5 / 10)
  = Ok (Crane.Degrees (degrees (acos (10 / 10))))
  /\ 5 / 10 <= 1 /\ 5 / 10 <= 1 /\ 10 <> 0
  /\ Rabs 10 <= Rabs 10
  /\ degrees (acos (10 / 10)) = degrees (acos (10 / 10))
  /\ 0 <= degrees (acos (10 / 10)) <= 75.
Proof.
  assert (E1 : 10 / 10 = 1) by lra.
  assert (H : Crane.calculate_boom_angle 10 10 (5 / 10) (5 / 10)
              = Ok (Crane.Degrees (degrees (acos (10 / 10))))).
  { unfold Crane.calculate_boom_angle, py_div, py_acos. rdecide.
    cbn [andb bind]. rewrite E1. rdecide. cbn [andb bind].
    rewrite degrees_acos_1. rdecide. reflexivity. }
  split; [exact H|].
  exact (calculate_boom_angle_in_degrees _ _ _ _ _ H).
Defined.

Lemma calculate_slew_angle_range_witness :
  exists a,
    Crane.calculate_slew_angle 0 0 1 0 1 0 = Ok a
    /\ (0 <= (1 - 0) * (0 - 0) - (0 - 0) * (1 - 0) -> 0 <= a <= 180)
    /\ ((1 - 0) * (0 - 0) - (0 - 0) * (1 - 0) < 0 -> 180 <= a <= 360).
Proof.
  assert (S1 : sqrt ((1 - 0) ^ 2 + (0 - 0) ^ 2) = 1)
    by (replace ((1 - 0) ^ 2 + (0 - 0) ^ 2) with 1 by ring; apply sqrt_1).
  assert (H : exists a, Crane.calculate_slew_angle 0 0 1 0 1 0 = Ok a).
  { unfold Crane.calculate_slew_angle, py_div, py_acos. rewrite S1.
    rdecide. cbn [bind]. rdecide. cbn [andb bind]. rdecide.
    eexists. reflexivity. }
  destruct H as [a H]. exists a. split; [exact H|].
  exact (calculate_slew_angle_range _ _ _ _ _ _ _ H).
Defined.

Lemma calculate_crane_and_swl_without_cargo_witness :
  Crane.calculate_crane_and_swl
    [] [("crane_1"%string,
         [{| Crane.pedestal_base_point := (0, 0, 0);
             Crane.boom_tip_point := Crane.TipPoint (10, 0, 5) |}])]
    [] 1 1 1 1 1 1 1 []
  = Raise UnboundLocalError.
Proof.
  apply calculate_crane_and_swl_without_cargo.
  intros crane details [H|[]]. injection H as <- <-.
  split; [discriminate|reflexivity].
Defined.

(** ** The safe working load at an outreach *)

Section SwlLookupFacts.

Import Crane.

Lemma fold_left_Rmax_above (l : list R) (a x : R) :
  x <= a -> x <= fold_left Rmax l a.
Proof.
  revert a. induction l as [|b l IH]; intros a H; [exact H|].
  cbn [fold_left]. apply IH.
  apply Rle_trans with a; [exact H|apply Rmax_l].
Qed.

Lemma fold_left_Rmax_ge (l : list R) (a x : R) :
  In x (a :: l) -> x <= fold_left Rmax l a.
Proof.
  revert a. induction l as [|b l IH]; intros a [H|H].
  - subst x. apply Rle_refl.
  - destruct H.
  - subst x. apply fold_left_Rmax_above, Rle_refl.
  - cbn [fold_left]. destruct H as [H|H].
    + subst x. apply fold_left_Rmax_above, Rmax_r.
    + apply IH. right. exact H.
Qed.

Lemma fold_left_Rmin_below (l : list R) (a x : R) :
  a <= x -> fold_left Rmin l a <= x.
Proof.
  revert a. induction l as [|b l IH]; intros a H; [exact H|].
  cbn [fold_left]. apply IH.
  apply Rle_trans with a; [apply Rmin_l|exact H].
Qed.

Lemma fold_left_Rmin_le (l : list R) (a x : R) :
  In x (a :: l) -> fold_left Rmin l a <= x.
Proof.
  revert a. induction l as [|b l IH]; intros a [H|H].
  - subst x. apply Rle_refl.
  - destruct H.
  - subst x. apply fold_left_Rmin_below, Rle_refl.
  - cbn [fold_left]. destruct H as [H|H].
    + subst x. apply fold_left_Rmin_below, Rmin_r.
    + apply IH. right. exact H.
Qed.

Lemma fold_left_max_above (l : list nat) (a x : nat) :
  (x <= a -> x <= fold_left Nat.max l a)%nat.
Proof.
  revert a. induction l as [|b l IH]; intros a H; [exact H|].
  cbn [fold_left]. apply IH. lia.
Qed.

Lemma fold_left_max_ge (l : list nat) (a x : nat) :
  In x (a :: l) -> (x <= fold_left Nat.max l a)%nat.
Proof.
  revert a. induction l as [|b l IH]; intros a [H|H].
  - subst x. apply Nat.le_refl.
  - destruct H.
  - subst x. apply fold_left_max_above, Nat.le_refl.
  - cbn [fold_left]. destruct H as [H|H].
    + subst x. apply fold_left_max_above. lia.
    + apply IH. right. exact H.
Qed.

Lemma fold_left_min_below (l : list nat) (a x : nat) :
  (a <= x -> fold_left Nat.min l a <= x)%nat.
Proof.
  revert a. induction l as [|b l IH]; intros a H; [exact H|].
  cbn [fold_left]. apply IH. lia.
Qed.

Lemma fold_left_min_le (l : list nat) (a x : nat) :
  In x (a :: l) -> (fold_left Nat.min l a <= x)%nat.
Proof.
  revert a. induction l as [|b l IH]; intros a [H|H].
  - subst x. apply Nat.le_refl.
  - destruct H.
  - subst x. apply fold_left_min_below, Nat.le_refl.
  - cbn [fold_left]. destruct H as [H|H].
    + subst x. apply fold_left_min_below. lia.
    + apply IH. right. exact H.
Qed.

Lemma fold_left_max_In_R (l : list R) (a : R) :
  exists x, In x (a :: l) /\ fold_left Rmax l a = x.
Proof.
  revert a. induction l as [|b l IH]; intros a.
  - exists a. split; [left; reflexivity|reflexivity].
  - cbn [fold_left]. destruct (IH (Rmax a b)) as (x & [Hx|Hx] & E).
    + exists x. split; [|exact E]. subst x.
      unfold Rmax. destruct (Rle_dec a b);
        [right; left; reflexivity|left; reflexivity].
    + exists x. split; [right; right; exact Hx|exact E].
Qed.

Lemma fold_left_min_In_R (l : list R) (a : R) :
  exists x, In x (a :: l) /\ fold_left Rmin l a = x.
Proof.
  revert a. induction l as [|b l IH]; intros a.
  - exists a. split; [left; reflexivity|reflexivity].
  - cbn [fold_left]. destruct (IH (Rmin a b)) as (x & [Hx|Hx] & E).
    + exists x. split; [|exact E]. subst x.
      unfold Rmin. destruct (Rle_dec a b);
        [left; reflexivity|right; left; reflexivity].
    + exists x. split; [right; right; exact Hx|exact E].
Qed.

Lemma mem_false_all (v : R) (l : list R) :
  (forall a, In a l -> a <> v) -> mem v l = false.
Proof.
  intros H. unfold mem. destruct (existsb _ l) eqn:E; [|reflexivity].
  apply existsb_exists in E. destruct E as (a & Ha & Hv).
  destruct (Reqb_spec a v) as [Ea|]; [|discriminate].
  exfalso. exact (H a Ha Ea).
Qed.

(** The lookup of [SWL] in a table that is there and not empty, at an outreach
    other than 0. *)
Lemma calculate_required_swl_lookup (t : Table)
  (Ra crane_weight Mrigging Mhook WCFrigging WCF DAF DAFincl Mblock : R)
  (r : SWLResult) :
  calculate_required_swl (Some t) Ra crane_weight Mrigging Mhook WCFrigging
                         WCF DAF DAFincl Mblock = Ok r ->
  Ra <> 0 -> t <> [] ->
  (let radius_list := map fst t in
   let swl_list := map snd t in
   if mem Ra radius_list
   then Ok (nth (index_of radius_list Ra) swl_list 0)
   else
     mx <- py_max radius_list ;;
     if mx <? Ra then Ok (last swl_list 0)
     else
       mn <- py_min radius_list ;;
       if Ra <? mn then Ok (hd 0 swl_list)
       else
         v <- interpolate_swl radius_list swl_list Ra ;;
         Ok (match v with Some v => v | None => 0 end))
  = Ok (SWL r).
Proof.
  intros H HRa Ht. unfold calculate_required_swl in H.
  match type of H with
  | bind ?m _ = _ => destruct m; cbn [bind] in H; [|discriminate]
  end.
  rewrite (Reqb_false Ra 0) in H by exact HRa. cbn [bind] in H.
  destruct t as [|row t]; [contradiction|].
  match type of H with
  | bind ?m _ = _ => destruct m as [swl|]; cbn [bind] in H; [|discriminate]
  end.
  cbv zeta. f_equal.
  repeat match type of H with
         | bind ?m _ = _ => destruct m; cbn [bind] in H; [|discriminate]
         end.
  injection H as <-. reflexivity.
Qed.

(** X23: at an outreach beyond every radius of the table the SWL is that of
    the last row, and at an outreach below every radius that of the first
    row, in whatever order the rows are. *)
Theorem swl_outside_the_table (t : Table)
  (Ra crane_weight Mrigging Mhook WCFrigging WCF DAF DAFincl Mblock : R)
  (r : SWLResult) :
  calculate_required_swl (Some t) Ra crane_weight Mrigging Mhook WCFrigging
                         WCF DAF DAFincl Mblock = Ok r ->
  Ra <> 0 -> t <> [] ->
  ((forall row, In row t -> fst row < Ra) -> SWL r = last (map snd t) 0)
  /\ ((forall row, In row t -> Ra < fst row) -> SWL r = hd 0 (map snd t)).
Proof.
  intros H HRa Ht.
  assert (L := calculate_required_swl_lookup _ _ _ _ _ _ _ _ _ _ _ H HRa Ht).
  cbv zeta in L. clear H.
  destruct t as [|row t]; [contradiction|]. split; intros Hall.
  - rewrite mem_false_all in L.
    + cbn [map py_max bind] in L.
      rewrite Rltb_true in L; [injection L as <-; reflexivity|].
      destruct (fold_left_max_In_R (map fst t) (fst row)) as [a [Ha ->]].
      change (In a (map fst (row :: t))) in Ha. apply in_map_iff in Ha.
      destruct Ha as (row' & <- & Hin). apply Hall. exact Hin.
    + intros a Ha. apply in_map_iff in Ha. destruct Ha as (row' & <- & Hin).
      apply Rlt_not_eq, Hall. exact Hin.
  - rewrite mem_false_all in L.
    + cbn [map py_max py_min bind] in L.
      rewrite Rltb_false in L.
      * rewrite Rltb_true in L; [injection L as <-; reflexivity|].
        destruct (fold_left_min_In_R (map fst t) (fst row)) as [a [Ha ->]].
        change (In a (map fst (row :: t))) in Ha. apply in_map_iff in Ha.
        destruct Ha as (row' & <- & Hin). apply Hall. exact Hin.
      * assert (G := fold_left_Rmax_ge (map fst t) (fst row) (fst row)
                       (or_introl eq_refl)).
        assert (Hr := Hall row (or_introl eq_refl)). lra.
    + intros a Ha. apply in_map_iff in Ha. destruct Ha as (row' & <- & Hin).
      apply Rgt_not_eq, Hall. exact Hin.
Qed.

Lemma Sorted_Rlt_nth (l : list R) :
  Sorted Rlt l ->
  forall i j, (i < j)%nat -> (j < List.length l)%nat ->
              nth i l 0 < nth j l 0.
Proof.
  intros H. apply Sorted_StronglySorted in H; [|exact Rlt_trans].
  induction H as [|a l Hs IH Ha]; intros i j Hij Hj; [cbn in Hj; lia|].
  destruct j as [|j]; [lia|]. cbn [List.length] in Hj.
  destruct i as [|i]; cbn [nth].
  - rewrite Forall_forall in Ha. apply Ha, nth_In. lia.
  - apply IH; lia.
Qed.

(** Between two neighbouring radii of an ascending table the lookup
    interpolates between the two rows. *)
Lemma interpolate_swl_between (radius_list swl_list : list R) (Ra : R)
  (k : nat) :
  Sorted Rlt radius_list ->
  (S k < List.length radius_list)%nat ->
  nth k radius_list 0 < Ra < nth (S k) radius_list 0 ->
  interpolate_swl radius_list swl_list Ra
  = Ok (Some (nth k swl_list 0
              + (Ra - nth k radius_list 0)
                * (nth (S k) swl_list 0 - nth k swl_list 0)
                / (nth (S k) radius_list 0 - nth k radius_list 0))).
Proof.
  intros Hs Hk [Hlo Hhi]. assert (M := Sorted_Rlt_nth _ Hs).
  unfold interpolate_swl.
  set (indices := seq 0 (List.length radius_list)).
  assert (Lk : In k (filter (fun i => nth i radius_list 0 <=? Ra) indices)).
  { apply filter_In. split; [apply in_seq; lia|]. apply Rleb_true. lra. }
  assert (Uk : In (S k)
                  (filter (fun i => Ra <=? nth i radius_list 0) indices)).
  { apply filter_In. split; [apply in_seq; lia|]. apply Rleb_true. lra. }
  destruct (filter (fun i => nth i radius_list 0 <=? Ra) indices)
    as [|l0 ls] eqn:El; [destruct Lk|].
  destruct (filter (fun i => Ra <=? nth i radius_list 0) indices)
    as [|u0 us] eqn:Eu; [destruct Uk|].
  assert (Hl : fold_left Nat.max ls l0 = k).
  { assert (G := fold_left_max_ge ls l0 k Lk).
    assert (I := fold_left_max_In ls l0). rewrite <- El in I.
    apply filter_In in I. destruct I as [I1 I2]. apply in_seq in I1.
    destruct (Rleb_spec (nth (fold_left Nat.max ls l0) radius_list 0) Ra)
      as [Hle|]; [|discriminate].
    destruct (Nat.eq_dec (fold_left Nat.max ls l0) k) as [E|E]; [exact E|].
    assert (Hlt : (S k <= fold_left Nat.max ls l0)%nat) by lia.
    destruct (Nat.eq_dec (fold_left Nat.max ls l0) (S k)) as [E'|E'].
    - rewrite E' in Hle. lra.
    - assert (X := M (S k) (fold_left Nat.max ls l0) ltac:(lia) ltac:(lia)).
      lra. }
  assert (Hu : fold_left Nat.min us u0 = S k).
  { assert (G := fold_left_min_le us u0 (S k) Uk).
    assert (I := fold_left_min_In us u0). rewrite <- Eu in I.
    apply filter_In in I. destruct I as [I1 I2]. apply in_seq in I1.
    destruct (Rleb_spec Ra (nth (fold_left Nat.min us u0) radius_list 0))
      as [Hle|]; [|discriminate].
    destruct (Nat.eq_dec (fold_left Nat.min us u0) (S k)) as [E|E];
      [exact E|].
    destruct (Nat.eq_dec (fold_left Nat.min us u0) k) as [E'|E'].
    - rewrite E' in Hle. lra.
    - assert (X := M (fold_left Nat.min us u0) k ltac:(lia) ltac:(lia)).
      lra. }
  rewrite Hl, Hu.
  replace (k =? S k)%nat with false by (symmetry; apply Nat.eqb_neq; lia).
  unfold py_div. rewrite Reqb_false by lra. reflexivity.
Qed.

(** X24: in a table whose radii ascend strictly, at an outreach strictly
    between the radii of two neighbouring rows, the SWL is the linear
    interpolation between the two rows. *)
Theorem swl_between_two_rows (t : Table) (k : nat)
  (Ra crane_weight Mrigging Mhook WCFrigging WCF DAF DAFincl Mblock : R)
  (r : SWLResult) :
  let radius_list := map fst t in
  let swl_list := map snd t in
  Sorted Rlt radius_list ->
  (S k < List.length t)%nat ->
  nth k radius_list 0 < Ra < nth (S k) radius_list 0 ->
  Ra <> 0 ->
  calculate_required_swl (Some t) Ra crane_weight Mrigging Mhook WCFrigging
                         WCF DAF DAFincl Mblock = Ok r ->
  SWL r = nth k swl_list 0
          + (Ra - nth k radius_list 0)
            * (nth (S k) swl_list 0 - nth k swl_list 0)
            / (nth (S k) radius_list 0 - nth k radius_list 0).
Proof.
  intros radius_list swl_list Hs Hk HRa Hz H.
  assert (Ht : t <> []) by (intros ->; cbn in Hk; lia).
  assert (L := calculate_required_swl_lookup _ _ _ _ _ _ _ _ _ _ _ H Hz Ht).
  cbv zeta in L. fold radius_list swl_list in L. clear H.
  assert (Hn : List.length radius_list = List.length t)
    by apply length_map.
  assert (M := Sorted_Rlt_nth _ Hs).
  rewrite mem_false_all in L.
  - assert (Hmx : exists mx, py_max radius_list = Ok mx
                             /\ nth (S k) radius_list 0 <= mx).
    { unfold radius_list in *. destruct t as [|row t]; [contradiction|].
      cbn [map py_max]. eexists. split; [reflexivity|].
      apply fold_left_Rmax_ge.
      change (In (nth (S k) (map fst (row :: t)) 0) (map fst (row :: t))).
      apply nth_In. lia. }
    destruct Hmx as (mx & Emx & Hmx). rewrite Emx in L. cbn [bind] in L.
    rewrite Rltb_false in L by lra.
    assert (Hmn : exists mn, py_min radius_list = Ok mn
                             /\ mn <= nth k radius_list 0).
    { unfold radius_list in *. destruct t as [|row t]; [contradiction|].
      cbn [map py_min]. eexists. split; [reflexivity|].
      apply fold_left_Rmin_le.
      change (In (nth k (map fst (row :: t)) 0) (map fst (row :: t))).
      apply nth_In. lia. }
    destruct Hmn as (mn & Emn & Hmn). rewrite Emn in L. cbn [bind] in L.
    rewrite Rltb_false in L by lra.
    rewrite (interpolate_swl_between radius_list swl_list Ra k Hs) in L
      by (try lia; exact HRa).
    cbn [bind] in L. injection L as <-. reflexivity.
  - intros a Ha E. subst a.
    destruct (In_nth _ _ 0 Ha) as (i & Hi & Ei).
    destruct (Nat.lt_trichotomy i k) as [C|[C|C]].
    + assert (X := M i k C ltac:(lia)). lra.
    + subst i. lra.
    + destruct (Nat.eq_dec i (S k)) as [E|E].
      * subst i. lra.
      * assert (X := M (S k) i ltac:(lia) Hi). lra.
Qed.

End SwlLookupFacts.

Lemma swl_outside_the_table_witness :
  exists r,
    Crane.calculate_required_swl (Some [(10, 100); (20, 80); (30, 50)])
                                 35 10 0 0 1 1 1 1 0 = Ok r
    /\ Crane.SWL r = 50.
Proof.
  destruct (calculate_required_swl_total
              [(10, 100); (20, 80); (30, 50)] 35 10 0 0 1 1 1 1 0)
    as (r & H & _); [discriminate|lra|].
  exists r. split; [exact H|].
  destruct (swl_outside_the_table _ _ _ _ _ _ _ _ _ _ _ H) as [Hlast _];
    [lra|discriminate|].
  apply Hlast. intros row [<-|[<-|[<-|[]]]]; cbn [fst]; lra.
Defined.

Lemma swl_between_two_rows_witness :
  exists r,
    Crane.calculate_required_swl (Some [(10, 100); (20, 80); (30, 50)])
                                 25 10 0 0 1 1 1 1 0 = Ok r
    /\ Crane.SWL r = 80 + (25 - 20) * (50 - 80) / (30 - 20).
Proof.
  destruct (calculate_required_swl_total
              [(10, 100); (20, 80); (30, 50)] 25 10 0 0 1 1 1 1 0)
    as (r & H & _); [discriminate|lra|].
  exists r. split; [exact H|].
  apply (swl_between_two_rows [(10, 100); (20, 80); (30, 50)] 1
           25 10 0 0 1 1 1 1 0 r).
  - cbn [map fst]. repeat constructor; lra.
  - cbn. lia.
  - cbn [map fst nth]. lra.
  - lra.
  - exact H.
Defined.

(** ** The hydrostatic tables behind the floating status *)

Section TrimTableFacts.

Import Trim.

Lemma insert_by_trim_length (e : R * DataFrame) (l : Hydrostatics) :
  List.length (insert_by_trim e l) = S (List.length l).
Proof.
  induction l as [|h t IH]; [reflexivity|].
  cbn [insert_by_trim]. destruct (fst h <? fst e); cbn [List.length];
    [rewrite IH|]; reflexivity.
Qed.

Lemma sorted_by_trim_length (hs : Hydrostatics) :
  List.length (sorted_by_trim hs) = List.length hs.
Proof.
  induction hs as [|h hs IH]; [reflexivity|].
  cbn [sorted_by_trim fold_right]. rewrite insert_by_trim_length.
  fold (sorted_by_trim hs). rewrite IH. reflexivity.
Qed.

(** One interpolator per pair of [zip(weight_data, params)]: as many as there
    are tables, and eight at most. *)
Lemma build_interpolators_length (hs : Hydrostatics)
  (fns : list (R -> R -> R)) :
  build_interpolators hs = Ok fns ->
  List.length fns = Nat.min (List.length hs) 8.
Proof.
  unfold build_interpolators.
  match goal with
  | |- bind ?m _ = _ -> _ =>
      destruct m as [param_data|]; cbn [bind]; [|discriminate]
  end.
  match goal with
  | |- bind ?m _ = _ -> _ =>
      destruct m as [weight_data|] eqn:W; cbn [bind]; [|discriminate]
  end.
  intros H. apply mapM_length in H. apply mapM_length in W.
  rewrite H, length_combine, W, sorted_by_trim_length. reflexivity.
Qed.

(** X25: a ship with fewer than seven hydrostatic tables, one per trim, has no
    interpolator for "mct": when the interpolators are built,
    [optimize_trim] makes its first pass and raises [KeyError]. *)
Theorem optimize_trim_too_few_trim_tables (hs : Hydrostatics)
  (weight lcg tcg vcg vcg_corr length : R) (fns : list (R -> R -> R)) :
  build_interpolators hs = Ok fns ->
  (List.length hs < 7)%nat ->
  optimize_trim hs weight lcg tcg vcg vcg_corr length
  = ([(0, weight)], Raise KeyError).
Proof.
  intros built Hn.
  assert (L := build_interpolators_length hs fns built).
  rewrite (optimize_trim_built hs weight lcg tcg vcg vcg_corr length fns
             built).
  do 7 (destruct fns as [|? fns]; [reflexivity|]).
  cbn [List.length] in L. lia.
Qed.

(** X26: when [optimize_trim] returns a floating status there are at least
    seven tables, and the status has no entry "tpc" exactly when there are
    seven: the eighth parameter gets an interpolator from the eighth table
    only. *)
Theorem optimize_trim_tpc_needs_eight_tables (hs : Hydrostatics)
  (weight lcg tcg vcg vcg_corr length : R) (log : list (R * R))
  (floating_status : list (string * R)) :
  optimize_trim hs weight lcg tcg vcg vcg_corr length
  = (log, Ok floating_status) ->
  (7 <= List.length hs)%nat
  /\ (dict_get floating_status "tpc" = None <-> List.length hs = 7%nat).
Proof.
  intros H.
  destruct (build_interpolators hs) as [fns|e] eqn:built.
  2:{ unfold optimize_trim in H. rewrite built in H. discriminate. }
  assert (L := build_interpolators_length hs fns built).
  rewrite (optimize_trim_built hs weight lcg tcg vcg vcg_corr length fns
             built) in H.
  do 7 (destruct fns as [|? fns]; [discriminate|]).
  unfold pass, evaluate in H. cbn [params combine map tbind] in H.
  unfold lift in H.
  cbn [dict_item dict_get String.eqb Ascii.eqb Bool.eqb bind] in H.
  destruct (py_div (weight * (_ - lcg)) _) as [trim_meter|];
    [|destruct fns; discriminate].
  cbn [tbind app] in H.
  destruct (py_div trim_meter length); [|destruct fns; discriminate].
  destruct fns as [|f7 fns];
    cbn [combine map dict_item dict_get dict_set String.eqb Ascii.eqb
         Bool.eqb bind] in H;
    (destruct (py_div tcg _); [|discriminate]);
    cbn [combine map dict_item dict_get dict_set String.eqb Ascii.eqb
         Bool.eqb bind] in H;
    injection H as <- <-; cbn [List.length] in L;
    cbn [dict_get String.eqb Ascii.eqb Bool.eqb].
  - split; [lia|]. split; [lia|reflexivity].
  - split; [lia|]. split; [discriminate|lia].
Qed.

Lemma sample_floating_status :
  exists log floating_status,
    optimize_trim (Sample.hydrostatics 10 20) 1500 40 (1 / 2) 5 6 100
    = (log, Ok floating_status).
Proof.
  rewrite (optimize_trim_built _ _ _ _ _ _ _ _ (sample_interpolators 10 20)).
  unfold pass, evaluate. cbn [params combine map tbind].
  unfold lift.
  cbn [dict_item dict_get String.eqb Ascii.eqb Bool.eqb bind].
  rewrite !sample_grid_value. unfold py_div. rdecide.
  cbn [tbind app]. rdecide.
  cbn [combine map dict_item dict_get dict_set String.eqb Ascii.eqb
       Bool.eqb bind].
  rewrite !sample_grid_value. rdecide.
  cbn [combine map dict_item dict_get dict_set String.eqb Ascii.eqb
       Bool.eqb bind].
  eexists. eexists. reflexivity.
Qed.

Lemma two_trim_tables_interpolators :
  exists fns,
    build_interpolators (firstn 2 (Sample.hydrostatics 10 20)) = Ok fns.
Proof.
  unfold build_interpolators, Sample.hydrostatics, Sample.uniform_table,
    RegularGridInterpolator.
  py_eval. eexists. reflexivity.
Qed.

End TrimTableFacts.

Lemma optimize_trim_too_few_trim_tables_witness :
  Trim.optimize_trim (firstn 2 (Sample.hydrostatics 10 20))
                     1500 40 (1 / 2) 5 6 100
  = ([(0, 1500)], Raise KeyError).
Proof.
  destruct two_trim_tables_interpolators as [fns H].
  apply (optimize_trim_too_few_trim_tables _ _ _ _ _ _ _ fns H).
  cbn. lia.
Defined.

Lemma optimize_trim_tpc_needs_eight_tables_witness :
  exists log floating_status,
    Trim.optimize_trim (Sample.hydrostatics 10 20) 1500 40 (1 / 2) 5 6 100
    = (log, Ok floating_status)
    /\ (7 <= List.length (Sample.hydrostatics 10 20))%nat
    /\ (dict_get floating_status "tpc" = None
        <-> List.length (Sample.hydrostatics 10 20) = 7%nat).
Proof.
  destruct sample_floating_status as (log & fs & H).
  exists log, fs. split; [exact H|].
  exact (optimize_trim_tpc_needs_eight_tables _ _ _ _ _ _ _ _ _ H).
Defined.

(** ** The lifts of several cranes *)

Section CraneLiftFacts.

Import Crane.

Local Open Scope string_scope.

Lemma dict_get_set_same {V : Type} (d : list (string * V)) (k : string)
  (v : V) : dict_get (dict_set d k v) k = Some v.
Proof.
  induction d as [|[k' v'] d IH]; cbn [dict_set dict_get].
  - rewrite String.eqb_refl. reflexivity.
  - destruct (String.eqb k k') eqn:E; cbn [dict_get]; rewrite E.
    + reflexivity.
    + exact IH.
Qed.

(** X27: when the last crane of [crane_data] has cargo, the
    ["calculated_output_values"] that [calculate_crane_and_swl] returns are
    those of that crane's lift, whatever the cranes before it have lifted. *)
Theorem calculate_crane_and_swl_returns_the_last_lift
  (ship_crane_data : CraneData)
  (crane_data : list (string * list CraneDetails))
  (crane : string) (crane_details : CraneDetails)
  (more_details : list CraneDetails)
  (cargo_data : list (string * (R * R * R * R)))
  (cargo_details : R * R * R * R)
  (Mrigging Mhook WCFrigging WCF DAF DAFincl Mblock : R)
  (boomdata : list (string * string))
  (crane_orientations : list (string * option CraneOrientation))
  (required_swl : SWLResult) :
  dict_get cargo_data crane = Some cargo_details ->
  calculate_crane_and_swl
    ship_crane_data (crane_data ++ [(crane, crane_details :: more_details)])
    cargo_data Mrigging Mhook WCFrigging WCF DAF DAFincl Mblock boomdata
  = Ok (crane_orientations, required_swl) ->
  exists orientation,
    lift_crane ship_crane_data crane_details cargo_details Mrigging Mhook
               WCFrigging WCF DAF DAFincl Mblock boomdata
    = Ok (orientation, required_swl)
    /\ dict_get crane_orientations crane = Some (Some orientation).
Proof.
  intros Hc. unfold calculate_crane_and_swl. rewrite lift_cranes_app.
  destruct (lift_cranes _ crane_data _ _ _ _ _ _ _ _ _ _ _) as [[os s]|];
    cbn [bind]; [|discriminate].
  cbn [lift_cranes bind fst snd]. rewrite Hc.
  destruct (lift_crane _ _ _ _ _ _ _ _ _ _ _) as [[o swl]|]; cbn [bind];
    [|discriminate].
  cbn [fst snd]. intros H. injection H as <- <-.
  exists o. split; [reflexivity|]. apply dict_get_set_same.
Qed.

Lemma sample_two_lifts :
  exists r,
    calculate_crane_and_swl
      [("Main", [("Lift", [("10.csv", [(10, 100); (20, 80); (30, 50)])])])]
      [("crane_1", [{| pedestal_base_point := (0, 0, 0);
                       boom_tip_point := TipPoint (20, 0, 5) |}]);
       ("crane_2", [{| pedestal_base_point := (0, 0, 0);
                       boom_tip_point := TipPoint (10, 0, 5) |}])]
      [("crane_1", (10, 20, 0, 0)); ("crane_2", (5, 10, 0, 0))]
      0 0 1 1 1 1 0
      [("boom", "Main"); ("operation", "Lift"); ("height", "10")]
    = Ok r.
Proof.
  assert (S20 : sqrt ((20 - 0) ^ 2 + (0 - 0) ^ 2) = 20).
  { replace ((20 - 0) ^ 2 + (0 - 0) ^ 2) with (20 * 20) by ring.
    apply sqrt_square. lra. }
  assert (S10 : sqrt ((10 - 0) ^ 2 + (0 - 0) ^ 2) = 10).
  { replace ((10 - 0) ^ 2 + (0 - 0) ^ 2) with (10 * 10) by ring.
    apply sqrt_square. lra. }
  unfold calculate_crane_and_swl.
  cbn [lift_cranes bind dict_get String.eqb Ascii.eqb Bool.eqb].
  unfold lift_crane.
  cbn [pedestal_base_point boom_tip_point dict_item dict_get String.eqb
       Ascii.eqb Bool.eqb bind select_boom_tip].
  rewrite S20, S10.
  unfold get_swl_table. cbn [dict_get String.eqb Ascii.eqb Bool.eqb truthy negb orb append].
  unfold calculate_required_swl, interpolate_swl, interpolate_radius, py_div.
  py_eval.
  unfold calculate_boom_angle, calculate_slew_angle, py_div, py_acos.
  rewrite ?S20, ?S10.
  assert (Q20 : 20 / (20 - 0) = 1) by lra.
  assert (Q10 : 10 / (10 - 0) = 1) by lra.
  assert (C20 : ((20 - 0) * (20 - 0) + (0 - 0) * (0 - 0)) / (20 * 20) = 1)
    by lra.
  assert (C10 : ((10 - 0) * (10 - 0) + (0 - 0) * (0 - 0)) / (10 * 10) = 1)
    by lra.
  repeat (progress (rdecide; cbn [andb bind fst snd];
                    rewrite ?Q20, ?Q10, ?C20, ?C10, ?degrees_acos_1)).
  eexists. reflexivity.
Qed.

End CraneLiftFacts.

Lemma calculate_crane_and_swl_returns_the_last_lift_witness :
  exists crane_orientations required_swl orientation,
    Crane.calculate_crane_and_swl
      [("Main", [("Lift", [("10.csv", [(10, 100); (20, 80); (30, 50)])])])]%string
      [("crane_1", [{| Crane.pedestal_base_point := (0, 0, 0);
                       Crane.boom_tip_point := Crane.TipPoint (20, 0, 5) |}]);
       ("crane_2", [{| Crane.pedestal_base_point := (0, 0, 0);
                       Crane.boom_tip_point := Crane.TipPoint (10, 0, 5) |}])]%string
      [("crane_1", (10, 20, 0, 0)); ("crane_2", (5, 10, 0, 0))]%string
      0 0 1 1 1 1 0
      [("boom", "Main"); ("operation", "Lift"); ("height", "10")]%string
    = Ok (crane_orientations, required_swl)
    /\ Crane.lift_crane
         [("Main", [("Lift", [("10.csv", [(10, 100); (20, 80); (30, 50)])])])]%string
         {| Crane.pedestal_base_point := (0, 0, 0);
            Crane.boom_tip_point := Crane.TipPoint (10, 0, 5) |}
         (5, 10, 0, 0) 0 0 1 1 1 1 0
         [("boom", "Main"); ("operation", "Lift"); ("height", "10")]%string
       = Ok (orientation, required_swl)
    /\ dict_get crane_orientations "crane_2" = Some (Some orientation).
Proof.
  destruct sample_two_lifts as [[os s] H].
  destruct (calculate_crane_and_swl_returns_the_last_lift
              [("Main", [("Lift", [("10.csv", [(10, 100); (20, 80); (30, 50)])])])]%string
              [("crane_1"%string,
                [{| Crane.pedestal_base_point := (0, 0, 0);
                    Crane.boom_tip_point := Crane.TipPoint (20, 0, 5) |}])]
              "crane_2"
              {| Crane.pedestal_base_point := (0, 0, 0);
                 Crane.boom_tip_point := Crane.TipPoint (10, 0, 5) |}
              []
              [("crane_1", (10, 20, 0, 0)); ("crane_2", (5, 10, 0, 0))]%string
              (5, 10, 0, 0) 0 0 1 1 1 1 0
              [("boom", "Main"); ("operation", "Lift"); ("height", "10")]%string
              os s eq_refl H) as (o & Hl & Ho).
  exists os, s, o. split; [exact H|]. split; [exact Hl|exact Ho].
Defined.
